(** * ANHALYZE: a shallow embedding of [anhalyze_utils.py]

    The Python module locates NEMO/ANHA4 output files, cuts a latitude /
    longitude window out of a model grid, reduces it to summary statistics,
    assembles a time series and derives heatwave / cold-spell threshold
    bands.  Each Python function is embedded below under its own name.

    Conventions of the embedding
    - Python exceptions are values of [exn]; a call either returns [Ok v] or
      [Raise e].  Code that can also print runs in the monad [M], which
      pairs the lines written to standard output with the result.
    - Everything the code reads from outside (host name, environment,
      directory listings, netCDF files, standard input) is a field of
      [World].
    - Floating-point numbers are modelled by exact rationals plus
      not-a-number ([cell]); rounding, infinities and signed zeros are not
      modelled.  [np.sqrt] is a parameter [np_sqrt].
    - Strings are byte strings; [str.upper] and [int] are modelled on ASCII. *)

From Stdlib Require Import Bool List Arith ZArith QArith Qround Qminmax Lia Lqa.
From Stdlib Require Import Ascii String DecimalString.
From Stdlib Require Import Sorted Permutation.
Import ListNotations.

Local Open Scope list_scope.
Local Open Scope string_scope.

(** ** Exceptions and results *)

Inductive exn : Type :=
| KeyError
| UnboundLocalError
| AssertionError
| ValueError
| IndexError
| TypeError
| AttributeError
| FileNotFoundError.

Inductive result (A : Type) : Type :=
| Ok (a : A)
| Raise (e : exn).

Arguments Ok {A} a.
Arguments Raise {A} e.

Definition rbind {A B : Type} (r : result A) (f : A -> result B) : result B :=
  match r with
  | Ok a => f a
  | Raise e => Raise e
  end.

Fixpoint rmap {A B : Type} (f : A -> result B) (l : list A) : result (list B) :=
  match l with
  | [] => Ok []
  | x :: t => rbind (f x) (fun y => rbind (rmap f t) (fun ys => Ok (y :: ys)))
  end.

(** Printed lines paired with the outcome of the call. *)
Definition M (A : Type) : Type := (list string * result A)%type.

Definition ret {A : Type} (a : A) : M A := ([], Ok a).
Definition raise {A : Type} (e : exn) : M A := ([], Raise e).
Definition print (s : string) : M unit := ([s], Ok tt).
Definition lift {A : Type} (r : result A) : M A := ([], r).

Definition bind {A B : Type} (m : M A) (f : A -> M B) : M B :=
  match m with
  | (out, Ok a) => let (out', r) := f a in ((out ++ out')%list, r)
  | (out, Raise e) => (out, Raise e)
  end.

Declare Scope py_scope.
Delimit Scope py_scope with py.
Notation "x <- m ;; k" := (bind m (fun x => k))
  (at level 61, m at next level, right associativity) : py_scope.
Notation "' p <- m ;; k" := (bind m (fun p => k))
  (at level 61, p pattern, m at next level, right associativity) : py_scope.
Notation "m ;;; k" := (bind m (fun _ => k))
  (at level 61, right associativity) : py_scope.
Notation "x <~ r ;; k" := (rbind r (fun x => k))
  (at level 61, r at next level, right associativity) : py_scope.
Notation "' p <~ r ;; k" := (rbind r (fun p => k))
  (at level 61, p pattern, r at next level, right associativity) : py_scope.

Local Open Scope py_scope.

(** ** Python built-ins used by the module *)

Module Py.

(** [sub in s] on strings. *)
Fixpoint str_in (sub s : string) : bool :=
  prefix sub s ||
  match s with
  | EmptyString => false
  | String _ t => str_in sub t
  end.

(** [s.split(sep)] for a one-character separator. *)
Fixpoint split (sep : ascii) (s : string) : list string :=
  match s with
  | EmptyString => [EmptyString]
  | String c t =>
      if Ascii.eqb c sep then EmptyString :: split sep t
      else match split sep t with
           | h :: r => String c h :: r
           | [] => [String c EmptyString]
           end
  end.

(** [l[i]] with Python's negative indices. *)
Definition index {A : Type} (l : list A) (i : Z) : result A :=
  let n := Z.of_nat (List.length l) in
  let j := if (i <? 0)%Z then (i + n)%Z else i in
  if ((j <? 0) || (n <=? j))%Z then Raise IndexError
  else match nth_error l (Z.to_nat j) with
       | Some x => Ok x
       | None => Raise IndexError
       end.

(** Bounds of [a:b] on a sequence of length [n]: negative bounds count
    from the end, then both are clamped to [0, n]. *)
Definition slice_bound (n : nat) (i : Z) : nat :=
  let j := if (i <? 0)%Z then (i + Z.of_nat n)%Z else i in
  Z.to_nat (Z.min (Z.max j 0) (Z.of_nat n)).

Definition slice {A : Type} (l : list A) (a b : Z) : list A :=
  let lo := slice_bound (List.length l) a in
  let hi := slice_bound (List.length l) b in
  firstn (hi - lo) (skipn lo l).

(** [s[a:b]] for literal non-negative bounds. *)
Definition str_slice (s : string) (a b : nat) : string :=
  substring a (b - a) s.

(** [s.upper()] on ASCII letters. *)
Definition upper_char (c : ascii) : ascii :=
  let n := nat_of_ascii c in
  if (97 <=? n)%nat && (n <=? 122)%nat then ascii_of_nat (n - 32) else c.

Fixpoint upper (s : string) : string :=
  match s with
  | EmptyString => EmptyString
  | String c t => String (upper_char c) (upper t)
  end.

(** [int(s)]: surrounding white space, an optional sign, then decimal
    digits which may be separated by single underscores. *)
Definition is_space (c : ascii) : bool :=
  let n := nat_of_ascii c in
  ((9 <=? n)%nat && (n <=? 13)%nat) ||
  ((28 <=? n)%nat && (n <=? 32)%nat).

Definition digit_of (c : ascii) : option Z :=
  let n := nat_of_ascii c in
  if (48 <=? n)%nat && (n <=? 57)%nat then Some (Z.of_nat (n - 48)) else None.

Fixpoint lstrip (s : string) : string :=
  match s with
  | EmptyString => EmptyString
  | String c t => if is_space c then lstrip t else s
  end.

Fixpoint rstrip (s : string) : string :=
  match s with
  | EmptyString => EmptyString
  | String c t =>
      match rstrip t with
      | EmptyString => if is_space c then EmptyString else String c EmptyString
      | t' => String c t'
      end
  end.

Fixpoint digits (acc : Z) (after_digit : bool) (s : string) : option Z :=
  match s with
  | EmptyString => if after_digit then Some acc else None
  | String c t =>
      match digit_of c with
      | Some d => digits (10 * acc + d)%Z true t
      | None =>
          if Ascii.eqb c "_"%char && after_digit then digits acc false t
          else None
      end
  end.

Definition int (s : string) : result Z :=
  let body := lstrip (rstrip s) in
  let parsed :=
    match body with
    | String "+"%char t => digits 0 false t
    | String "-"%char t => option_map Z.opp (digits 0 false t)
    | _ => digits 0 false body
    end in
  match parsed with
  | Some z => Ok z
  | None => Raise ValueError
  end.

(** [str(z)] for an integer. *)
Definition str_of_int (z : Z) : string :=
  NilZero.string_of_int (Z.to_int z).

(** A value put into a [{}] placeholder of [str.format]. *)
Inductive fmt_arg : Type :=
| FStr (s : string)
| FInt (z : Z).

Definition format_arg (a : fmt_arg) : string :=
  match a with
  | FStr s => s
  | FInt z => str_of_int z
  end.

(** [sorted(l)] on strings: ascending by code unit.  Insertion keeps the
    order of duplicates, like Python's stable sort. *)
Fixpoint insert_sorted (x : string) (l : list string) : list string :=
  match l with
  | [] => [x]
  | y :: t => if String.leb x y then x :: l else y :: insert_sorted x t
  end.

Fixpoint sorted (l : list string) : list string :=
  match l with
  | [] => []
  | x :: t => insert_sorted x (sorted t)
  end.

(** [repr] of a list of strings, for names without quotes or escapes. *)
Definition repr_list (l : list string) : string :=
  "[" ++ String.concat ", " (map (fun s => "'" ++ s ++ "'") l) ++ "]".

(** Truth value of an optional string ([None] and [''] are false). *)
Definition truthy (s : option string) : bool :=
  match s with
  | None => false
  | Some EmptyString => false
  | Some _ => true
  end.

End Py.

Definition nl : string := String (ascii_of_nat 10) EmptyString.

(** ** The outside world *)

(** Two-dimensional arrays are lists of rows. *)
Definition matrix (A : Type) : Type := list (list A).

(** A floating-point array element. *)
Inductive cell : Type :=
| NaN
| Num (q : Q).

(** A netCDF dataset: coordinate grids are 2-D, physical variables and the
    mask are indexed [time][depth][row][col]. *)
Record Dataset : Type := {
  var2d : string -> option (matrix Q);
  var4d : string -> option (list (list (matrix cell)))
}.

Record World : Type := {
  hostname : string;                           (* socket.gethostname() *)
  environ : string -> option string;           (* os.environ *)
  listdir : string -> result (list string);    (* os.listdir *)
  nc_Dataset : string -> result Dataset;       (* nc.Dataset *)
  stdin_line : string                          (* what input() reads *)
}.

(** ** [get_paths] *)

Definition paths_message : string :=
  "Relevant paths not defined, "
  ++ "please add in your .bash_profile (or .bashrc, etc..) something like this: " ++ nl ++ nl
  ++ "#-------------------------------------------------------------" ++ nl
  ++ "# ANHALIZE setup" ++ nl
  ++ "#-------------------------------------------------------------" ++ nl
  ++ "export MASK_PATH='/root_path/user/ANALYSES/MASKS/'" ++ nl
  ++ "export DATA_PATH='/root_path/user/NEMO/ANHA4/ANHA4-EPM111-S/'" ++ nl
  ++ "#-------------------------------------------------------------" ++ nl.

Definition py_assert (b : bool) : M unit :=
  if b then ret tt else raise AssertionError.

(** The [try] block binds [mask_path] and then [data_path]; a [KeyError]
    is caught, the message is printed, and control reaches the final
    [return] with whatever locals were bound. *)
Definition get_paths (w : World) (run_name : option string) (environ_paths : bool)
  : M (string * string) :=
  if negb (Py.str_in "portal" (hostname w)) || negb (Py.truthy run_name) || environ_paths
  then
    '(mask_path, data_path) <-
      match environ w "MASK_PATH" with
      | None => print paths_message ;;; ret (None, None)
      | Some mask_path =>
          match environ w "DATA_PATH" with
          | None => print paths_message ;;; ret (Some mask_path, None)
          | Some data_path => ret (Some mask_path, Some data_path)
          end
      end ;;
    match data_path, mask_path with
    | Some d, Some m => ret (d, m)
    | _, _ => raise UnboundLocalError
    end
  else
    let run_name := match run_name with Some r => r | None => EmptyString end in
    py_assert (Py.str_in "-" run_name) ;;;
    py_assert (Py.str_in "ANHA" run_name) ;;;
    py_assert (String.length run_name =? String.length "ANHA4-WJM000")%nat ;;;
    model_path <- lift (Py.index (Py.split "-" run_name) 0) ;;
    second <- lift (Py.index (Py.split "-" run_name) 1) ;;
    let user_initials := Py.upper (Py.str_slice second 1 3) in
    user_path <-
      (if existsb (fun x => Py.str_in x user_initials) ["JM"; "PM"] then ret "jmarson"
       else if (user_initials =? "MC")%string then ret "madhurima"
       else if (user_initials =? "EE")%string then ret "emilio"
       else raise ValueError) ;;
    let data_path :=
      "/mnt/storage0/" ++ user_path ++ "/NEMO/" ++ model_path ++ "/" ++ run_name ++ "-S/" in
    let mask_path := "/mnt/storage0/" ++ user_path ++ "/ANALYSES/MASKS/" in
    ret (data_path, mask_path).

(** ** [get_date] *)

(** What [get_date] returns: a triple, one integer, or the date token. *)
Inductive date_info : Type :=
| DateYMD (y m d : Z)
| DateInt (n : Z)
| DateStr (s : string).

Definition get_date (filename : string) (how : string) : result date_info :=
  date <~ Py.index (Py.split "_" filename) (-2) ;;
  if (how =? "ymd")%string then
    y <~ Py.int (Py.str_slice date 1 5) ;;
    m <~ Py.int (Py.str_slice date 6 8) ;;
    d <~ Py.int (Py.str_slice date 9 11) ;;
    Ok (DateYMD y m d)
  else if (how =? "y")%string then
    y <~ Py.int (Py.str_slice date 1 5) ;; Ok (DateInt y)
  else if (how =? "m")%string then
    m <~ Py.int (Py.str_slice date 6 8) ;; Ok (DateInt m)
  else Ok (DateStr date).

(** ** The [Anhalyze] class *)

Record Anhalyze : Type := {
  run_name : option string;
  grid : string;
  years : list string;
  month_list : option (list Py.fmt_arg);
  one_per_month : bool;
  verbose : bool
}.

(** ['_y' + year in f and '_grid' + self.grid in f] *)
Definition year_grid_match (year grid : string) (f : string) : bool :=
  Py.str_in ("_y" ++ year) f && Py.str_in ("_grid" ++ grid) f.

(** ['y{}m{}'.format(year, month)] *)
Definition file_name_stump (year : string) (month : Py.fmt_arg) : string :=
  "y" ++ year ++ "m" ++ Py.format_arg month.

Definition month_of (filename : string) : result Py.fmt_arg :=
  d <~ get_date filename "m" ;;
  match d with
  | DateInt m => Ok (Py.FInt m)
  | _ => Raise TypeError
  end.

Definition is_nil {A : Type} (l : list A) : bool :=
  match l with [] => true | _ => false end.

(** The loop [for year in self.years: selected_file_list += sorted([...])]. *)
Definition select_year_grid (years : list string) (grid : string) (file_list : list string)
  : list string :=
  flat_map (fun year => Py.sorted (filter (year_grid_match year grid) file_list)) years.

(** The files whose name contains the stump of [year] and [month]. *)
Definition month_files (selected_file_list : list string) (year : string)
  (month : Py.fmt_arg) : list string :=
  filter (Py.str_in (file_name_stump year month)) selected_file_list.

Definition get_file_list (w : World) (self : Anhalyze)
  (month_list : option (list Py.fmt_arg)) (one_per_month monthly_mean : bool)
  : M (list string) :=
  let month_list := match month_list with None => [] | Some l => l end in
  '(data_path, mask_path) <- get_paths w (run_name self) false ;;
  data_path <-
    (if monthly_mean then
       print "---------------------------" ;;;
       print "Insert monthly averaged data path: " ;;;
       ret (stdin_line w)
     else ret data_path) ;;
  file_list <- lift (listdir w data_path) ;;
  let selected_file_list := select_year_grid (years self) (grid self) file_list in
  monthly_file_list <-
    (if one_per_month then
       month_list <-
         (if is_nil month_list then lift (rmap month_of selected_file_list)
          else ret month_list) ;;
       per_year <- lift (rmap (fun year =>
           rmap (fun month => Py.index (month_files selected_file_list year month) 0)
             month_list)
         (years self)) ;;
       ret (List.concat per_year)
     else
       if negb (is_nil month_list) then
         ret (flat_map (fun year =>
                flat_map (fun month => month_files selected_file_list year month) month_list)
                (years self))
       else ret []) ;;
  let selected_file_list :=
    if negb (is_nil monthly_file_list) then monthly_file_list else selected_file_list in
  ret (map (fun filename => data_path ++ filename) selected_file_list).

(** [Anhalyze.__init__]: the constructor fills the defaults and builds the
    file list, printing it when [verbose]. *)
Definition Anhalyze_init (w : World) (run_name : option string) (grid : option string)
  (years : option (list string)) (month_list : option (list Py.fmt_arg))
  (one_per_month verbose : bool) : M (Anhalyze * list string) :=
  let self := {|
    run_name := run_name;
    grid := match grid with None => "T" | Some g => g end;
    years := match years with None => ["1998"] | Some ys => ys end;
    month_list := month_list;
    one_per_month := one_per_month;
    verbose := verbose |} in
  file_list <- get_file_list w self month_list one_per_month false ;;
  (if verbose then print (Py.repr_list file_list) else ret tt) ;;;
  ret (self, file_list).


(** ** Arrays *)

Definition Qltb (x y : Q) : bool := negb (Qle_bool y x).

Definition zip_with {A B C : Type} (f : A -> B -> C) (l1 : list A) (l2 : list B) : list C :=
  map (fun p => f (fst p) (snd p)) (combine l1 l2).

Definition shape {A : Type} (m : matrix A) : list nat := map (@List.length A) m.

Definition same_shape {A B : Type} (m1 : matrix A) (m2 : matrix B) : bool :=
  if list_eq_dec Nat.eq_dec (shape m1) (shape m2) then true else false.

Definition matrix_zip {A B C : Type} (f : A -> B -> C) (m1 : matrix A) (m2 : matrix B)
  : matrix C :=
  zip_with (zip_with f) m1 m2.

Definition np_sum (l : list Q) : Q := fold_right Qplus 0 l.

(** [a.sum(axis=1)]: one sum per row. *)
Definition sum_axis1 (m : matrix Q) : list Q := map np_sum m.

(** [a.sum(axis=0)]: one sum per column. *)
Definition ncols {A : Type} (m : matrix A) : nat :=
  match m with
  | [] => 0
  | r :: _ => List.length r
  end.

Definition sum_axis0 (m : matrix Q) : list Q :=
  map (fun j => np_sum (map (fun r => nth j r 0) m)) (seq 0 (ncols m)).

(** [np.where(b)[0]]: the positions holding [True]. *)
Definition np_where (b : list bool) : list Z :=
  map (fun p => Z.of_nat (fst p))
      (filter (fun p => snd p) (combine (seq 0 (List.length b)) b)).

(** [m[r0:r1, c0:c1]] *)
Definition slice2d {A : Type} (m : matrix A) (rows cols : Z * Z) : matrix A :=
  map (fun r => Py.slice r (fst cols) (snd cols)) (Py.slice m (fst rows) (snd rows)).

(** netCDF4 raises [IndexError] for a name the dataset does not have. *)
Definition nc_var2d (data : Dataset) (name : string) : result (matrix Q) :=
  match var2d data name with
  | Some a => Ok a
  | None => Raise IndexError
  end.

Definition nc_var4d (data : Dataset) (name : string)
  : result (list (list (matrix cell))) :=
  match var4d data name with
  | Some a => Ok a
  | None => Raise IndexError
  end.

(** A number used as a slice bound must be an integer. *)
Definition as_index (q : Q) : result Z :=
  let r := Qred q in
  if Pos.eqb (Qden r) 1 then Ok (Qnum r) else Raise TypeError.

(** ** [get_row_col_range] *)

(** [(a > range[0]) & (a < range[1])] on one entry. *)
Definition in_range (range : Q * Q) (x : Q) : bool :=
  Qltb (fst range) x && Qltb x (snd range).

(** [lat_mask & lon_mask], cell by cell. *)
Definition window_cells (lat lon : matrix Q) (lat_range lon_range : Q * Q) : matrix bool :=
  matrix_zip andb (map (map (in_range lat_range)) lat) (map (map (in_range lon_range)) lon).

(** Arrays of unequal shape do not combine. *)
Definition window_mask (lat lon : matrix Q) (lat_range lon_range : Q * Q)
  : result (matrix bool) :=
  if same_shape (map (map (in_range lat_range)) lat) (map (map (in_range lon_range)) lon)
  then Ok (window_cells lat lon lat_range lon_range)
  else Raise ValueError.

(** [mask = lat; mask[~both] = 0]: the latitudes, zero outside the window. *)
Definition masked_latitudes (lat : matrix Q) (both : matrix bool) : matrix Q :=
  matrix_zip (fun x (b : bool) => if b then x else 0) lat both.

(** The masked latitudes are summed along each axis; a row or column
    counts when its sum is positive. *)
Definition get_row_col_range (data : Dataset) (lat_range lon_range : Q * Q)
  (grid : string) : result ((Z * Z) * (Z * Z)) :=
  let names :=
    if (grid =? "gridT")%string then ("nav_lat_grid_T", "nav_lon_grid_T")
    else ("nav_lat", "nav_lon") in
  lat <~ nc_var2d data (fst names) ;;
  lon <~ nc_var2d data (snd names) ;;
  both <~ window_mask lat lon lat_range lon_range ;;
  let mask := masked_latitudes lat both in
  let row_ranges := np_where (map (Qltb 0) (sum_axis1 mask)) in
  let col_ranges := np_where (map (Qltb 0) (sum_axis0 mask)) in
  r0 <~ Py.index row_ranges 0 ;;
  r1 <~ Py.index row_ranges (-1) ;;
  c0 <~ Py.index col_ranges 0 ;;
  c1 <~ Py.index col_ranges (-1) ;;
  Ok ((r0, r1), (c0, c1)).

(** The [if cardinal: ... else: ...] block shared by [get_lat_lon],
    [get_mask] and [get_var_data]. *)
Definition select_range (data : Dataset) (lat_range lon_range : Q * Q) (cardinal : bool)
  : result ((Z * Z) * (Z * Z)) :=
  if cardinal then get_row_col_range data lat_range lon_range "gridT"
  else
    r0 <~ as_index (fst lat_range) ;;
    r1 <~ as_index (snd lat_range) ;;
    c0 <~ as_index (fst lon_range) ;;
    c1 <~ as_index (snd lon_range) ;;
    Ok ((r0, r1), (c0, c1)).


Definition get_mask (w : World) (data : Dataset) (lat_range lon_range : Q * Q)
  (depth : Z) (cardinal : bool) : M (matrix cell) :=
  '(data_path, mask_path) <- get_paths w None false ;;
  mask <- lift (nc_Dataset w (mask_path ++ "ANHA4_mask.nc")) ;;
  tmask4 <- lift (nc_var4d mask "tmask") ;;
  tmask3 <- lift (Py.index tmask4 0) ;;
  tmask <- lift (Py.index tmask3 depth) ;;
  '(row_range, col_range) <- lift (select_range data lat_range lon_range cardinal) ;;
  ret (slice2d tmask row_range col_range).

Definition is_one (c : cell) : bool :=
  match c with
  | Num q => Qeq_bool 1 q
  | NaN => false
  end.

(** The nested [get_mask] call is made without [cardinal], so it always
    resolves the window from latitude and longitude. *)
Definition get_var_data (w : World) (data : Dataset) (lat_range lon_range : Q * Q)
  (depth : Z) (var : string) (masked cardinal : bool) : M (matrix cell) :=
  var_data4 <- lift (nc_var4d data var) ;;
  '(row_range, col_range) <- lift (select_range data lat_range lon_range cardinal) ;;
  var_data3 <- lift (Py.index var_data4 0) ;;
  layer <- lift (Py.index var_data3 depth) ;;
  let var_data := slice2d layer row_range col_range in
  if masked then
    surf_mask <- get_mask w data lat_range lon_range depth true ;;
    if same_shape var_data surf_mask
    then ret (matrix_zip (fun v m => if is_one m then v else NaN) var_data surf_mask)
    else raise IndexError
  else ret var_data.

(** ** Not-a-number aware reductions *)

Definition is_nan (c : cell) : bool :=
  match c with
  | NaN => true
  | Num _ => false
  end.

(** The numbers of an array, missing cells left out. *)
Fixpoint valid_values (l : list cell) : list Q :=
  match l with
  | [] => []
  | NaN :: t => valid_values t
  | Num q :: t => q :: valid_values t
  end.

(** numpy's [_replace_nan(a, 0)]. *)
Definition replace_nan (l : list cell) : list Q :=
  map (fun c => match c with NaN => 0 | Num q => q end) l.

Definition count_valid (l : list cell) : nat :=
  List.length (filter (fun c => negb (is_nan c)) l).

Definition Qnat (n : nat) : Q := inject_Z (Z.of_nat n).

(** [np.nanmean]: the sum of the array with missing cells replaced by zero,
    divided by the number of cells that are not missing; [0/0] is
    not-a-number (numpy only warns).  Numbers are exact rationals here,
    where numpy rounds each operation to binary64: the value of a mean or
    a variance is the one numpy approximates. *)
Definition np_nanmean (a : matrix cell) : cell :=
  let flat := List.concat a in
  let cnt := count_valid flat in
  if (cnt =? 0)%nat then NaN
  else Num (np_sum (replace_nan flat) / Qnat cnt).

(** [np.nanvar] with [ddof=0]: deviations from the mean, put back to zero
    on the missing cells, squared, summed and divided by the same count. *)
Definition np_nanvar (a : matrix cell) : cell :=
  let flat := List.concat a in
  let cnt := count_valid flat in
  if (cnt =? 0)%nat then NaN
  else
    let avg := np_sum (replace_nan flat) / Qnat cnt in
    let dev := map (fun c => match c with NaN => 0 | Num q => q - avg end) flat in
    Num (np_sum (map (fun d => d * d) dev) / Qnat cnt).

(** [np.nanmin] / [np.nanmax]: an empty array has no minimum
    ([ValueError]); an array of missing cells only gives not-a-number. *)
Definition nan_reduce (f : Q -> Q -> Q) (a : matrix cell) : result cell :=
  let flat := List.concat a in
  if is_nil flat then Raise ValueError
  else match valid_values flat with
       | [] => Ok NaN
       | x :: t => Ok (Num (fold_left f t x))
       end.

Definition np_nanmin : matrix cell -> result cell := nan_reduce Qmin.
Definition np_nanmax : matrix cell -> result cell := nan_reduce Qmax.

(** The tuple returned by [calc_stats_var_data]. *)
Inductive stats : Type :=
| Stats2 (var_mean var_std : cell)
| Stats4 (var_mean var_std var_min var_max : cell).

(** ** Dates *)

Definition is_leap (y : Z) : bool :=
  ((y mod 4 =? 0) && negb (y mod 100 =? 0) || (y mod 400 =? 0))%Z.

Definition days_in_month (y m : Z) : Z :=
  if (m =? 2)%Z then (if is_leap y then 29 else 28)%Z
  else if ((m =? 4) || (m =? 6) || (m =? 9) || (m =? 11))%Z then 30%Z
  else 31%Z.

(** Values held by Python lists and table columns. *)
Inductive val : Type :=
| VFloat (c : cell)
| VInt (z : Z)
| VDate (y m d : Z)
| VNone.

(** [datetime.date(y, m, d)] *)
Definition datetime_date (y m d : Z) : result val :=
  if ((1 <=? y) && (y <=? 9999) && (1 <=? m) && (m <=? 12)
      && (1 <=? d) && (d <=? days_in_month y m))%Z
  then Ok (VDate y m d)
  else Raise ValueError.

(** ** Tables *)

(** A [pandas.DataFrame] with the default integer index: the number of
    rows and the columns in insertion order. *)
Record DataFrame : Type := {
  nrows : nat;
  columns : list (string * list val)
}.

Fixpoint lookup {A : Type} (k : string) (l : list (string * A)) : option A :=
  match l with
  | [] => None
  | (k', v) :: t => if (k =? k')%string then Some v else lookup k t
  end.

(** [pd.DataFrame({name: list, ...})]: every list must have the same
    length. *)
Definition pd_DataFrame (cols : list (string * list val)) : result DataFrame :=
  match cols with
  | [] => Ok {| nrows := 0; columns := [] |}
  | (_, c) :: t =>
      if forallb (fun p => (List.length (snd p) =? List.length c)%nat) t
      then Ok {| nrows := List.length c; columns := cols |}
      else Raise ValueError
  end.

(** [df[name]] *)
Definition df_get (df : DataFrame) (name : string) : result (list val) :=
  match lookup name (columns df) with
  | Some c => Ok c
  | None => Raise KeyError
  end.

(** ** The list objects of [get_timeseries]

    Python lists are objects: the heap maps a reference to the current
    contents of its list, and two names bound by one chained assignment
    hold the same reference. *)

Definition ref : Type := nat.
Definition heap : Type := list (list val).

Definition new_list (h : heap) : ref * heap := (List.length h, (h ++ [[]])%list).

Definition deref (h : heap) (r : ref) : list val := nth r h [].

Fixpoint list_append (h : heap) (r : ref) (v : val) : heap :=
  match h, r with
  | [], _ => []
  | l :: t, O => (l ++ [v])%list :: t
  | l :: t, S r' => l :: list_append t r' v
  end.

Fixpoint foldM {A S : Type} (f : S -> A -> M S) (l : list A) (s : S) : M S :=
  match l with
  | [] => ret s
  | x :: t => s' <- f s x ;; foldM f t s'
  end.

Section Statistics.

(** [np.sqrt] on a non-negative number. *)
Variable np_sqrt : Q -> Q.

Definition np_nanstd (a : matrix cell) : cell :=
  match np_nanvar a with
  | NaN => NaN
  | Num v => Num (np_sqrt v)
  end.

(** ** [calc_stats_var_data] *)

Definition calc_stats_var_data (w : World) (data : Dataset) (lat_range lon_range : Q * Q)
  (depth : Z) (no_min_max : bool) (var : string) : M stats :=
  var_data <- get_var_data w data lat_range lon_range depth var true true ;;
  let var_mean := np_nanmean var_data in
  let var_std := np_nanstd var_data in
  if no_min_max then ret (Stats2 var_mean var_std)
  else
    var_min <- lift (np_nanmin var_data) ;;
    var_max <- lift (np_nanmax var_data) ;;
    ret (Stats4 var_mean var_std var_min var_max).

(** ** [get_timeseries] *)

(** One turn of the loop over the files. *)
Definition timeseries_step (w : World) (lat_range lon_range : Q * Q) (depth : Z)
  (no_min_max : bool) (var : string)
  (dates var_means var_stds var_mins var_maxs : ref)
  (h : heap) (filename : string) : M heap :=
  data <- lift (nc_Dataset w filename) ;;
  st <- calc_stats_var_data w data lat_range lon_range depth no_min_max var ;;
  '(var_mean, var_std, var_min, var_max) <-
    match st with
    | Stats2 mean std =>
        if no_min_max then ret (VFloat mean, VFloat std, VNone, VNone)
        else raise ValueError
    | Stats4 mean std mn mx =>
        if no_min_max then raise ValueError
        else ret (VFloat mean, VFloat std, VFloat mn, VFloat mx)
    end ;;
  ymd <- lift (get_date filename "ymd") ;;
  date <- lift (match ymd with
                | DateYMD y m d => datetime_date y m d
                | _ => Raise TypeError
                end) ;;
  let h := list_append h var_means var_mean in
  let h := list_append h var_stds var_std in
  let h := list_append h dates date in
  let h :=
    if negb no_min_max
    then list_append (list_append h var_mins var_min) var_maxs var_max
    else h in
  ret h.

(** [var_means = var_stds = []] and [var_mins = var_maxs = []] each
    create one list and bind two names to it. *)
Definition get_timeseries (w : World) (file_list : list string)
  (lat_range lon_range : Q * Q) (depth : Z) (no_min_max : bool) (var : string)
  : M DataFrame :=
  let h : heap := [] in
  let (dates, h) := new_list h in
  let (var_means, h) := new_list h in
  let var_stds := var_means in
  let (var_mins, h) := new_list h in
  let var_maxs := var_mins in
  h <- foldM (timeseries_step w lat_range lon_range depth no_min_max var
                dates var_means var_stds var_mins var_maxs) file_list h ;;
  if no_min_max then
    lift (pd_DataFrame [("date", deref h dates);
                        ("var_mean", deref h var_means);
                        ("var_std", deref h var_stds)])
  else
    lift (pd_DataFrame [("date", deref h dates);
                        ("var_mean", deref h var_means);
                        ("var_std", deref h var_stds);
                        ("var_min", deref h var_mins);
                        ("var_max", deref h var_maxs)]).

End Statistics.

(** ** Column arithmetic *)

Definition cell_binop (f : Q -> Q -> Q) (a b : cell) : cell :=
  match a, b with
  | Num x, Num y => Num (f x y)
  | _, _ => NaN
  end.

(** Arithmetic on two column entries: integers stay integers, a float on
    either side gives a float, anything else is a [TypeError]. *)
Definition val_binop (fz : Z -> Z -> Z) (fq : Q -> Q -> Q) (a b : val) : result val :=
  match a, b with
  | VInt x, VInt y => Ok (VInt (fz x y))
  | VInt x, VFloat y => Ok (VFloat (cell_binop fq (Num (inject_Z x)) y))
  | VFloat x, VInt y => Ok (VFloat (cell_binop fq x (Num (inject_Z y))))
  | VFloat x, VFloat y => Ok (VFloat (cell_binop fq x y))
  | _, _ => Raise TypeError
  end.

(** [s1 + s2] and [s1 - s2] on two columns of one table. *)
Definition series_add (s1 s2 : list val) : result (list val) :=
  rmap (fun p => val_binop Z.add Qplus (fst p) (snd p)) (combine s1 s2).

Definition series_sub (s1 s2 : list val) : result (list val) :=
  rmap (fun p => val_binop Z.sub Qminus (fst p) (snd p)) (combine s1 s2).

(** [k * s] for an integer literal [k]. *)
Definition series_scale (k : Z) (s : list val) : result (list val) :=
  rmap (fun v => val_binop Z.mul Qmult (VInt k) v) s.

(** [l * n] on a list. *)
Definition list_repeat {A : Type} (l : list A) (n : Z) : list A :=
  List.concat (repeat l (Z.to_nat n)).

(** ** Grouping *)

Definition date_compare (a b : Z * Z * Z) : comparison :=
  let '(y1, m1, d1) := a in
  let '(y2, m2, d2) := b in
  match (y1 ?= y2)%Z with
  | Eq => match (m1 ?= m2)%Z with
          | Eq => (d1 ?= d2)%Z
          | c => c
          end
  | c => c
  end.

Definition val_rank (v : val) : nat :=
  match v with
  | VNone => 0
  | VInt _ => 1
  | VFloat _ => 1
  | VDate _ _ _ => 2
  end.

(** Order of group keys.  Dates compare by year, month, day and numbers
    by value; the order between keys of different kinds is a convention of
    the model. *)
Definition val_compare (a b : val) : comparison :=
  match a, b with
  | VDate y1 m1 d1, VDate y2 m2 d2 => date_compare (y1, m1, d1) (y2, m2, d2)
  | VInt x, VInt y => (x ?= y)%Z
  | VInt x, VFloat (Num y) => Qcompare (inject_Z x) y
  | VFloat (Num x), VInt y => Qcompare x (inject_Z y)
  | VFloat (Num x), VFloat (Num y) => Qcompare x y
  | _, _ => Nat.compare (val_rank a) (val_rank b)
  end.

Definition val_eqb (a b : val) : bool :=
  match val_compare a b with
  | Eq => true
  | _ => false
  end.

Definition val_missing (v : val) : bool :=
  match v with
  | VNone => true
  | VFloat NaN => true
  | _ => false
  end.

Fixpoint insert_key (k : val) (l : list val) : list val :=
  match l with
  | [] => [k]
  | x :: t =>
      match val_compare k x with
      | Lt => k :: l
      | Eq => l
      | Gt => x :: insert_key k t
      end
  end.

(** The distinct keys in ascending order, missing keys dropped. *)
Definition group_keys (keys : list val) : list val :=
  fold_right insert_key [] (filter (fun k => negb (val_missing k)) keys).

(** The entries of [col] on the rows whose key is [k]. *)
Definition group_values (keys col : list val) (k : val) : list val :=
  map snd (filter (fun p => val_eqb (fst p) k) (combine keys col)).

Definition to_cell (v : val) : result cell :=
  match v with
  | VFloat c => Ok c
  | VInt z => Ok (Num (inject_Z z))
  | _ => Raise TypeError
  end.

Fixpoint Qinsert (x : Q) (l : list Q) : list Q :=
  match l with
  | [] => [x]
  | y :: t => if Qle_bool x y then x :: l else y :: Qinsert x t
  end.

Definition Qsort (l : list Q) : list Q := fold_right Qinsert [] l.

(** Reductions of one group; missing entries are skipped and a group
    without numbers reduces to not-a-number. *)
Definition agg_mean (l : list cell) : cell :=
  match valid_values l with
  | [] => NaN
  | vs => Num (np_sum vs / Qnat (List.length vs))
  end.

(** Linear interpolation between the two order statistics around
    position [(n - 1) * p]. *)
Definition agg_quantile (p : Q) (l : list cell) : cell :=
  match Qsort (valid_values l) with
  | [] => NaN
  | (v0 :: _) as vs =>
      let h := Qnat (List.length vs - 1) * p in
      let lo := Z.to_nat (Qfloor h) in
      let frac := h - inject_Z (Qfloor h) in
      let a := nth lo vs v0 in
      let b := nth (Nat.min (S lo) (List.length vs - 1)) vs v0 in
      Num (a + frac * (b - a))
  end.

Definition agg_median (l : list cell) : cell := agg_quantile (1 # 2) l.

Definition agg_max (l : list cell) : cell :=
  match valid_values l with
  | [] => NaN
  | x :: t => Num (fold_left Qmax t x)
  end.

(** [timeseries.groupby('wrap_day')[['var_mean', 'var_std']]]: the key
    column and the two selected columns. *)
Definition groupby_wrap_day (timeseries : DataFrame)
  : result (list val * list val * list val) :=
  keys <~ df_get timeseries "wrap_day" ;;
  var_mean <~ df_get timeseries "var_mean" ;;
  var_std <~ df_get timeseries "var_std" ;;
  Ok (keys, var_mean, var_std).

(** [grouped.AGG().reset_index()]: one row per key, keys ascending. *)
Definition grouped_agg (grouped : list val * list val * list val)
  (agg : list cell -> cell) : result DataFrame :=
  let '(keys, var_mean, var_std) := grouped in
  let ks := group_keys keys in
  let reduce col :=
    rmap (fun k => cs <~ rmap to_cell (group_values keys col k) ;; Ok (VFloat (agg cs))) ks in
  means <~ reduce var_mean ;;
  stds <~ reduce var_std ;;
  Ok {| nrows := List.length ks;
        columns := [("wrap_day", ks); ("var_mean", means); ("var_std", stds)] |}.

(** ** [calc_timeseries] *)

(** What [calc_timeseries] hands back: a grouped table, a plain array, a
    column, or [None]. *)
Inductive action_result : Type :=
| AFrame (df : DataFrame)
| AArray (a : list val)
| ASeries (s : list val)
| ANone.

Definition threshold (timeseries : DataFrame) (action : string)
  (delta_t : list val) (op : list val -> list val -> result (list val))
  : result action_result :=
  let level k :=
    mean <~ df_get timeseries "var_mean_mean" ;;
    step <~ series_scale k delta_t ;;
    s <~ op mean step ;;
    Ok (ASeries s) in
  if Py.str_in "2T" action then level 2%Z
  else if Py.str_in "3T" action then level 3%Z
  else if Py.str_in "4T" action then level 4%Z
  else Ok ANone.

Definition calc_timeseries (timeseries : DataFrame) (action : string) (n_year : option Z)
  : result action_result :=
  if Py.str_in "g_" action then
    grouped_timeseries <~ groupby_wrap_day timeseries ;;
    if Py.str_in "mean" action then
      df <~ grouped_agg grouped_timeseries agg_mean ;; Ok (AFrame df)
    else if Py.str_in "quantile90" action then
      df <~ grouped_agg grouped_timeseries (agg_quantile (9 # 10)) ;; Ok (AFrame df)
    else if Py.str_in "quantile10" action then
      df <~ grouped_agg grouped_timeseries (agg_quantile (1 # 10)) ;; Ok (AFrame df)
    else if Py.str_in "median" action then
      df <~ grouped_agg grouped_timeseries agg_median ;; Ok (AFrame df)
    else if Py.str_in "max" action then
      df <~ grouped_agg grouped_timeseries agg_max ;; Ok (AFrame df)
    else Ok ANone
  else if Py.str_in "add_" action then
    if Py.str_in "long" action then
      var_mean <~ df_get timeseries "var_mean" ;;
      match n_year with
      | Some n => Ok (AArray (list_repeat var_mean n))
      | None => Raise TypeError
      end
    else
      quantile <~ df_get timeseries "var_mean_quantile" ;;
      mean <~ df_get timeseries "var_mean_mean" ;;
      delta_t <~ series_sub quantile mean ;;
      threshold timeseries action delta_t series_add
  else if Py.str_in "remove_" action then
    mean <~ df_get timeseries "var_mean_mean" ;;
    quantile <~ df_get timeseries "var_mean_quantile" ;;
    delta_t <~ series_sub mean quantile ;;
    threshold timeseries action delta_t series_sub
  else Ok ANone.

(** ** [anhalize_timeseries] *)

(** [df[name] = col]: replaces the column in place, or appends it. *)
Fixpoint put_column (name : string) (col : list val) (cols : list (string * list val))
  : list (string * list val) :=
  match cols with
  | [] => [(name, col)]
  | (k, c) :: t =>
      if (name =? k)%string then (k, col) :: t else (k, c) :: put_column name col t
  end.

Definition set_column (df : DataFrame) (name : string) (col : list val) : DataFrame :=
  {| nrows := nrows df; columns := put_column name col (columns df) |}.

(** [df[name] = value] for what [calc_timeseries] returns: an array must
    have one entry per row; a column is aligned on the row index. *)
Definition assign (df : DataFrame) (name : string) (value : action_result)
  : result DataFrame :=
  match value with
  | AArray a =>
      if (List.length a =? nrows df)%nat then Ok (set_column df name a)
      else Raise ValueError
  | ASeries s =>
      Ok (set_column df name
            (map (fun i => nth i s (VFloat NaN)) (seq 0 (nrows df))))
  | ANone => Ok (set_column df name (repeat VNone (nrows df)))
  | AFrame _ => Raise ValueError
  end.

(** [df.drop(name, axis=1)] *)
Definition drop_column (df : DataFrame) (name : string) : result DataFrame :=
  match lookup name (columns df) with
  | None => Raise KeyError
  | Some _ =>
      Ok {| nrows := nrows df;
            columns := filter (fun p => negb (fst p =? name)%string) (columns df) |}
  end.

(** [df.rename(columns={old: new})] *)
Definition rename_column (df : DataFrame) (old new : string) : DataFrame :=
  {| nrows := nrows df;
     columns := map (fun p => if (fst p =? old)%string then (new, snd p) else p)
                    (columns df) |}.

(** [pd.to_datetime] on a column of dates.  Table entries are date
    objects here; date strings, which the call also parses into dates,
    are not represented.  A nanosecond time stamp only holds dates from
    1677-09-22 to 2262-04-11; whether pandas refuses a date outside that
    range depends on its version, and the model refuses it. *)
Definition to_datetime (v : val) : result val :=
  match v with
  | VDate y m d =>
      match date_compare (1677, 9, 22)%Z (y, m, d), date_compare (y, m, d) (2262, 4, 11)%Z with
      | Gt, _ => Raise ValueError
      | _, Gt => Raise ValueError
      | _, _ => Ok v
      end
  | _ => Raise ValueError
  end.

Definition date_part (part : Z * Z * Z -> Z) (v : val) : val :=
  match v with
  | VDate y m d => VInt (part (y, m, d))
  | _ => VNone
  end.

Definition wrap_day_of (year_standard : Z) (month day : val) : result val :=
  match month, day with
  | VInt m, VInt d => datetime_date year_standard m d
  | _, _ => Raise TypeError
  end.

Definition as_frame (r : action_result) : result DataFrame :=
  match r with
  | AFrame df => Ok df
  | _ => Raise AttributeError
  end.

Definition anhalize_timeseries (raw_timeseries : DataFrame) (mhw : bool)
  : result DataFrame :=
  let year_standard := 2000%Z in
  let year_min := 1958%Z in
  let year_max := 2009%Z in
  let n_year := (year_max - year_min + 1)%Z in
  let actions :=
    if mhw then ("g_quantile90", "add_2T", "add_3T", "add_4T")
    else ("g_quantile10", "remove_2T", "remove_3T", "remove_4T") in
  let '(action0, action1, action2, action3) := actions in
  let anhalyzed_timeseries := raw_timeseries in
  (* date formatting, then the year, month and day columns *)
  date <~ df_get anhalyzed_timeseries "date" ;;
  date <~ rmap to_datetime date ;;
  let df := set_column anhalyzed_timeseries "date" date in
  let df := set_column df "year" (map (date_part (fun t => fst (fst t))) date) in
  let df := set_column df "month" (map (date_part (fun t => snd (fst t))) date) in
  let df := set_column df "day" (map (date_part (fun t => snd t)) date) in
  let df := set_column df "date2" date in
  df <~ drop_column df "date" ;;
  let df := rename_column df "date2" "date" in
  (* wrap-day column, row by row; an empty table yields no column *)
  month <~ df_get df "month" ;;
  day <~ df_get df "day" ;;
  wrap_day <~ rmap (fun p => wrap_day_of year_standard (fst p) (snd p)) (combine month day) ;;
  df <~ (if (nrows df =? 0)%nat then Raise ValueError
         else Ok (set_column df "wrap_day" wrap_day)) ;;
  (* folding the years onto one *)
  timeseries_year_mean <~ calc_timeseries df "g_mean" None ;;
  timeseries_year_quantile <~ calc_timeseries df action0 None ;;
  year_mean <~ as_frame timeseries_year_mean ;;
  long_mean <~ calc_timeseries year_mean "add_long" (Some n_year) ;;
  df <~ assign df "var_mean_mean" long_mean ;;
  year_quantile <~ as_frame timeseries_year_quantile ;;
  long_quantile <~ calc_timeseries year_quantile "add_long" (Some n_year) ;;
  df <~ assign df "var_mean_quantile" long_quantile ;;
  (* threshold levels *)
  t2 <~ calc_timeseries df action1 None ;;
  df <~ assign df "var_mean_2T" t2 ;;
  t3 <~ calc_timeseries df action2 None ;;
  df <~ assign df "var_mean_3T" t3 ;;
  t4 <~ calc_timeseries df action3 None ;;
  df <~ assign df "var_mean_4T" t4 ;;
  Ok df.

(** ** [init_location] *)

(** The dictionary returned by [init_location]. *)
Record location_info : Type := {
  lat_range : Q * Q;
  lon_range : Q * Q;
  region : string;
  standard_parallels : Q * Q;
  central_longitude : Q
}.

Definition init_location (hudson_bay : bool) : location_info :=
  if hudson_bay then
    let region := "HudsonBay" in
    let east := -75 in
    let west := -93 in
    let north := 65 in
    let south := 50 in
    let standard_parallels := (52.5, 62.5) in
    let central_longitude := -80 in
    {| lat_range := (south, north);
       lon_range := (west, east);
       region := region;
       standard_parallels := standard_parallels;
       central_longitude := central_longitude |}
  else
    let region := "JamesBay" in
    let east := -78.5 in
    let west := -82.5 in
    let north := 54.7 in
    let south := 51 in
    let standard_parallels := (52, 53) in
    let central_longitude := -80 in
    {| lat_range := (south, north);
       lon_range := (west, east);
       region := region;
       standard_parallels := standard_parallels;
       central_longitude := central_longitude |}.

(** * Specification vocabulary

    Predicates and sample inputs used to state the properties below. *)

(** ** Path resolver *)

(** The host is a deployment host. *)
Definition deployment_host (w : World) : bool := Py.str_in "portal" (hostname w).

(** Environment mode: forced, or not on a deployment host, or no run
    identifier. *)
Definition environment_mode (w : World) (run_name : option string) (environ_paths : bool)
  : bool :=
  environ_paths || negb (deployment_host w) || negb (Py.truthy run_name).

(** The two characters after the first one of the part that follows the
    separator, in upper case. *)
Definition user_code (run_name : string) : string :=
  match Py.split "-" run_name with
  | _ :: second :: _ => Py.upper (Py.str_slice second 1 3)
  | _ => EmptyString
  end.

Definition recognized_user_code (code : string) : bool :=
  Py.str_in "JM" code || Py.str_in "PM" code || (code =? "MC")%string || (code =? "EE")%string.

Definition valid_run_identifier (run_name : string) : bool :=
  Py.str_in "-" run_name && Py.str_in "ANHA" run_name
  && (String.length run_name =? 12)%nat
  && recognized_user_code (user_code run_name).

Definition no_files : string -> result (list string) := fun _ => Raise FileNotFoundError.
Definition no_dataset : string -> result Dataset := fun _ => Raise FileNotFoundError.

(** A deployment host without the two environment variables, and one that
    has them. *)
Definition portal_bare : World := {|
  hostname := "portal01";
  environ := fun _ => None;
  listdir := no_files;
  nc_Dataset := no_dataset;
  stdin_line := EmptyString |}.

Definition env_of (mask_path data_path : option string) : string -> option string :=
  fun name =>
    if (name =? "MASK_PATH")%string then mask_path
    else if (name =? "DATA_PATH")%string then data_path
    else None.

Definition portal_env : World := {|
  hostname := "login.portal.example";
  environ := env_of (Some "/masks/") (Some "/data/");
  listdir := no_files;
  nc_Dataset := no_dataset;
  stdin_line := EmptyString |}.

Definition laptop (mask_path data_path : option string) : World := {|
  hostname := "laptop";
  environ := env_of mask_path data_path;
  listdir := no_files;
  nc_Dataset := no_dataset;
  stdin_line := EmptyString |}.

(** ** File catalog *)

Definition string_le (a b : string) : Prop := String.leb a b = true.

(** A machine outside the deployment, both variables set, whose data
    directory lists [files]. *)
Definition catalog_world (files : list string) : World := {|
  hostname := "laptop";
  environ := env_of (Some "/masks/") (Some "/data/");
  listdir := fun _ => Ok files;
  nc_Dataset := no_dataset;
  stdin_line := EmptyString |}.

Definition catalog (years : list string) : Anhalyze := {|
  run_name := None;
  grid := "T";
  years := years;
  month_list := None;
  one_per_month := false;
  verbose := false |}.

Definition listing_1998_1999 : list string :=
  ["R_y1998m01d01_gridT.nc"; "R_y1998m02d01_gridT.nc"; "R_y1999m01d01_gridT.nc"].

(** ** Spatial subsetter *)

(** Entry [(i, j)] of an array. *)
Definition cell_at {A : Type} (m : matrix A) (i j : nat) : option A :=
  match nth_error m i with
  | Some r => nth_error r j
  | None => None
  end.

(** Cell [(i, j)] lies strictly inside the latitude and longitude window. *)
Definition qualifies (lat lon : matrix Q) (lat_range lon_range : Q * Q) (i j : nat) : Prop :=
  exists x y, cell_at lat i j = Some x /\ cell_at lon i j = Some y /\
              in_range lat_range x = true /\ in_range lon_range y = true.

(** Row [i] (column [j]) holds a cell inside the window. *)
Definition row_qualifies (lat lon : matrix Q) (lat_range lon_range : Q * Q) (i : nat) : Prop :=
  exists j, qualifies lat lon lat_range lon_range i j.

Definition col_qualifies (lat lon : matrix Q) (lat_range lon_range : Q * Q) (j : nat) : Prop :=
  exists i, qualifies lat lon lat_range lon_range i j.

(** All rows have the same length. *)
Definition rectangular {A : Type} (m : matrix A) : Prop :=
  forall r1 r2, In r1 m -> In r2 m -> List.length r1 = List.length r2.

(** The latitudes of the grid, zero outside the window. *)
Definition masked_grid (lat lon : matrix Q) (lat_range lon_range : Q * Q) : matrix Q :=
  masked_latitudes lat (window_cells lat lon lat_range lon_range).

(** A dataset holding a T-grid only. *)
Definition grid_dataset (lat lon : matrix Q) : Dataset := {|
  var2d := fun name =>
    if (name =? "nav_lat_grid_T")%string then Some lat
    else if (name =? "nav_lon_grid_T")%string then Some lon
    else None;
  var4d := fun _ => None |}.

(** A separable grid of six rows and five columns: latitude [10 * row],
    longitude [10 * column]. *)
Definition separable_lat : matrix Q :=
  map (fun i => map (fun _ => inject_Z (10 * Z.of_nat i)) (seq 0 5)) (seq 0 6).
Definition separable_lon : matrix Q :=
  map (fun _ => map (fun j => inject_Z (10 * Z.of_nat j)) (seq 0 5)) (seq 0 6).

(** Two rows either side of the equator. *)
Definition equator_lat : matrix Q := [[-5; -5]; [6; 6]].
Definition equator_lon : matrix Q := [[0; 10]; [0; 10]].

(** ** Statistics and time series *)

(** A three by three T-grid, latitudes and longitudes 10, 20, 30. *)
Definition small_lat : matrix Q := [[10; 10; 10]; [20; 20; 20]; [30; 30; 30]].
Definition small_lon : matrix Q := [[10; 20; 30]; [10; 20; 30]; [10; 20; 30]].

(** A dataset with that grid and one time step, one depth layer of
    [votemper]. *)
Definition field_dataset (votemper : matrix cell) : Dataset := {|
  var2d := fun name =>
    if (name =? "nav_lat_grid_T")%string then Some small_lat
    else if (name =? "nav_lon_grid_T")%string then Some small_lon
    else None;
  var4d := fun name =>
    if (name =? "votemper")%string then Some [[votemper]] else None |}.

Definition mask_dataset (tmask : matrix cell) : Dataset := {|
  var2d := fun _ => None;
  var4d := fun name => if (name =? "tmask")%string then Some [[tmask]] else None |}.

(** A machine with both variables set; the mask file holds [tmask] and
    every other path opens [data]. *)
Definition ocean_world (data : Dataset) (tmask : matrix cell) : World := {|
  hostname := "laptop";
  environ := env_of (Some "/masks/") (Some "/data/");
  listdir := no_files;
  nc_Dataset := fun path =>
    if (path =? "/masks/ANHA4_mask.nc")%string then Ok (mask_dataset tmask) else Ok data;
  stdin_line := EmptyString |}.

Definition sample_votemper : matrix cell :=
  [[Num 1; Num 2; Num 9]; [Num 3; Num 4; Num 9]; [Num 9; Num 9; Num 9]].

(** Ocean everywhere but at cell (1, 1); land everywhere. *)
Definition sample_tmask : matrix cell :=
  [[Num 1; Num 1; Num 1]; [Num 1; Num 0; Num 1]; [Num 1; Num 1; Num 1]].
Definition land_tmask : matrix cell :=
  [[Num 0; Num 0; Num 0]; [Num 0; Num 0; Num 0]; [Num 0; Num 0; Num 0]].

Definition sample_world : World := ocean_world (field_dataset sample_votemper) sample_tmask.
Definition land_world : World := ocean_world (field_dataset sample_votemper) land_tmask.

(** Mean and deviation of one field over the cells that are not missing,
    not-a-number when there is none. *)
Definition stats_of_valid (np_sqrt : Q -> Q) (a : matrix cell) (var_mean var_std : cell)
  : Prop :=
  match valid_values (List.concat a) with
  | [] => var_mean = NaN /\ var_std = NaN
  | vs =>
      exists m v,
        var_mean = Num m /\ m == np_sum vs / Qnat (List.length vs) /\
        var_std = Num (np_sqrt v) /\
        v == np_sum (map (fun q => (q - m) * (q - m)) vs) / Qnat (List.length vs)
  end.

(** ** Climatology engine *)

(** Threshold level [k] of one row: [mean + k * (quantile - mean)] for
    heatwaves, [mean - k * (mean - quantile)] for cold spells. *)
Definition threshold_level (mhw : bool) (k : Z) (mean quantile : cell) : cell :=
  if mhw
  then cell_binop Qplus mean
         (cell_binop Qmult (Num (inject_Z k)) (cell_binop Qminus quantile mean))
  else cell_binop Qminus mean
         (cell_binop Qmult (Num (inject_Z k)) (cell_binop Qminus mean quantile)).

(** Entry [i] of column [name]. *)
Definition entry (df : DataFrame) (name : string) (i : nat) : option val :=
  match lookup name (columns df) with
  | Some c => nth_error c i
  | None => None
  end.

(** Fifty-two years, one row a year on the fifth of March, the mean
    growing by one each year. *)
Definition march_series : DataFrame := {|
  nrows := 52;
  columns :=
    [("date", map (fun i => VDate (1958 + Z.of_nat i) 3 5) (seq 0 52));
     ("var_mean", map (fun i => VFloat (Num (inject_Z (Z.of_nat i)))) (seq 0 52));
     ("var_std", map (fun _ => VFloat (Num 1)) (seq 0 52))] |}.

Definition empty_frame : DataFrame := {| nrows := 0; columns := [] |}.

Definition march_heatwave : DataFrame :=
  Eval vm_compute in
    match anhalize_timeseries march_series true with
    | Ok df => df
    | Raise _ => empty_frame
    end.

Definition march_coldspell : DataFrame :=
  Eval vm_compute in
    match anhalize_timeseries march_series false with
    | Ok df => df
    | Raise _ => empty_frame
    end.

(** ** Further vocabulary *)

(** The three format checks asserted on a run identifier. *)
Definition well_formed_identifier (run_name : string) : bool :=
  Py.str_in "-" run_name && Py.str_in "ANHA" run_name
  && (String.length run_name =? 12)%nat.







(** The same machine with the directory entries coming in another order. *)
Definition relisted (w : World) (order : list string -> list string) : World := {|
  hostname := hostname w;
  environ := environ w;
  listdir := fun path =>
    match listdir w path with
    | Ok l => Ok (order l)
    | Raise e => Raise e
    end;
  nc_Dataset := nc_Dataset w;
  stdin_line := stdin_line w |}.

(** The directory [get_file_list] lists: the line typed in when
    [monthly_mean] is set, the data directory otherwise. *)
Definition listed_directory (w : World) (monthly_mean : bool) (data_path : string) : string :=
  if monthly_mean then stdin_line w else data_path.

(** Two cells holding the same number, or both not-a-number. *)
Definition cell_equiv (a b : cell) : Prop :=
  match a, b with
  | NaN, NaN => True
  | Num x, Num y => x == y
  | _, _ => False
  end.

(** Key [a] comes strictly before key [b]. *)
Definition key_lt (a b : val) : Prop := val_compare a b = Lt.

(** Four rows on two wrap days, the rows of the two days interleaved. *)
Definition two_day_series : DataFrame := {|
  nrows := 4;
  columns :=
    [("wrap_day", [VDate 2000 3 5; VDate 2000 1 2; VDate 2000 3 5; VDate 2000 1 2]);
     ("var_mean", [VFloat (Num 4); VFloat (Num 1); VFloat (Num 6); VFloat (Num 3)]);
     ("var_std", [VFloat (Num 1); VFloat (Num 1); VFloat (Num 1); VFloat (Num 1)])] |}.

Definition two_day_maxima : DataFrame :=
  Eval vm_compute in
    match calc_timeseries two_day_series "g_max" None with
    | Ok (AFrame g) => g
    | _ => empty_frame
    end.

(** The variables [get_row_col_range] reads for a grid. *)
Definition latitude_variable (grid : string) : string :=
  if (grid =? "gridT")%string then "nav_lat_grid_T" else "nav_lat".

Definition longitude_variable (grid : string) : string :=
  if (grid =? "gridT")%string then "nav_lon_grid_T" else "nav_lon".

(** A dataset of a velocity grid: coordinates under [nav_lat], [nav_lon]. *)
Definition velocity_dataset (lat lon : matrix Q) : Dataset := {|
  var2d := fun name =>
    if (name =? "nav_lat")%string then Some lat
    else if (name =? "nav_lon")%string then Some lon
    else None;
  var4d := fun _ => None |}.

(** A grid of three rows and three columns around James Bay. *)
Definition bay_lat : matrix Q := [[49; 49; 49]; [52; 52; 52]; [60; 60; 60]].
Definition bay_lon : matrix Q := [[-90; -80; -70]; [-90; -80; -70]; [-90; -80; -70]].

(** Two wrap days over the fifty-two years, the rows sorted by day: the
    second of January of every year first (mean 1), then the fifth of
    March of every year (mean 5). *)
Definition split_series : DataFrame := {|
  nrows := 104;
  columns :=
    [("date", (map (fun i => VDate (1958 + Z.of_nat i) 1 2) (seq 0 52)
               ++ map (fun i => VDate (1958 + Z.of_nat i) 3 5) (seq 0 52))%list);
     ("var_mean", (repeat (VFloat (Num 1)) 52 ++ repeat (VFloat (Num 5)) 52)%list);
     ("var_std", repeat (VFloat (Num 0)) 104)] |}.

Definition split_heatwave : DataFrame :=
  Eval vm_compute in
    match anhalize_timeseries split_series true with
    | Ok df => df
    | Raise _ => empty_frame
    end.

(** * Properties *)

(** ** Path resolver *)

(** Indexing at a position inside the list. *)
Lemma index_nth {A : Type} (l : list A) (n : nat) (x : A) :
  nth_error l n = Some x -> Py.index l (Z.of_nat n) = Ok x.
Proof.
  intros H. unfold Py.index.
  assert (n < List.length l)%nat as Hlt by (apply nth_error_Some; congruence).
  destruct (Z.ltb_spec (Z.of_nat n) 0) as [Hneg|_]; [lia|].
  destruct (Z.ltb_spec (Z.of_nat n) 0) as [Hneg|_]; [lia|].
  destruct (Z.leb_spec (Z.of_nat (List.length l)) (Z.of_nat n)) as [Hge|_]; [lia|].
  cbn [orb]. now rewrite Nat2Z.id, H.
Qed.

Lemma index_0 {A : Type} (x : A) (l : list A) : Py.index (x :: l) 0 = Ok x.
Proof. exact (index_nth (x :: l) 0 x eq_refl). Qed.

Lemma index_1 {A : Type} (x y : A) (l : list A) : Py.index (x :: y :: l) 1 = Ok y.
Proof. exact (index_nth (x :: y :: l) 1 y eq_refl). Qed.

Lemma index_empty {A : Type} (i : Z) : Py.index (@nil A) i = Raise IndexError.
Proof.
  unfold Py.index. cbn [List.length Z.of_nat].
  destruct (i <? 0)%Z eqn:E.
  - rewrite Z.add_0_r, E. reflexivity.
  - destruct (0 <=? i)%Z eqn:E'; [now rewrite E|].
    apply Z.ltb_ge in E. apply Z.leb_gt in E'. lia.
Qed.

Lemma split_nonempty (sep : ascii) (s : string) : Py.split sep s <> [].
Proof.
  destruct s as [|c t]; simpl; [discriminate|].
  destruct (Ascii.eqb c sep); [discriminate|].
  destruct (Py.split sep t); discriminate.
Qed.

Lemma prefix_single (c : ascii) (s : string) :
  prefix (String c EmptyString) s = true -> exists t, s = String c t.
Proof.
  destruct s as [|a t]; simpl; [discriminate|].
  destruct (ascii_dec c a) as [->|]; [|discriminate].
  intros _. now exists t.
Qed.

(** A string containing the separator splits into at least two parts. *)
Lemma split_two (sep : ascii) (s : string) :
  Py.str_in (String sep EmptyString) s = true ->
  exists a b rest, Py.split sep s = a :: b :: rest.
Proof.
  induction s as [|c t IH]; intros H.
  - discriminate.
  - cbn [Py.str_in] in H. apply orb_true_iff in H. destruct H as [H|H].
    + apply prefix_single in H. destruct H as [t' E]. injection E as -> <-.
      cbn [Py.split]. rewrite Ascii.eqb_refl.
      destruct (Py.split sep t) as [|b rest] eqn:E.
      * now apply split_nonempty in E.
      * now exists EmptyString, b, rest.
    + destruct (IH H) as (a & b & rest & E).
      cbn [Py.split]. rewrite E.
      destruct (Ascii.eqb c sep); eauto.
Qed.

Lemma length_12_truthy (r : string) :
  (String.length r =? 12)%nat = true -> Py.truthy (Some r) = true.
Proof. destruct r; [discriminate|reflexivity]. Qed.

(** What [get_paths] returns on a deployment host for a valid identifier. *)
Lemma get_paths_deployment (w : World) (r : string) :
  deployment_host w = true ->
  valid_run_identifier r = true ->
  exists model_path user_path second rest,
    Py.split "-" r = model_path :: second :: rest /\
    get_paths w (Some r) false =
      ([], Ok ("/mnt/storage0/" ++ user_path ++ "/NEMO/" ++ model_path ++ "/" ++ r ++ "-S/",
               "/mnt/storage0/" ++ user_path ++ "/ANALYSES/MASKS/")).
Proof.
  unfold deployment_host, valid_run_identifier.
  intros Hhost Hvalid.
  apply andb_true_iff in Hvalid. destruct Hvalid as [Hvalid Hcode].
  apply andb_true_iff in Hvalid. destruct Hvalid as [Hvalid Hlen].
  apply andb_true_iff in Hvalid. destruct Hvalid as [Hsep Hmodel].
  destruct (split_two "-" r Hsep) as (a & b & rest & Hsplit).
  unfold user_code in Hcode. rewrite Hsplit in Hcode.
  unfold get_paths.
  rewrite Hhost, (length_12_truthy r Hlen). cbn [negb orb].
  rewrite Hsep, Hmodel. change (String.length "ANHA4-WJM000") with 12%nat.
  rewrite Hlen, Hsplit.
  rewrite index_0, index_1.
  cbn [py_assert bind ret lift raise app existsb].
  set (u := Py.upper (Py.str_slice b 1 3)) in *.
  unfold recognized_user_code in Hcode.
  destruct (Py.str_in "JM" u) eqn:EJ.
  { exists a, "jmarson", b, rest. split; reflexivity. }
  destruct (Py.str_in "PM" u) eqn:EP.
  { exists a, "jmarson", b, rest. split; reflexivity. }
  cbn [orb] in Hcode |- *.
  destruct (u =? "MC")%string eqn:EM.
  { exists a, "madhurima", b, rest. split; reflexivity. }
  destruct (u =? "EE")%string eqn:EE; [|discriminate].
  exists a, "emilio", b, rest. split; reflexivity.
Qed.

(** On deployment hosts nothing but a non-empty identifier is consulted. *)
Lemma get_paths_deployment_world (w1 w2 : World) (r : string) :
  deployment_host w1 = true ->
  deployment_host w2 = true ->
  Py.truthy (Some r) = true ->
  get_paths w1 (Some r) false = get_paths w2 (Some r) false.
Proof.
  unfold deployment_host, get_paths. intros -> -> ->. reflexivity.
Qed.

Lemma valid_run_identifier_truthy (r : string) :
  valid_run_identifier r = true -> Py.truthy (Some r) = true.
Proof.
  unfold valid_run_identifier. intros H.
  apply andb_true_iff in H. destruct H as [H _].
  apply andb_true_iff in H. destruct H as [_ H].
  now apply length_12_truthy.
Qed.

(** On a deployment host a well-formed identifier whose user code is not
    in the table stops at the final [raise]. *)
Lemma get_paths_unrecognized (w : World) (r : string) :
  deployment_host w = true ->
  well_formed_identifier r = true ->
  recognized_user_code (user_code r) = false ->
  get_paths w (Some r) false = ([], Raise ValueError).
Proof.
  unfold deployment_host, well_formed_identifier.
  intros Hhost Hformed Hcode.
  apply andb_true_iff in Hformed. destruct Hformed as [Hformed Hlen].
  apply andb_true_iff in Hformed. destruct Hformed as [Hsep Hmodel].
  destruct (split_two "-" r Hsep) as (a & b & rest & Hsplit).
  unfold user_code in Hcode. rewrite Hsplit in Hcode.
  unfold get_paths.
  rewrite Hhost, (length_12_truthy r Hlen). cbn [negb orb].
  rewrite Hsep, Hmodel. change (String.length "ANHA4-WJM000") with 12%nat.
  rewrite Hlen, Hsplit.
  rewrite index_0, index_1.
  cbn [py_assert bind ret lift raise app existsb].
  set (u := Py.upper (Py.str_slice b 1 3)) in *.
  unfold recognized_user_code in Hcode.
  apply orb_false_iff in Hcode. destruct Hcode as [Hcode HEE].
  apply orb_false_iff in Hcode. destruct Hcode as [Hcode HMC].
  apply orb_false_iff in Hcode. destruct Hcode as [HJM HPM].
  rewrite HJM, HPM, HMC, HEE. reflexivity.
Qed.

(** C5.  On a deployment host [get_paths] returns, for every valid run
    identifier, the same pair of paths whatever the rest of the world
    (environment, file system, the particular host) looks like: the paths
    are a function of the identifier alone.  For every well-formed
    identifier whose user code is not in the table, ["ANHA4-XYZ004"]
    among them, the call raises [ValueError] (the spec's
    [InvalidRunIdentifier]). *)
Theorem get_paths_deployment_deterministic (w1 w2 : World) (r r' : string) :
  deployment_host w1 = true ->
  deployment_host w2 = true ->
  valid_run_identifier r = true ->
  well_formed_identifier r' = true ->
  recognized_user_code (user_code r') = false ->
  (exists data_path mask_path,
      get_paths w1 (Some r) false = ([], Ok (data_path, mask_path)) /\
      get_paths w2 (Some r) false = ([], Ok (data_path, mask_path)))
  /\ get_paths w1 (Some r') false = ([], Raise ValueError)
  /\ get_paths w1 (Some "ANHA4-XYZ004") false = ([], Raise ValueError).
Proof.
  intros H1 H2 Hr Hformed Hcode. split; [|split].
  - destruct (get_paths_deployment w1 r H1 Hr) as (m & u & s & t & _ & G).
    rewrite <- (get_paths_deployment_world w1 w2 r H1 H2
                  (valid_run_identifier_truthy r Hr)).
    eauto.
  - now apply get_paths_unrecognized.
  - now apply get_paths_unrecognized.
Qed.

Lemma get_paths_deployment_deterministic_witness :
  (exists data_path mask_path,
      get_paths portal_bare (Some "ANHA4-WJM004") false = ([], Ok (data_path, mask_path)) /\
      get_paths portal_env (Some "ANHA4-WJM004") false = ([], Ok (data_path, mask_path)))
  /\ get_paths portal_bare (Some "ANHA4-ABC123") false = ([], Raise ValueError)
  /\ get_paths portal_bare (Some "ANHA4-XYZ004") false = ([], Raise ValueError).
Proof.
  apply (get_paths_deployment_deterministic portal_bare portal_env
           "ANHA4-WJM004" "ANHA4-ABC123");
    reflexivity.
Defined.

(** The paths of the spec's sample identifier. *)
Example get_paths_WJM004 :
  get_paths portal_env (Some "ANHA4-WJM004") false =
    ([], Ok ("/mnt/storage0/jmarson/NEMO/ANHA4/ANHA4-WJM004-S/",
             "/mnt/storage0/jmarson/ANALYSES/MASKS/")).
Proof. reflexivity. Qed.

(** C6.  In environment mode [get_paths] fails when [MASK_PATH] or
    [DATA_PATH] is unset: it prints the remediation message and the final
    [return] raises [UnboundLocalError] (the spec's [ConfigurationError]).
    When both are set it prints nothing and returns
    [(DATA_PATH, MASK_PATH)]. *)
Theorem get_paths_environment_mode (w : World) (run_name : option string)
  (environ_paths : bool) :
  environment_mode w run_name environ_paths = true ->
  ((environ w "MASK_PATH" = None \/ environ w "DATA_PATH" = None) ->
     get_paths w run_name environ_paths = ([paths_message], Raise UnboundLocalError))
  /\ (forall mask_path data_path,
        environ w "MASK_PATH" = Some mask_path ->
        environ w "DATA_PATH" = Some data_path ->
        get_paths w run_name environ_paths = ([], Ok (data_path, mask_path))).
Proof.
  unfold environment_mode, deployment_host, get_paths. intros Hmode.
  assert (negb (Py.str_in "portal" (hostname w)) || negb (Py.truthy run_name) || environ_paths
          = true) as ->.
  { destruct environ_paths, (Py.str_in "portal" (hostname w)), (Py.truthy run_name);
      simpl in *; congruence. }
  split.
  - intros [Hm | Hd].
    + rewrite Hm. reflexivity.
    + rewrite Hd. destruct (environ w "MASK_PATH"); reflexivity.
  - intros m d Hm Hd. rewrite Hm, Hd. reflexivity.
Qed.

Lemma get_paths_environment_mode_witness :
  (get_paths (laptop (Some "/masks/") None) (Some "ANHA4-WJM004") false
     = ([paths_message], Raise UnboundLocalError))
  /\ (get_paths portal_env None false = ([], Ok ("/data/", "/masks/")))
  /\ (get_paths portal_bare (Some "ANHA4-WJM004") true
       = ([paths_message], Raise UnboundLocalError)).
Proof.
  split; [|split].
  - apply (get_paths_environment_mode (laptop (Some "/masks/") None)
             (Some "ANHA4-WJM004") false); [reflexivity | right; reflexivity].
  - apply (get_paths_environment_mode portal_env None false); reflexivity.
  - apply (get_paths_environment_mode portal_bare (Some "ANHA4-WJM004") true);
      [reflexivity | left; reflexivity].
Defined.

(** ** File catalog *)

Lemma insert_sorted_perm (x : string) (l : list string) :
  Permutation (Py.insert_sorted x l) (x :: l).
Proof.
  induction l as [|y t IH]; simpl; [reflexivity|].
  destruct (String.leb x y); [reflexivity|].
  rewrite IH. apply perm_swap.
Qed.

Lemma sorted_perm (l : list string) : Permutation (Py.sorted l) l.
Proof.
  induction l as [|x t IH]; simpl; [reflexivity|].
  rewrite insert_sorted_perm. now constructor.
Qed.

Lemma insert_sorted_hd (x a : string) (l : list string) :
  string_le a x -> HdRel string_le a l -> HdRel string_le a (Py.insert_sorted x l).
Proof.
  intros Hax Hl. destruct l as [|y t]; simpl.
  - now constructor.
  - destruct (String.leb x y); constructor; [assumption|].
    now inversion Hl.
Qed.

Lemma insert_sorted_sorted (x : string) (l : list string) :
  Sorted string_le l -> Sorted string_le (Py.insert_sorted x l).
Proof.
  induction 1 as [|y t Ht IH Hhd]; simpl.
  - repeat constructor.
  - destruct (String.leb x y) eqn:E.
    + repeat constructor; assumption.
    + constructor; [assumption|].
      apply insert_sorted_hd; [|assumption].
      destruct (String.leb_total x y) as [H|H]; [congruence|exact H].
Qed.

Lemma sorted_sorted (l : list string) : Sorted string_le (Py.sorted l).
Proof.
  induction l as [|x t IH]; simpl; [constructor|].
  now apply insert_sorted_sorted.
Qed.

Lemma in_select_year_grid (years : list string) (grid : string) (file_list : list string)
  (f : string) :
  In f (select_year_grid years grid file_list) <->
  exists year, In year years /\ In f file_list /\
               Py.str_in ("_y" ++ year) f = true /\ Py.str_in ("_grid" ++ grid) f = true.
Proof.
  unfold select_year_grid. rewrite in_flat_map. split.
  - intros (year & Hy & Hf). exists year. split; [assumption|].
    apply (Permutation_in _ (sorted_perm _)) in Hf.
    apply filter_In in Hf. destruct Hf as [Hin Hm].
    unfold year_grid_match in Hm. apply andb_true_iff in Hm. tauto.
  - intros (year & Hy & Hin & H1 & H2). exists year. split; [assumption|].
    apply (Permutation_in _ (Permutation_sym (sorted_perm _))).
    apply filter_In. split; [assumption|].
    unfold year_grid_match. now rewrite H1, H2.
Qed.

(** The call without month selection. *)
Lemma get_file_list_plain (w : World) (self : Anhalyze) (out : list string)
  (data_path mask_path : string) (file_list : list string) :
  get_paths w (run_name self) false = (out, Ok (data_path, mask_path)) ->
  listdir w data_path = Ok file_list ->
  get_file_list w self None false false =
    (out, Ok (map (fun filename => data_path ++ filename)
                  (select_year_grid (years self) (grid self) file_list))).
Proof.
  intros Hpaths Hlist. unfold get_file_list.
  rewrite Hpaths. cbn [bind ret lift]. rewrite Hlist.
  cbn [bind ret lift is_nil negb app].
  now rewrite !app_nil_r.
Qed.

(** C8.  Without month selection the catalog returns, for every listing,
    year list and grid code, the concatenation over the years (in the
    order of the year list) of that year's files, each sublist being the
    alphabetically sorted files of the listing that contain both [_y<year>]
    and [_grid<grid>], every entry prefixed with the data directory; so a
    path is returned exactly when it is the prefixed name of a listed file
    with both tokens for some requested year.  For the listing of the two
    1998 files and one 1999 file with years [1998] and grid [T] the result
    is the two 1998 files in alphabetical order. *)
Theorem get_file_list_year_grid (w : World) (self : Anhalyze) (out : list string)
  (data_path mask_path : string) (file_list : list string) :
  get_paths w (run_name self) false = (out, Ok (data_path, mask_path)) ->
  listdir w data_path = Ok file_list ->
  (exists per_year : list (list string),
      get_file_list w self None false false =
        (out, Ok (map (fun filename => data_path ++ filename) (List.concat per_year))) /\
      Forall2 (fun year sub =>
                 Permutation sub (filter (year_grid_match year (grid self)) file_list) /\
                 Sorted string_le sub)
              (years self) per_year /\
      (forall f, In f (List.concat per_year) <->
                 exists year, In year (years self) /\ In f file_list /\
                              Py.str_in ("_y" ++ year) f = true /\
                              Py.str_in ("_grid" ++ grid self) f = true))
  /\ get_file_list (catalog_world listing_1998_1999) (catalog ["1998"]) None false false =
       ([], Ok ["/data/R_y1998m01d01_gridT.nc"; "/data/R_y1998m02d01_gridT.nc"]).
Proof.
  intros Hpaths Hlist. split; [|reflexivity].
  exists (map (fun year => Py.sorted (filter (year_grid_match year (grid self)) file_list))
              (years self)).
  rewrite <- flat_map_concat_map.
  split; [|split].
  - now apply get_file_list_plain with (mask_path := mask_path).
  - induction (years self) as [|y ys IH]; simpl; constructor; [|exact IH].
    split; [apply sorted_perm | apply sorted_sorted].
  - intros f. apply in_select_year_grid.
Qed.

Lemma get_file_list_year_grid_witness :
  (exists per_year : list (list string),
      get_file_list (catalog_world listing_1998_1999) (catalog ["1999"; "1998"])
                    None false false =
        ([], Ok (map (fun filename => "/data/" ++ filename) (List.concat per_year))) /\
      Forall2 (fun year sub =>
                 Permutation sub (filter (year_grid_match year "T") listing_1998_1999) /\
                 Sorted string_le sub)
              ["1999"; "1998"] per_year /\
      (forall f, In f (List.concat per_year) <->
                 exists year, In year ["1999"; "1998"] /\ In f listing_1998_1999 /\
                              Py.str_in ("_y" ++ year) f = true /\
                              Py.str_in ("_grid" ++ "T") f = true))
  /\ get_file_list (catalog_world listing_1998_1999) (catalog ["1998"]) None false false =
       ([], Ok ["/data/R_y1998m01d01_gridT.nc"; "/data/R_y1998m02d01_gridT.nc"]).
Proof.
  apply (get_file_list_year_grid (catalog_world listing_1998_1999) (catalog ["1999"; "1998"])
           [] "/data/" "/masks/" listing_1998_1999); reflexivity.
Defined.

Lemma flat_map_nil {A B : Type} (f : A -> list B) (l : list A) :
  (forall x, In x l -> f x = []) -> flat_map f l = [].
Proof.
  induction l as [|x t IH]; intros H; simpl; [reflexivity|].
  rewrite (H x (or_introl eq_refl)), IH; [reflexivity|].
  intros y Hy. apply H. now right.
Qed.

Lemma filter_nil {A : Type} (p : A -> bool) (l : list A) :
  (forall x, In x l -> p x = false) -> filter p l = [].
Proof.
  induction l as [|x t IH]; intros H; simpl; [reflexivity|].
  rewrite (H x (or_introl eq_refl)). apply IH.
  intros y Hy. apply H. now right.
Qed.

(** C10.  With [one_per_month] off and a non-empty month list none of whose
    year+month stumps occurs in any selected name, the month-filtered list
    is empty and the catalog falls back to the whole year+grid selection:
    the result is the one of the call without a month list. *)
Theorem get_file_list_month_filter_dropped (w : World) (self : Anhalyze)
  (months : list Py.fmt_arg) (out : list string) (data_path mask_path : string)
  (file_list : list string) :
  get_paths w (run_name self) false = (out, Ok (data_path, mask_path)) ->
  listdir w data_path = Ok file_list ->
  months <> [] ->
  (forall year month f,
      In year (years self) -> In month months ->
      In f (select_year_grid (years self) (grid self) file_list) ->
      Py.str_in (file_name_stump year month) f = false) ->
  get_file_list w self (Some months) false false =
    (out, Ok (map (fun filename => data_path ++ filename)
                  (select_year_grid (years self) (grid self) file_list)))
  /\ get_file_list w self (Some months) false false = get_file_list w self None false false.
Proof.
  intros Hpaths Hlist Hmonths Hnone.
  rewrite (get_file_list_plain w self out data_path mask_path file_list Hpaths Hlist).
  assert (get_file_list w self (Some months) false false =
            (out, Ok (map (fun filename => data_path ++ filename)
                          (select_year_grid (years self) (grid self) file_list)))) as E.
  { unfold get_file_list.
    rewrite Hpaths. cbn [bind ret lift]. rewrite Hlist.
    destruct months as [|m ms]; [congruence|].
    cbn [bind ret lift is_nil negb app].
    rewrite flat_map_nil.
    - cbn [is_nil negb]. now rewrite !app_nil_r.
    - intros year Hy. apply flat_map_nil. intros month Hm.
      apply filter_nil. intros f Hf. now apply Hnone. }
  split; [exact E | exact E].
Qed.

Lemma get_file_list_month_filter_dropped_witness :
  get_file_list (catalog_world listing_1998_1999) (catalog ["1998"])
                (Some [Py.FStr "07"]) false false =
    ([], Ok (map (fun filename => "/data/" ++ filename)
                 (select_year_grid ["1998"] "T" listing_1998_1999)))
  /\ get_file_list (catalog_world listing_1998_1999) (catalog ["1998"])
                   (Some [Py.FStr "07"]) false false =
     get_file_list (catalog_world listing_1998_1999) (catalog ["1998"]) None false false.
Proof.
  apply (get_file_list_month_filter_dropped (catalog_world listing_1998_1999)
           (catalog ["1998"]) [Py.FStr "07"] [] "/data/" "/masks/" listing_1998_1999).
  - reflexivity.
  - reflexivity.
  - discriminate.
  - intros year month f [<-|[]] [<-|[]] Hf.
    vm_compute in Hf.
    destruct Hf as [<-|[<-|[]]]; reflexivity.
Defined.

(** The month filter does select when something matches. *)
Example get_file_list_month_filter_applies :
  get_file_list (catalog_world listing_1998_1999) (catalog ["1998"])
                (Some [Py.FStr "02"]) false false =
    ([], Ok ["/data/R_y1998m02d01_gridT.nc"]).
Proof. reflexivity. Qed.

(** *** One file per month *)

Lemma rmap_ok {A B : Type} (f : A -> result B) (g : A -> B) (l : list A) :
  (forall x, In x l -> f x = Ok (g x)) -> rmap f l = Ok (map g l).
Proof.
  induction l as [|x t IH]; intros H; simpl; [reflexivity|].
  rewrite (H x (or_introl eq_refl)). cbn [rbind].
  rewrite IH; [reflexivity|]. intros y Hy. apply H. now right.
Qed.

Lemma rmap_raise {A B : Type} (f : A -> result B) (e : exn) (l : list A) :
  (forall x e', In x l -> f x = Raise e' -> e' = e) ->
  (exists x, In x l /\ f x = Raise e) ->
  rmap f l = Raise e.
Proof.
  induction l as [|x t IH]; intros Honly (y & Hy & Hf); [destruct Hy|].
  simpl. destruct (f x) as [b|e'] eqn:E; cbn [rbind].
  - rewrite IH; [reflexivity| |].
    + intros z e' Hz. apply Honly. now right.
    + destruct Hy as [->|Hy]; [congruence|]. now exists y.
  - f_equal. apply (Honly x e'); [now left | exact E].
Qed.

Lemma rmap_raise_only {A B : Type} (f : A -> result B) (e e0 : exn) (l : list A) :
  (forall x e', In x l -> f x = Raise e' -> e' = e) ->
  rmap f l = Raise e0 -> e0 = e.
Proof.
  induction l as [|x t IH]; intros Honly; simpl; [discriminate|].
  destruct (f x) as [b|e'] eqn:E; cbn [rbind].
  - destruct (rmap f t) eqn:Et; cbn [rbind]; [discriminate|].
    intros H. injection H as <-. apply IH; [|reflexivity].
    intros z e' Hz. apply Honly. now right.
  - intros H. injection H as <-. apply (Honly x e'); [now left | exact E].
Qed.

Lemma index_0_spec {A : Type} (l : list A) :
  Py.index l 0 = match l with
                 | [] => Raise IndexError
                 | x :: _ => Ok x
                 end.
Proof. destruct l; [apply index_empty | apply index_0]. Qed.

(** With an explicit month list, [one_per_month] fails with [IndexError]
    as soon as one requested year and month has no file containing its
    stump. *)
Lemma get_file_list_one_per_month_missing (w : World) (self : Anhalyze)
  (months : list Py.fmt_arg) (out : list string) (data_path mask_path : string)
  (file_list : list string) (year : string) (month : Py.fmt_arg) :
  get_paths w (run_name self) false = (out, Ok (data_path, mask_path)) ->
  listdir w data_path = Ok file_list ->
  In year (years self) -> In month months ->
  month_files (select_year_grid (years self) (grid self) file_list) year month = [] ->
  get_file_list w self (Some months) true false = (out, Raise IndexError).
Proof.
  intros Hpaths Hlist Hy Hm Hnone. unfold get_file_list.
  rewrite Hpaths. cbn [bind ret lift]. rewrite Hlist.
  destruct months as [|m0 ms]; [destruct Hm|].
  cbn [bind ret lift is_nil app].
  set (sel := select_year_grid (years self) (grid self) file_list) in *.
  assert (forall y, forall x e', In x (m0 :: ms) ->
            Py.index (month_files sel y x) 0 = Raise e' -> e' = IndexError) as Hin.
  { intros y x e' _. rewrite index_0_spec. destruct (month_files sel y x); congruence. }
  rewrite (rmap_raise _ IndexError (years self)).
  - cbn [bind ret lift app]. now rewrite ?app_nil_r.
  - intros y e' _ Hr.
    apply (rmap_raise_only _ IndexError e' (m0 :: ms) (Hin y) Hr).
  - exists year. split; [assumption|].
    apply rmap_raise.
    + intros x e'. apply Hin.
    + exists month. split; [assumption|]. now rewrite Hnone, index_empty.
Qed.

(** With an explicit month list every pair of which has a file, the
    catalog returns, year by year and month by month, the first selected
    file containing the stump. *)
Lemma get_file_list_one_per_month_first (w : World) (self : Anhalyze)
  (months : list Py.fmt_arg) (out : list string) (data_path mask_path : string)
  (file_list : list string) :
  get_paths w (run_name self) false = (out, Ok (data_path, mask_path)) ->
  listdir w data_path = Ok file_list ->
  months <> [] -> years self <> [] ->
  (forall year month, In year (years self) -> In month months ->
     month_files (select_year_grid (years self) (grid self) file_list) year month <> []) ->
  get_file_list w self (Some months) true false =
    (out, Ok (map (fun filename => data_path ++ filename)
                (flat_map (fun year =>
                   map (fun month =>
                          hd EmptyString
                             (month_files (select_year_grid (years self) (grid self) file_list)
                                          year month))
                       months)
                   (years self)))).
Proof.
  intros Hpaths Hlist Hmonths Hyears Hall. unfold get_file_list.
  rewrite Hpaths. cbn [bind ret lift]. rewrite Hlist.
  destruct months as [|m0 ms]; [congruence|].
  cbn [bind ret lift is_nil app].
  set (sel := select_year_grid (years self) (grid self) file_list) in *.
  rewrite (rmap_ok _ (fun year => map (fun month => hd EmptyString (month_files sel year month))
                                      (m0 :: ms))).
  - cbn [bind ret lift app]. rewrite <- flat_map_concat_map.
    destruct (years self) as [|y ys]; [congruence|].
    cbn [flat_map map app is_nil negb]. now rewrite !app_nil_r.
  - intros year Hy. apply rmap_ok. intros month Hm.
    rewrite index_0_spec. specialize (Hall year month Hy Hm).
    destruct (month_files sel year month); [congruence|reflexivity].
Qed.

(** C9.  The months found among the selected files are read back as
    integers and formatted without their leading zero.  The listing holds
    a file for January 1998, the month found is 1 and its stump is
    [y1998m1], which the January name does not contain: the call raises
    [IndexError] although a file for the requested year and month exists.
    When an October file is listed as well, it is the one selected for
    January.  With the explicit month ["01"] the January file is
    selected. *)
Theorem get_file_list_one_per_month_found_months :
  get_date "R_y1998m01d01_gridT.nc" "ymd" = Ok (DateYMD 1998 1 1)
  /\ rmap month_of (select_year_grid ["1998"] "T" ["R_y1998m01d01_gridT.nc"])
     = Ok [Py.FInt 1]
  /\ file_name_stump "1998" (Py.FInt 1) = "y1998m1"
  /\ get_file_list (catalog_world ["R_y1998m01d01_gridT.nc"]) (catalog ["1998"])
                   None true false
     = ([], Raise IndexError)
  /\ get_file_list (catalog_world ["R_y1998m01d01_gridT.nc"; "R_y1998m10d03_gridT.nc"])
                   (catalog ["1998"]) None true false
     = ([], Ok ["/data/R_y1998m10d03_gridT.nc"; "/data/R_y1998m10d03_gridT.nc"])
  /\ get_file_list (catalog_world ["R_y1998m01d01_gridT.nc"; "R_y1998m10d03_gridT.nc"])
                   (catalog ["1998"]) (Some [Py.FStr "01"]) true false
     = ([], Ok ["/data/R_y1998m01d01_gridT.nc"]).
Proof. repeat split; reflexivity. Qed.

(** ** Spatial subsetter *)

Lemma shape_map {A B : Type} (f : A -> B) (m : matrix A) : shape (map (map f) m) = shape m.
Proof.
  unfold shape. rewrite map_map. apply map_ext. intros r. apply length_map.
Qed.

Lemma same_shape_map {A B C D : Type} (f : A -> B) (g : C -> D)
  (m1 : matrix A) (m2 : matrix C) :
  same_shape (map (map f) m1) (map (map g) m2) = same_shape m1 m2.
Proof. unfold same_shape. now rewrite !shape_map. Qed.

Lemma np_sum_zeros (l : list Q) : Forall (fun q => q = 0) l -> np_sum l == 0.
Proof.
  induction 1 as [|x t Hx _ IH]; simpl; [reflexivity|].
  subst x. rewrite IH. reflexivity.
Qed.

Lemma Qltb_false (x y : Q) : y <= x -> Qltb x y = false.
Proof.
  intros H. unfold Qltb. apply negb_false_iff. now apply Qle_bool_iff.
Qed.

Lemma Qltb_true (x y : Q) : x < y -> Qltb x y = true.
Proof.
  intros H. unfold Qltb. apply negb_true_iff.
  destruct (Qle_bool y x) eqn:E; [|reflexivity].
  apply Qle_bool_iff in E. exfalso. now apply (Qlt_not_le x y).
Qed.

Lemma Qltb_lt (x y : Q) : Qltb x y = true -> x < y.
Proof.
  unfold Qltb. intros H. apply negb_true_iff in H.
  apply Qnot_le_lt. intros Hle. apply Qle_bool_iff in Hle. congruence.
Qed.

Lemma np_where_from (s : nat) (b : list bool) :
  Forall (fun x => x = false) b ->
  filter (fun p : nat * bool => snd p) (combine (seq s (List.length b)) b) = [].
Proof.
  intros H. revert s. induction H as [|x t Hx _ IH]; intros s; simpl; [reflexivity|].
  subst x. simpl. apply IH.
Qed.

Lemma np_where_none (b : list bool) : Forall (fun x => x = false) b -> np_where b = [].
Proof.
  intros H. unfold np_where. now rewrite np_where_from.
Qed.

(** A row without qualifying cell is zero throughout the masked array. *)
Lemma masked_row_zero (lat_range lon_range : Q * Q) (r s : list Q) :
  (forall j x y, nth_error r j = Some x -> nth_error s j = Some y ->
                 in_range lat_range x = true -> in_range lon_range y = true -> False) ->
  Forall (fun q => q = 0)
    (zip_with (fun x (b : bool) => if b then x else 0) r
       (zip_with andb (map (in_range lat_range) r) (map (in_range lon_range) s))).
Proof.
  revert s. induction r as [|x r IH]; intros s H; [constructor|].
  destruct s as [|y s]; [constructor|].
  unfold zip_with in *. cbn [map combine fst snd].
  constructor.
  - destruct (in_range lat_range x) eqn:Ex, (in_range lon_range y) eqn:Ey;
      try reflexivity.
    exfalso. apply (H 0%nat x y); auto.
  - apply IH. intros j. apply (H (S j)).
Qed.

Lemma masked_zero (lat_range lon_range : Q * Q) (lat lon : matrix Q) :
  (forall i j, ~ qualifies lat lon lat_range lon_range i j) ->
  Forall (Forall (fun q => q = 0))
    (masked_latitudes lat (window_cells lat lon lat_range lon_range)).
Proof.
  revert lon. induction lat as [|r lat IH]; intros lon H; [constructor|].
  destruct lon as [|s lon]; [constructor|].
  unfold masked_latitudes, window_cells, matrix_zip, zip_with in *.
  cbn [map combine fst snd].
  constructor.
  - apply masked_row_zero. intros j x y Hx Hy Hlat Hlon.
    apply (H 0%nat j). exists x, y. unfold cell_at. cbn [nth_error]. auto.
  - apply IH. intros i j (x & y & Hx & Hy & Hq).
    apply (H (S i) j). exists x, y. unfold cell_at in *. cbn [nth_error]. auto.
Qed.

(** C4.  When no cell of the grid lies inside both windows, the list of
    candidate rows is empty and taking its first element raises
    [IndexError] (the spec's [EmptyRegionError]): no range is returned. *)
Theorem get_row_col_range_empty_region (data : Dataset) (lat lon : matrix Q)
  (lat_range lon_range : Q * Q) :
  var2d data "nav_lat_grid_T" = Some lat ->
  var2d data "nav_lon_grid_T" = Some lon ->
  same_shape lat lon = true ->
  (forall i j, ~ qualifies lat lon lat_range lon_range i j) ->
  get_row_col_range data lat_range lon_range "gridT" = Raise IndexError.
Proof.
  intros Hlat Hlon Hshape Hnone.
  unfold get_row_col_range, nc_var2d, window_mask.
  cbn [String.eqb Ascii.eqb Bool.eqb fst snd]. rewrite Hlat, Hlon. cbn [rbind].
  rewrite same_shape_map, Hshape. cbn [rbind].
  pose proof (masked_zero lat_range lon_range lat lon Hnone) as Hzero.
  rewrite np_where_none; [now rewrite index_empty|].
  unfold sum_axis1. rewrite map_map. apply Forall_map.
  eapply Forall_impl; [|exact Hzero].
  intros r Hr. cbv beta. apply Qltb_false.
  rewrite (np_sum_zeros r Hr). apply Qle_refl.
Qed.

Lemma get_row_col_range_empty_region_witness :
  get_row_col_range (grid_dataset separable_lat separable_lon) (100, 145) (5, 35) "gridT"
  = Raise IndexError.
Proof.
  apply (get_row_col_range_empty_region _ separable_lat separable_lon);
    try reflexivity.
  intros i j (x & y & Hx & _ & Hin & _).
  unfold cell_at in Hx.
  do 6 (destruct i as [|i]; [do 5 (destruct j as [|j]; [injection Hx as <-; discriminate Hin|]);
                             destruct j; discriminate Hx|]).
  destruct i; discriminate Hx.
Defined.

(** *** Windows in the northern hemisphere *)

Lemma zip_with_nth {A B C : Type} (f : A -> B -> C) (l1 : list A) (l2 : list B)
  (i : nat) (a : A) (b : B) :
  nth_error l1 i = Some a -> nth_error l2 i = Some b ->
  nth_error (zip_with f l1 l2) i = Some (f a b).
Proof.
  unfold zip_with. revert l2 i. induction l1 as [|x t IH]; intros [|y u] [|i];
    try discriminate; cbn [nth_error combine map fst snd].
  - intros H1 H2. injection H1 as <-. injection H2 as <-. reflexivity.
  - apply IH.
Qed.

Lemma zip_with_nth_inv {A B C : Type} (f : A -> B -> C) (l1 : list A) (l2 : list B)
  (i : nat) (c : C) :
  nth_error (zip_with f l1 l2) i = Some c ->
  exists a b, nth_error l1 i = Some a /\ nth_error l2 i = Some b /\ c = f a b.
Proof.
  unfold zip_with. revert l2 i. induction l1 as [|x t IH]; intros [|y u] [|i];
    try discriminate; cbn [nth_error combine map fst snd].
  - intros H. injection H as <-. now exists x, y.
  - apply IH.
Qed.

Lemma np_sum_nonneg (l : list Q) : Forall (fun q => 0 <= q) l -> 0 <= np_sum l.
Proof.
  induction 1 as [|x t Hx _ IH]; simpl; [apply Qle_refl|].
  lra.
Qed.

(** A sum of non-negative numbers is positive exactly when one of them is. *)
Lemma np_sum_pos (l : list Q) :
  Forall (fun q => 0 <= q) l -> (0 < np_sum l <-> Exists (fun q => 0 < q) l).
Proof.
  induction 1 as [|x t Hx Ht IH]; simpl.
  - split; [intros H; exfalso; lra | intros H; inversion H].
  - pose proof (np_sum_nonneg t Ht) as Hs. split.
    + intros H. destruct (Qlt_le_dec 0 x) as [Hpos|Hle].
      * now left.
      * right. apply IH. lra.
    + intros H. inversion H as [? ? Hpos|? ? Hex]; subst; [lra|].
      apply IH in Hex. lra.
Qed.

Section Northern.

Variables (lat lon : matrix Q) (lat_range lon_range : Q * Q).
Hypothesis north : 0 <= fst lat_range.


Lemma masked_cell (i j : nat) (e : Q) :
  cell_at (masked_grid lat lon lat_range lon_range) i j = Some e ->
  exists x y, cell_at lat i j = Some x /\ cell_at lon i j = Some y /\
              e = if in_range lat_range x && in_range lon_range y then x else 0.
Proof.
  unfold cell_at, masked_grid, masked_latitudes, window_cells, matrix_zip.
  destruct (nth_error (zip_with _ lat _) i) as [mrow|] eqn:Em; [|discriminate].
  apply zip_with_nth_inv in Em. destruct Em as (r & brow & Hr & Hb & ->).
  apply zip_with_nth_inv in Hb. destruct Hb as (lr & nr & Hlr & Hnr & ->).
  rewrite nth_error_map in Hlr, Hnr.
  rewrite Hr in Hlr. cbn [option_map] in Hlr. injection Hlr as <-.
  destruct (nth_error lon i) as [s|]; [|discriminate].
  cbn [option_map] in Hnr. injection Hnr as <-.
  rewrite Hr. intros He.
  apply zip_with_nth_inv in He. destruct He as (x & b & Hx & Hb & ->).
  apply zip_with_nth_inv in Hb. destruct Hb as (bx & by' & Hbx & Hby & ->).
  rewrite nth_error_map in Hbx, Hby. rewrite Hx in Hbx.
  cbn [option_map] in Hbx. injection Hbx as <-.
  destruct (nth_error s j) as [y|]; [|discriminate].
  cbn [option_map] in Hby. injection Hby as <-.
  now exists x, y.
Qed.

Lemma masked_cell_qualifies (i j : nat) (x y : Q) :
  cell_at lat i j = Some x -> cell_at lon i j = Some y ->
  cell_at (masked_grid lat lon lat_range lon_range) i j = Some (if in_range lat_range x && in_range lon_range y then x else 0).
Proof.
  unfold cell_at, masked_grid, masked_latitudes, window_cells, matrix_zip.
  destruct (nth_error lat i) as [r|] eqn:Er; [|discriminate].
  destruct (nth_error lon i) as [s|] eqn:Es; [|discriminate].
  intros Hx Hy.
  rewrite (zip_with_nth _ lat _ i r
             (zip_with andb (map (in_range lat_range) r) (map (in_range lon_range) s)) Er).
  - rewrite (zip_with_nth _ r _ j x (in_range lat_range x && in_range lon_range y) Hx);
      [reflexivity|].
    apply (zip_with_nth andb); rewrite nth_error_map; [now rewrite Hx | now rewrite Hy].
  - apply (zip_with_nth (zip_with andb)); rewrite nth_error_map;
      [now rewrite Er | now rewrite Es].
Qed.

Lemma in_range_positive (x : Q) : in_range lat_range x = true -> 0 < x.
Proof.
  unfold in_range. intros H. apply andb_true_iff in H. destruct H as [H _].
  apply Qltb_lt in H. lra.
Qed.

Lemma masked_nonneg (i j : nat) (e : Q) : cell_at (masked_grid lat lon lat_range lon_range) i j = Some e -> 0 <= e.
Proof.
  intros H. apply masked_cell in H. destruct H as (x & y & _ & _ & ->).
  destruct (in_range lat_range x) eqn:Ex; cbn [andb]; [|apply Qle_refl].
  destruct (in_range lon_range y); [|apply Qle_refl].
  apply Qlt_le_weak. now apply in_range_positive.
Qed.

(** The positive entries of the masked array are the qualifying cells. *)
Lemma masked_positive (i j : nat) :
  (exists e, cell_at (masked_grid lat lon lat_range lon_range) i j = Some e /\ 0 < e) <->
  qualifies lat lon lat_range lon_range i j.
Proof.
  split.
  - intros (e & He & Hpos). apply masked_cell in He.
    destruct He as (x & y & Hx & Hy & ->). exists x, y.
    destruct (in_range lat_range x), (in_range lon_range y); cbn [andb] in Hpos;
      try (exfalso; lra). auto.
  - intros (x & y & Hx & Hy & Hin & Hin').
    exists x. split.
    + rewrite (masked_cell_qualifies i j x y Hx Hy), Hin, Hin'. reflexivity.
    + now apply in_range_positive.
Qed.



Lemma masked_row_nonneg (i : nat) (mrow : list Q) :
  nth_error (masked_grid lat lon lat_range lon_range) i = Some mrow -> Forall (fun q => 0 <= q) mrow.
Proof.
  intros Hrow. apply Forall_forall. intros e He.
  apply In_nth_error in He. destruct He as (j & Hj).
  apply (masked_nonneg i j). unfold cell_at. now rewrite Hrow.
Qed.

(** A row counts exactly when it holds a qualifying cell. *)
Lemma row_counts (i : nat) :
  nth_error (map (Qltb 0) (sum_axis1 (masked_grid lat lon lat_range lon_range))) i = Some true <->
  row_qualifies lat lon lat_range lon_range i.
Proof.
  unfold sum_axis1, row_qualifies. rewrite !nth_error_map.
  destruct (nth_error (masked_grid lat lon lat_range lon_range) i) as [mrow|] eqn:Erow; cbn [option_map].
  - pose proof (masked_row_nonneg i mrow Erow) as Hnn. split.
    + intros H. injection H as H. apply Qltb_lt in H.
      apply (np_sum_pos mrow Hnn) in H. apply Exists_exists in H.
      destruct H as (e & He & Hpos).
      apply In_nth_error in He. destruct He as (j & Hj).
      exists j. apply masked_positive. exists e. split; [|exact Hpos].
      unfold cell_at. now rewrite Erow.
    + intros (j & Hq). apply masked_positive in Hq. destruct Hq as (e & He & Hpos).
      unfold cell_at in He. rewrite Erow in He.
      f_equal. apply Qltb_true. apply (np_sum_pos mrow Hnn).
      apply Exists_exists. exists e. split; [|exact Hpos].
      eapply nth_error_In; eassumption.
  - split; [discriminate|].
    intros (j & Hq). apply masked_positive in Hq. destruct Hq as (e & He & _).
    unfold cell_at in He. now rewrite Erow in He.
Qed.

Hypothesis shapes : same_shape lat lon = true.
Hypothesis rect : rectangular lat.

Lemma same_shape_rows (i : nat) (r : list Q) :
  nth_error lat i = Some r ->
  exists s, nth_error lon i = Some s /\ List.length s = List.length r.
Proof.
  intros Hr. unfold same_shape in shapes.
  destruct (list_eq_dec Nat.eq_dec (shape lat) (shape lon)) as [E|]; [|discriminate].
  unfold shape in E.
  assert (nth_error (map (@List.length Q) lon) i = Some (List.length r)) as H.
  { rewrite <- E, nth_error_map, Hr. reflexivity. }
  rewrite nth_error_map in H.
  destruct (nth_error lon i) as [s|]; [|discriminate].
  injection H as H. now exists s.
Qed.

Lemma ncols_first {A : Type} (m : matrix A) (r : list A) :
  nth_error m 0 = Some r -> ncols m = List.length r.
Proof. destruct m; [discriminate|]. intros H. now injection H as ->. Qed.

(** In a rectangular grid every row of the masked array is as long as
    the first. *)
Lemma masked_cell_first_row (i j : nat) (e : Q) :
  cell_at (masked_grid lat lon lat_range lon_range) i j = Some e -> (j < ncols (masked_grid lat lon lat_range lon_range))%nat.
Proof.
  intros He. apply masked_cell in He. destruct He as (x & y & Hx & _ & _).
  unfold cell_at in Hx.
  destruct (nth_error lat i) as [r|] eqn:Er; [|discriminate].
  assert (j < List.length r)%nat as Hj by (apply nth_error_Some; congruence).
  destruct (nth_error lat 0) as [r0|] eqn:Er0.
  - assert (List.length r0 = List.length r) as Hlen
      by (apply rect; eapply nth_error_In; eassumption).
    destruct (same_shape_rows 0 r0 Er0) as (s0 & Hs0 & Hls0).
    rewrite (ncols_first (masked_grid lat lon lat_range lon_range)
               (zip_with (fun x (b : bool) => if b then x else 0) r0
                  (zip_with andb (map (in_range lat_range) r0)
                                 (map (in_range lon_range) s0)))).
    + unfold zip_with. repeat rewrite ?length_map, ?length_combine. lia.
    + unfold masked_grid, masked_latitudes, window_cells, matrix_zip.
      apply (zip_with_nth (zip_with (fun x (b : bool) => if b then x else 0)));
        [exact Er0|].
      apply (zip_with_nth (zip_with andb)); rewrite nth_error_map;
        [now rewrite Er0 | now rewrite Hs0].
  - apply nth_error_None in Er0.
    assert (i < List.length lat)%nat by (apply nth_error_Some; congruence). lia.
Qed.

Lemma column_nonneg (j : nat) :
  Forall (fun q => 0 <= q) (map (fun r => nth j r 0) (masked_grid lat lon lat_range lon_range)).
Proof.
  apply Forall_forall. intros e He. apply in_map_iff in He.
  destruct He as (mrow & <- & Hin).
  apply In_nth_error in Hin. destruct Hin as (i & Hi).
  destruct (nth_error mrow j) as [e|] eqn:Ej.
  - rewrite (nth_error_nth _ _ _ Ej). apply (masked_nonneg i j).
    unfold cell_at. now rewrite Hi.
  - rewrite nth_overflow; [apply Qle_refl|]. now apply nth_error_None.
Qed.

(** A column counts exactly when it holds a qualifying cell. *)
Lemma col_counts (j : nat) :
  nth_error (map (Qltb 0) (sum_axis0 (masked_grid lat lon lat_range lon_range))) j = Some true <->
  col_qualifies lat lon lat_range lon_range j.
Proof.
  unfold sum_axis0, col_qualifies. rewrite map_map, nth_error_map. split.
  - intros H.
    destruct (nth_error (seq 0 (ncols (masked_grid lat lon lat_range lon_range))) j) as [j'|] eqn:Ej; [|discriminate].
    pose proof (nth_error_Some (seq 0 (ncols (masked_grid lat lon lat_range lon_range))) j) as Hlt.
    rewrite Ej, length_seq in Hlt.
    assert (j < ncols (masked_grid lat lon lat_range lon_range))%nat as Hj by (apply Hlt; discriminate).
    rewrite nth_error_seq in Ej.
    destruct (Nat.ltb_spec j (ncols (masked_grid lat lon lat_range lon_range))) as [_|]; [|lia].
    injection Ej as <-. cbn [option_map Nat.add] in H. injection H as H.
    apply Qltb_lt in H. apply (np_sum_pos _ (column_nonneg j)) in H.
    apply Exists_exists in H. destruct H as (e & He & Hpos).
    apply in_map_iff in He. destruct He as (mrow & <- & Hin).
    apply In_nth_error in Hin. destruct Hin as (i & Hi).
    exists i. apply masked_positive. exists (nth j mrow 0). split; [|exact Hpos].
    unfold cell_at. rewrite Hi.
    destruct (nth_error mrow j) as [e|] eqn:Ee.
    + now rewrite (nth_error_nth _ _ _ Ee).
    + rewrite nth_overflow in Hpos; [exfalso; lra|]. now apply nth_error_None.
  - intros (i & Hq). apply masked_positive in Hq. destruct Hq as (e & He & Hpos).
    pose proof (masked_cell_first_row i j e He) as Hj.
    rewrite nth_error_seq.
    destruct (Nat.ltb_spec j (ncols (masked_grid lat lon lat_range lon_range))) as [_|]; [|lia].
    cbn [option_map Nat.add]. f_equal. apply Qltb_true.
    apply (np_sum_pos _ (column_nonneg j)). apply Exists_exists.
    unfold cell_at in He.
    destruct (nth_error (masked_grid lat lon lat_range lon_range) i) as [mrow|] eqn:Ei; [|discriminate].
    exists e. split; [|exact Hpos].
    apply in_map_iff. exists mrow. split.
    + now apply nth_error_nth.
    + eapply nth_error_In; eassumption.
Qed.

End Northern.

(** The positions found by [np.where], as natural numbers. *)
Lemma np_where_nat (b : list bool) :
  np_where b = map Z.of_nat (map fst (filter (fun p : nat * bool => snd p)
                                        (combine (seq 0 (List.length b)) b))).
Proof. unfold np_where. now rewrite map_map. Qed.

Lemma where_from_in (s : nat) (b : list bool) (i : nat) :
  In i (map fst (filter (fun p : nat * bool => snd p) (combine (seq s (List.length b)) b)))
  <-> (s <= i)%nat /\ nth_error b (i - s) = Some true.
Proof.
  revert s. induction b as [|x t IH]; intros s.
  - cbn. split; [tauto|]. intros [_ H]. destruct (i - s)%nat; discriminate.
  - cbn [List.length seq combine filter snd].
    assert (In i (map fst (filter (fun p : nat * bool => snd p)
                             (combine (seq (S s) (List.length t)) t)))
            <-> (s < i)%nat /\ nth_error (x :: t) (i - s) = Some true) as Htail.
    { rewrite IH. split.
      - intros [Hle H]. split; [lia|].
        replace (i - s)%nat with (S (i - S s)) by lia. exact H.
      - intros [Hlt H]. split; [lia|].
        replace (i - s)%nat with (S (i - S s)) in H by lia. exact H. }
    destruct x; cbn [map fst In].
    + rewrite Htail. split.
      * intros [<-|[Hlt H]]; [|split; [lia|exact H]].
        split; [lia|]. now rewrite Nat.sub_diag.
      * intros [Hle H]. destruct (Nat.eq_dec s i) as [->|Hne]; [now left|].
        right. split; [lia|exact H].
    + rewrite Htail. split.
      * intros [Hlt H]. split; [lia|exact H].
      * intros [Hle H]. split; [|exact H].
        destruct (Nat.eq_dec s i) as [->|Hne]; [|lia].
        rewrite Nat.sub_diag in H. discriminate.
Qed.

Lemma where_from_sorted (s : nat) (b : list bool) :
  StronglySorted lt
    (map fst (filter (fun p : nat * bool => snd p) (combine (seq s (List.length b)) b))).
Proof.
  revert s. induction b as [|x t IH]; intros s; [constructor|].
  cbn [List.length seq combine filter snd].
  destruct x; cbn [map fst]; [|apply IH].
  constructor; [apply IH|].
  apply Forall_forall. intros i Hi. apply where_from_in in Hi. lia.
Qed.

Lemma nth_error_last {A : Type} (l : list A) (d : A) :
  l <> [] -> nth_error l (List.length l - 1) = Some (last l d).
Proof.
  induction l as [|x t IH]; [congruence|]. intros _.
  destruct t as [|y u]; [reflexivity|].
  replace (List.length (x :: y :: u) - 1)%nat with (S (List.length (y :: u) - 1))
    by (cbn [List.length]; lia).
  change (last (x :: y :: u) d) with (last (y :: u) d).
  cbn [nth_error]. apply IH. discriminate.
Qed.

Lemma index_last {A : Type} (l : list A) (d : A) :
  l <> [] -> Py.index l (-1) = Ok (last l d).
Proof.
  intros Hne. unfold Py.index.
  assert (0 < List.length l)%nat as Hlen by (destruct l; [congruence|cbn; lia]).
  change (-1 <? 0)%Z with true. cbv iota.
  destruct (Z.ltb_spec (-1 + Z.of_nat (List.length l)) 0) as [H|_]; [lia|].
  destruct (Z.leb_spec (Z.of_nat (List.length l)) (-1 + Z.of_nat (List.length l)))
    as [H|_]; [lia|].
  cbn [orb].
  replace (Z.to_nat (-1 + Z.of_nat (List.length l))) with (List.length l - 1)%nat by lia.
  now rewrite (nth_error_last l d Hne).
Qed.

Lemma sorted_last_max (l : list nat) (d : nat) :
  StronglySorted lt l -> forall i, In i l -> (i <= last l d)%nat.
Proof.
  induction 1 as [|x t Ht IH Hx]; intros i Hi; [destruct Hi|].
  destruct t as [|y u].
  - destruct Hi as [<-|[]]. cbn. lia.
  - change (last (x :: y :: u) d) with (last (y :: u) d).
    destruct Hi as [<-|Hi]; [|now apply IH].
    assert (x < y)%nat by (inversion Hx; assumption).
    specialize (IH y (or_introl eq_refl)). lia.
Qed.

Lemma last_in {A : Type} (l : list A) (d : A) : l <> [] -> In (last l d) l.
Proof.
  induction l as [|x t IH]; [congruence|]. intros _.
  destruct t as [|y u]; [now left|].
  right. apply IH. discriminate.
Qed.

Lemma last_map_comm {A B : Type} (f : A -> B) (l : list A) (d : A) :
  last (map f l) (f d) = f (last l d).
Proof.
  induction l as [|x t IH]; [reflexivity|].
  destruct t as [|y u]; [reflexivity|]. exact IH.
Qed.

(** First and last element of the positions found by [np.where]. *)
Lemma np_where_first_last (b : list bool) (i0 : nat) :
  nth_error b i0 = Some true ->
  exists lo hi,
    Py.index (np_where b) 0 = Ok (Z.of_nat lo) /\
    Py.index (np_where b) (-1) = Ok (Z.of_nat hi) /\
    nth_error b lo = Some true /\ nth_error b hi = Some true /\
    forall i, nth_error b i = Some true -> (lo <= i <= hi)%nat.
Proof.
  intros Hi0. rewrite np_where_nat.
  pose proof (where_from_sorted 0 b) as Hsorted.
  pose proof (fun i => where_from_in 0 b i) as Hin.
  set (l := map fst (filter (fun p : nat * bool => snd p)
                       (combine (seq 0 (List.length b)) b))) in *.
  assert (forall i, In i l <-> nth_error b i = Some true) as Hin'.
  { intros i. rewrite Hin, Nat.sub_0_r. split; [tauto|]. intros H. split; [lia|exact H]. }
  destruct l as [|x t] eqn:El.
  { exfalso. now apply (Hin' i0). }
  rewrite <- El in *.
  assert (l <> []) as Hne by (rewrite El; discriminate).
  exists x, (last l 0%nat).
  split; [rewrite El; apply index_0|].
  split.
  { rewrite (index_last (map Z.of_nat l) (Z.of_nat 0)).
    - now rewrite last_map_comm.
    - rewrite El. discriminate. }
  split; [apply Hin'; rewrite El; now left|].
  split; [apply Hin'; now apply last_in|].
  intros i Hi. apply Hin' in Hi. split; [|now apply sorted_last_max].
  rewrite El in Hsorted, Hi. inversion Hsorted as [|? ? _ Hall]; subst.
  destruct Hi as [<-|Hi]; [lia|].
  rewrite Forall_forall in Hall. specialize (Hall i Hi). lia.
Qed.

(** On a rectangular grid and for a window whose lower latitude bound is
    not negative, a non-empty selection resolves to the first and last
    row, and the first and last column, holding a qualifying cell. *)
Theorem get_row_col_range_northern (data : Dataset) (lat lon : matrix Q)
  (lat_range lon_range : Q * Q) (i0 j0 : nat) :
  var2d data "nav_lat_grid_T" = Some lat ->
  var2d data "nav_lon_grid_T" = Some lon ->
  same_shape lat lon = true ->
  rectangular lat ->
  0 <= fst lat_range ->
  qualifies lat lon lat_range lon_range i0 j0 ->
  exists r0 r1 c0 c1 : nat,
    get_row_col_range data lat_range lon_range "gridT"
      = Ok ((Z.of_nat r0, Z.of_nat r1), (Z.of_nat c0, Z.of_nat c1)) /\
    row_qualifies lat lon lat_range lon_range r0 /\
    row_qualifies lat lon lat_range lon_range r1 /\
    (forall i, row_qualifies lat lon lat_range lon_range i -> (r0 <= i <= r1)%nat) /\
    col_qualifies lat lon lat_range lon_range c0 /\
    col_qualifies lat lon lat_range lon_range c1 /\
    (forall j, col_qualifies lat lon lat_range lon_range j -> (c0 <= j <= c1)%nat).
Proof.
  intros Hlat Hlon Hshape Hrect Hnorth Hq.
  pose proof (row_counts lat lon lat_range lon_range Hnorth) as Hrows.
  pose proof (col_counts lat lon lat_range lon_range Hnorth Hshape Hrect) as Hcols.
  destruct (np_where_first_last _ i0 (proj2 (Hrows i0) (ex_intro _ j0 Hq)))
    as (r0 & r1 & Hr0 & Hr1 & Hin0 & Hin1 & Hrange).
  destruct (np_where_first_last _ j0 (proj2 (Hcols j0) (ex_intro _ i0 Hq)))
    as (c0 & c1 & Hc0 & Hc1 & Hcin0 & Hcin1 & Hcrange).
  exists r0, r1, c0, c1.
  split.
  - unfold get_row_col_range, nc_var2d, window_mask.
    cbn [String.eqb Ascii.eqb Bool.eqb fst snd]. rewrite Hlat, Hlon. cbn [rbind].
    rewrite same_shape_map, Hshape. cbn [rbind].
    fold (masked_grid lat lon lat_range lon_range).
    rewrite Hr0, Hr1, Hc0, Hc1. reflexivity.
  - repeat split; try (now apply Hrows); try (now apply Hcols).
    + apply Hrange. now apply Hrows.
    + apply Hrange. now apply Hrows.
    + apply Hcrange. now apply Hcols.
    + apply Hcrange. now apply Hcols.
Qed.

(** The separable grid lies north of the equator. *)
Example get_row_col_range_northern_separable :
  exists r0 r1 c0 c1 : nat,
    get_row_col_range (grid_dataset separable_lat separable_lon) (15, 45) (5, 35) "gridT"
      = Ok ((Z.of_nat r0, Z.of_nat r1), (Z.of_nat c0, Z.of_nat c1)) /\
    (forall i, row_qualifies separable_lat separable_lon (15, 45) (5, 35) i ->
               (r0 <= i <= r1)%nat) /\
    (forall j, col_qualifies separable_lat separable_lon (15, 45) (5, 35) j ->
               (c0 <= j <= c1)%nat).
Proof.
  destruct (get_row_col_range_northern (grid_dataset separable_lat separable_lon)
              separable_lat separable_lon (15, 45) (5, 35) 2 1)
    as (r0 & r1 & c0 & c1 & H & _ & _ & Hrows & _ & _ & Hcols);
    try reflexivity.
  - intros r1 r2 H1 H2. cbn in H1, H2.
    repeat (destruct H1 as [<-|H1]); try destruct H1;
      repeat (destruct H2 as [<-|H2]); try destruct H2; reflexivity.
  - discriminate.
  - eexists. eexists. repeat split; reflexivity.
  - now exists r0, r1, c0, c1.
Qed.

(** C3.  The rows and columns are found by summing latitudes, not the
    inclusion mask.  On the separable grid (latitudes [0..50]) the window
    covering rows 2-4 and columns 1-3 resolves to [(2,4)] and [(1,3)].  On
    the grid with a southern row every cell lies strictly inside the
    window, yet row 0, whose latitudes sum to [-10], is left out: the row
    range is [(1,1)].  On a one-cell grid at latitude [-5] the only cell
    qualifies and the call raises [IndexError]. *)
Theorem get_row_col_range_sums_latitudes :
  get_row_col_range (grid_dataset separable_lat separable_lon) (15, 45) (5, 35) "gridT"
    = Ok ((2, 4), (1, 3))%Z
  /\ qualifies equator_lat equator_lon (-10, 10) (-1, 11) 0 0
  /\ qualifies equator_lat equator_lon (-10, 10) (-1, 11) 0 1
  /\ qualifies equator_lat equator_lon (-10, 10) (-1, 11) 1 0
  /\ qualifies equator_lat equator_lon (-10, 10) (-1, 11) 1 1
  /\ get_row_col_range (grid_dataset equator_lat equator_lon) (-10, 10) (-1, 11) "gridT"
     = Ok ((1, 1), (0, 1))%Z
  /\ qualifies [[-5]] [[0]] (-10, 0) (-1, 1) 0 0
  /\ get_row_col_range (grid_dataset [[-5]] [[0]]) (-10, 0) (-1, 1) "gridT"
     = Raise IndexError.
Proof.
  unfold qualifies, cell_at. cbn [nth_error equator_lat equator_lon].
  repeat split; try reflexivity;
    eexists; eexists; repeat split; reflexivity.
Qed.

(** ** Statistics aggregator *)

Lemma np_sum_replace_nan (l : list cell) :
  np_sum (replace_nan l) == np_sum (valid_values l).
Proof.
  induction l as [|[|q] t IH]; simpl.
  - reflexivity.
  - fold (replace_nan t). rewrite IH. apply Qplus_0_l.
  - fold (replace_nan t). now rewrite IH.
Qed.

Lemma count_valid_length (l : list cell) :
  count_valid l = List.length (valid_values l).
Proof.
  unfold count_valid. induction l as [|[|q] t IH]; simpl; [reflexivity|exact IH|].
  now rewrite IH.
Qed.

Lemma squared_deviations (avg : Q) (l : list cell) :
  np_sum (map (fun d => d * d)
            (map (fun c => match c with NaN => 0 | Num q => q - avg end) l))
  == np_sum (map (fun q => (q - avg) * (q - avg)) (valid_values l)).
Proof.
  induction l as [|[|q] t IH]; simpl.
  - reflexivity.
  - rewrite IH. ring.
  - now rewrite IH.
Qed.

(** Mean and deviation are taken over the cells that are not missing. *)
Lemma np_stats_of_valid (np_sqrt : Q -> Q) (a : matrix cell) :
  stats_of_valid np_sqrt a (np_nanmean a) (np_nanstd np_sqrt a).
Proof.
  unfold stats_of_valid, np_nanstd, np_nanvar, np_nanmean.
  rewrite count_valid_length.
  destruct (valid_values (List.concat a)) as [|x vs] eqn:E.
  - cbn [List.length Nat.eqb]. split; reflexivity.
  - cbn [List.length Nat.eqb].
    eexists. eexists. split; [reflexivity|]. split; [|split; [reflexivity|]].
    + rewrite np_sum_replace_nan, E. reflexivity.
    + rewrite squared_deviations, E. reflexivity.
Qed.

(** C7.  [calc_stats_var_data] returns the mean and the standard deviation
    of the extracted field taken over the cells that are not missing (the
    divisor counts those cells only); for [[1, 2], [3, NaN]] the mean is
    2.  A field without any such cell gives not-a-number for both, and
    the call returns, when minimum and maximum are not asked for; when
    they are, it returns as long as the field has a cell (not-a-number
    for minimum and maximum too if every cell is missing), and a field
    with no cell at all raises [ValueError]. *)
Theorem calc_stats_var_data_skips_missing (np_sqrt : Q -> Q) (w : World) (data : Dataset)
  (lat_range lon_range : Q * Q) (depth : Z) (var : string)
  (out : list string) (a : matrix cell) :
  get_var_data w data lat_range lon_range depth var true true = (out, Ok a) ->
  (exists var_mean var_std,
      calc_stats_var_data np_sqrt w data lat_range lon_range depth true var
        = (out, Ok (Stats2 var_mean var_std)) /\
      stats_of_valid np_sqrt a var_mean var_std)
  /\ (List.concat a <> [] ->
      exists var_mean var_std var_min var_max,
        calc_stats_var_data np_sqrt w data lat_range lon_range depth false var
          = (out, Ok (Stats4 var_mean var_std var_min var_max)) /\
        stats_of_valid np_sqrt a var_mean var_std /\
        (valid_values (List.concat a) = [] -> var_min = NaN /\ var_max = NaN))
  /\ (List.concat a = [] ->
      calc_stats_var_data np_sqrt w data lat_range lon_range depth false var
        = (out, Raise ValueError))
  /\ (exists m, np_nanmean [[Num 1; Num 2]; [Num 3; NaN]] = Num m /\ m == 2).
Proof.
  intros Hdata. split; [|split; [|split]].
  - exists (np_nanmean a), (np_nanstd np_sqrt a). split.
    + unfold calc_stats_var_data. rewrite Hdata. cbn [bind ret].
      now rewrite app_nil_r.
    + apply np_stats_of_valid.
  - intros Hcells.
    unfold calc_stats_var_data. rewrite Hdata. cbn [bind].
    unfold np_nanmin, np_nanmax, nan_reduce.
    destruct (List.concat a) as [|c t] eqn:Eflat; [congruence|].
    cbn [is_nil].
    destruct (valid_values (c :: t)) as [|x vs] eqn:Evalid;
      cbn [lift bind ret app]; rewrite !app_nil_r;
      do 4 eexists; (split; [reflexivity|]); (split; [apply np_stats_of_valid|]).
    + intros _. split; reflexivity.
    + discriminate.
  - intros Hempty.
    unfold calc_stats_var_data. rewrite Hdata. cbn [bind].
    unfold np_nanmin, nan_reduce. rewrite Hempty.
    cbn [is_nil lift bind app]. now rewrite !app_nil_r.
  - eexists. split; reflexivity.
Qed.

Lemma calc_stats_var_data_skips_missing_witness :
  (exists var_mean var_std,
      calc_stats_var_data (fun q => q) sample_world (field_dataset sample_votemper)
        (5, 35) (5, 35) 0 true "votemper" = ([], Ok (Stats2 var_mean var_std)) /\
      stats_of_valid (fun q => q) [[Num 1; Num 2]; [Num 3; NaN]] var_mean var_std)
  /\
  (exists var_mean var_std var_min var_max,
      calc_stats_var_data (fun q => q) land_world (field_dataset sample_votemper)
        (5, 35) (5, 35) 0 false "votemper"
        = ([], Ok (Stats4 var_mean var_std var_min var_max)) /\
      stats_of_valid (fun q => q) [[NaN; NaN]; [NaN; NaN]] var_mean var_std /\
      var_min = NaN /\ var_max = NaN)
  /\
  calc_stats_var_data (fun q => q) sample_world (field_dataset sample_votemper)
    (15, 25) (5, 35) 0 false "votemper" = ([], Raise ValueError).
Proof.
  split; [|split].
  - destruct (calc_stats_var_data_skips_missing (fun q => q) sample_world
                (field_dataset sample_votemper) (5, 35) (5, 35) 0 "votemper" []
                [[Num 1; Num 2]; [Num 3; NaN]] eq_refl) as (H & _).
    exact H.
  - destruct (calc_stats_var_data_skips_missing (fun q => q) land_world
                (field_dataset sample_votemper) (5, 35) (5, 35) 0 "votemper" []
                [[NaN; NaN]; [NaN; NaN]] eq_refl) as (_ & H & _).
    destruct H as (var_mean & var_std & var_min & var_max & Hcall & Hstats & Hmissing);
      [discriminate|].
    exists var_mean, var_std, var_min, var_max.
    split; [exact Hcall|]. split; [exact Hstats|]. now apply Hmissing.
  - destruct (calc_stats_var_data_skips_missing (fun q => q) sample_world
                (field_dataset sample_votemper) (15, 25) (5, 35) 0 "votemper" []
                [] eq_refl) as (_ & _ & H & _).
    now apply H.
Defined.

(** The field of a window that resolves to a single row has no cell, hence
    no cell that is not missing; with minimum and maximum asked for the
    call does not return not-a-number but raises. *)
Lemma calc_stats_var_data_no_cell_raises :
  exists field,
    get_var_data sample_world (field_dataset sample_votemper)
      (15, 25) (5, 35) 0 "votemper" true true = ([], Ok field) /\
    valid_values (List.concat field) = [] /\
    calc_stats_var_data (fun q => q) sample_world (field_dataset sample_votemper)
      (15, 25) (5, 35) 0 false "votemper" = ([], Raise ValueError) /\
    ~ exists out var_mean var_std var_min var_max,
        calc_stats_var_data (fun q => q) sample_world (field_dataset sample_votemper)
          (15, 25) (5, 35) 0 false "votemper"
        = (out, Ok (Stats4 var_mean var_std var_min var_max)).
Proof.
  exists []. split; [reflexivity|]. split; [reflexivity|]. split; [reflexivity|].
  intros (out & var_mean & var_std & var_min & var_max & H). discriminate H.
Qed.

(** With minimum and maximum requested, a field that has cells but none
    that is not missing gives not-a-number four times. *)
Lemma calc_stats_var_data_all_missing_min_max (np_sqrt : Q -> Q) (w : World)
  (data : Dataset) (lat_range lon_range : Q * Q) (depth : Z) (var : string)
  (out : list string) (a : matrix cell) :
  get_var_data w data lat_range lon_range depth var true true = (out, Ok a) ->
  List.concat a <> [] ->
  valid_values (List.concat a) = [] ->
  calc_stats_var_data np_sqrt w data lat_range lon_range depth false var
    = (out, Ok (Stats4 NaN NaN NaN NaN)).
Proof.
  intros Hdata Hcells Hmissing.
  pose proof (np_stats_of_valid np_sqrt a) as Hstats.
  unfold stats_of_valid in Hstats. rewrite Hmissing in Hstats.
  destruct Hstats as [Hmean Hstd].
  unfold calc_stats_var_data. rewrite Hdata. cbn [bind]. rewrite Hmean, Hstd.
  unfold np_nanmin, np_nanmax, nan_reduce. rewrite Hmissing.
  destruct (List.concat a) as [|c t]; [congruence|].
  cbn [is_nil lift bind ret app]. now rewrite !app_nil_r.
Qed.

(** The sample field: mean 2, variance 2/3 (a deviation of about 0.8165),
    where filling the missing cell with zero would give a mean of 3/2. *)
Example np_nanmean_sample :
  exists m v,
    np_nanmean [[Num 1; Num 2]; [Num 3; NaN]] = Num m /\ m == 2 /\
    np_nanvar [[Num 1; Num 2]; [Num 3; NaN]] = Num v /\ v == 2 # 3 /\
    (8164 # 10000) * (8164 # 10000) < v /\ v < (8166 # 10000) * (8166 # 10000) /\
    ~ np_sum (replace_nan [Num 1; Num 2; Num 3; NaN]) / 4 == 2.
Proof.
  eexists. eexists. repeat split; try reflexivity. intros H. discriminate H.
Qed.

(** A field of missing cells only: not-a-number for every statistic; an
    array without cells has no minimum. *)
Example np_all_missing :
  np_nanmean [[NaN; NaN]] = NaN /\ np_nanvar [[NaN; NaN]] = NaN /\
  np_nanmin [[NaN; NaN]] = Ok NaN /\ np_nanmax [[NaN; NaN]] = Ok NaN /\
  np_nanmean [] = NaN /\ np_nanmin [] = Raise ValueError.
Proof. repeat split; reflexivity. Qed.

(** ** Time-series builder *)

Lemma bind_ok {A B : Type} (m : M A) (f : A -> M B) (out : list string) (b : B) :
  bind m f = (out, Ok b) ->
  exists out1 a out2, m = (out1, Ok a) /\ f a = (out2, Ok b) /\ out = (out1 ++ out2)%list.
Proof.
  unfold bind. destruct m as [out1 [a|e]]; [|discriminate].
  destruct (f a) as [out2 r] eqn:E. intros H. injection H as <- ->.
  now exists out1, a, out2.
Qed.

(** Splits one hypothesis of the form [bind m f = (out, Ok b)]. *)
Ltac bind_inv :=
  match goal with
  | H : bind _ _ = (_, Ok _) |- _ =>
      let o1 := fresh "out" in
      let a := fresh "a" in
      let o2 := fresh "out" in
      let H1 := fresh "Hrun" in
      let E := fresh "Eout" in
      apply bind_ok in H; destruct H as (o1 & a & o2 & H1 & H & E)
  end.

(** One turn of the loop puts one date on the first list and two numbers,
    the mean and then the deviation, on the list that [var_means] and
    [var_stds] share. *)
Lemma timeseries_step_lists (np_sqrt : Q -> Q) (w : World) (lat_range lon_range : Q * Q)
  (depth : Z) (no_min_max : bool) (var : string) (d m x : list val) (filename : string)
  (out : list string) (h' : heap) :
  timeseries_step np_sqrt w lat_range lon_range depth no_min_max var
                  0%nat 1%nat 1%nat 2%nat 2%nat
                  [d; m; x] filename = (out, Ok h') ->
  exists date mean std x',
    h' = [(d ++ [date])%list; ((m ++ [mean]) ++ [std])%list; x'].
Proof.
  unfold timeseries_step. intros H.
  do 3 bind_inv.
  match goal with t : (val * val * val * val)%type |- _ =>
    destruct t as [[[var_mean var_std] var_min] var_max] end.
  do 2 bind_inv.
  unfold ret in H. injection H as _ <-.
  cbn [list_append].
  destruct no_min_max; cbn [negb list_append]; eauto.
Qed.

Lemma timeseries_loop_lengths (np_sqrt : Q -> Q) (w : World) (lat_range lon_range : Q * Q)
  (depth : Z) (no_min_max : bool) (var : string) (file_list : list string) :
  forall (d m x : list val) (out : list string) (h' : heap),
    foldM (timeseries_step np_sqrt w lat_range lon_range depth no_min_max var
             0%nat 1%nat 1%nat 2%nat 2%nat)
          file_list [d; m; x] = (out, Ok h') ->
    exists d' m' x',
      h' = [d'; m'; x'] /\
      List.length d' = (List.length d + List.length file_list)%nat /\
      List.length m' = (List.length m + 2 * List.length file_list)%nat.
Proof.
  induction file_list as [|f t IH]; intros d m x out h' H.
  - cbn [foldM] in H. unfold ret in H. injection H as _ <-.
    exists d, m, x. cbn [List.length]. repeat split; lia.
  - cbn [foldM] in H. bind_inv.
    apply timeseries_step_lists in Hrun.
    destruct Hrun as (date & mean & std & x' & ->).
    apply IH in H. destruct H as (d' & m' & x'' & -> & Hd & Hm).
    exists d', m', x''. split; [reflexivity|].
    rewrite length_app in Hd. rewrite !length_app in Hm.
    cbn [List.length] in *. lia.
Qed.

(** For a file list that is not empty the table is never built: either a
    file fails on the way, or the constructor is handed a date column
    half as long as the column shared by [var_mean] and [var_std]. *)
Lemma get_timeseries_nonempty_raises (np_sqrt : Q -> Q) (w : World) (filename : string)
  (rest : list string) (lat_range lon_range : Q * Q) (depth : Z) (no_min_max : bool)
  (var : string) :
  exists out e,
    get_timeseries np_sqrt w (filename :: rest) lat_range lon_range depth no_min_max var
    = (out, Raise e).
Proof.
  unfold get_timeseries. cbn [new_list List.length app].
  destruct (foldM (timeseries_step np_sqrt w lat_range lon_range depth no_min_max var
                     0%nat 1%nat 1%nat 2%nat 2%nat) (filename :: rest) [[]; []; []])
    as [out [h'|e]] eqn:E.
  - apply timeseries_loop_lengths in E.
    destruct E as (d' & m' & x' & -> & Hd & Hm).
    cbn [List.length] in Hd, Hm.
    assert ((List.length m' =? List.length d')%nat = false) as Hne
      by (apply Nat.eqb_neq; lia).
    exists out, ValueError.
    destruct no_min_max; cbn [bind lift pd_DataFrame deref nth forallb snd];
      rewrite Hne; cbn [andb]; now rewrite app_nil_r.
  - exists out, e. cbn [bind]. reflexivity.
Qed.

(** C1.  For every file list that is not empty the list shared by [var_means]
    and [var_stds] ends up twice as long as the list of dates, so no table
    is returned.  On the sample world the statistics and the date of the
    one file are fine, and the call raises [ValueError] when the table is
    built, with and without minimum and maximum.  Only the empty file list
    gives a table. *)
Theorem get_timeseries_shared_lists :
  (forall np_sqrt w filename rest lat_range lon_range depth no_min_max var,
      exists out e,
        get_timeseries np_sqrt w (filename :: rest) lat_range lon_range depth no_min_max var
        = (out, Raise e))
  /\ (forall np_sqrt,
        (exists var_mean var_std,
            calc_stats_var_data np_sqrt sample_world (field_dataset sample_votemper)
              (5, 35) (5, 35) 0 true "votemper" = ([], Ok (Stats2 var_mean var_std)))
        /\ get_date "/data/R_y1998m01d01_gridT.nc" "ymd" = Ok (DateYMD 1998 1 1)
        /\ get_timeseries np_sqrt sample_world ["/data/R_y1998m01d01_gridT.nc"]
              (5, 35) (5, 35) 0 true "votemper" = ([], Raise ValueError)
        /\ get_timeseries np_sqrt sample_world ["/data/R_y1998m01d01_gridT.nc"]
              (5, 35) (5, 35) 0 false "votemper" = ([], Raise ValueError)
        /\ get_timeseries np_sqrt sample_world [] (5, 35) (5, 35) 0 true "votemper"
           = ([], Ok {| nrows := 0;
                        columns := [("date", []); ("var_mean", []); ("var_std", [])] |})).
Proof.
  split.
  - intros. apply get_timeseries_nonempty_raises.
  - intros np_sqrt. split; [eexists; eexists; reflexivity|].
    repeat split; reflexivity.
Qed.

(** ** Climatology engine *)

Lemma rbind_ok {A B : Type} (r : result A) (f : A -> result B) (b : B) :
  rbind r f = Ok b -> exists a, r = Ok a /\ f a = Ok b.
Proof. destruct r as [a|e]; [|discriminate]. intros H. now exists a. Qed.

(** Splits one hypothesis of the form [rbind r f = Ok b]. *)
Ltac rbind_inv :=
  match goal with
  | H : rbind _ _ = Ok _ |- _ =>
      let a := fresh "a" in
      let H1 := fresh "Hrun" in
      apply rbind_ok in H; destruct H as (a & H1 & H)
  end.

Lemma df_get_set_same (df : DataFrame) (name : string) (col : list val) :
  df_get (set_column df name col) name = Ok col.
Proof.
  unfold df_get, set_column. cbn [columns].
  assert (lookup name (put_column name col (columns df)) = Some col) as ->;
    [|reflexivity].
  induction (columns df) as [|[k c'] t IH]; simpl.
  - now rewrite String.eqb_refl.
  - destruct (name =? k)%string eqn:E; simpl; rewrite E; [reflexivity|exact IH].
Qed.

Lemma df_get_set_other (df : DataFrame) (name other : string) (col : list val) :
  name <> other ->
  df_get (set_column df other col) name = df_get df name.
Proof.
  intros Hne. unfold df_get, set_column. cbn [columns].
  assert (lookup name (put_column other col (columns df)) = lookup name (columns df)) as ->;
    [|reflexivity].
  apply String.eqb_neq in Hne.
  induction (columns df) as [|[k c'] t IH]; simpl.
  - now rewrite Hne.
  - destruct (other =? k)%string eqn:E; simpl.
    + apply String.eqb_eq in E. subst k. now rewrite Hne.
    + now rewrite IH.
Qed.

Lemma nth_seq_self {A : Type} (d : A) (s : list A) :
  map (fun i => nth i s d) (seq 0 (List.length s)) = s.
Proof.
  induction s as [|x t IH]; [reflexivity|].
  cbn [List.length seq map nth]. f_equal.
  rewrite <- seq_shift, map_map. exact IH.
Qed.

(** Storing an array or a column of the right length keeps its entries
    and the number of rows. *)
Lemma assign_array (df df' : DataFrame) (name : string) (a : list val) :
  assign df name (AArray a) = Ok df' ->
  List.length a = nrows df /\ df' = set_column df name a.
Proof.
  unfold assign. destruct (List.length a =? nrows df)%nat eqn:E; [|discriminate].
  intros H. injection H as <-. apply Nat.eqb_eq in E. now split.
Qed.

Lemma assign_series (df : DataFrame) (name : string) (s : list val) :
  List.length s = nrows df ->
  assign df name (ASeries s) = Ok (set_column df name s).
Proof.
  intros H. unfold assign. now rewrite <- H, nth_seq_self.
Qed.

(** Arithmetic on columns of floats. *)
Lemma series_binop_floats (fz : Z -> Z -> Z) (fq : Q -> Q -> Q) (l1 l2 : list cell) :
  rmap (fun p => val_binop fz fq (fst p) (snd p)) (combine (map VFloat l1) (map VFloat l2))
  = Ok (map VFloat (zip_with (cell_binop fq) l1 l2)).
Proof.
  revert l2. induction l1 as [|x t IH]; intros [|y u]; try reflexivity.
  cbn [map combine rmap]. rewrite IH. reflexivity.
Qed.

Lemma series_scale_floats (k : Z) (l : list cell) :
  series_scale k (map VFloat l)
  = Ok (map VFloat (map (cell_binop Qmult (Num (inject_Z k))) l)).
Proof.
  unfold series_scale. induction l as [|x t IH]; [reflexivity|].
  cbn [map rmap]. rewrite IH. reflexivity.
Qed.

Lemma zip_with_map_zip {A B C D : Type} (f : A -> D -> C) (g : B -> D) (h : A -> A -> B)
  (l1 l2 : list A) :
  zip_with f l1 (map g (zip_with h l1 l2)) = zip_with (fun a b => f a (g (h a b))) l1 l2.
Proof.
  unfold zip_with. revert l2. induction l1 as [|x t IH]; intros [|y u]; try reflexivity.
  cbn [combine map fst snd]. f_equal. apply IH.
Qed.

Lemma zip_with_map_zip_flip {A B C D : Type} (f : A -> D -> C) (g : B -> D)
  (h : A -> A -> B) (l1 l2 : list A) :
  zip_with f l1 (map g (zip_with h l2 l1)) = zip_with (fun a b => f a (g (h b a))) l1 l2.
Proof.
  unfold zip_with. revert l2. induction l1 as [|x t IH]; intros [|y u]; try reflexivity.
  cbn [combine map fst snd]. f_equal. apply IH.
Qed.

Lemma zip_with_length {A B C : Type} (f : A -> B -> C) (l1 : list A) (l2 : list B) :
  List.length l1 = List.length l2 -> List.length (zip_with f l1 l2) = List.length l1.
Proof.
  intros H. unfold zip_with. rewrite length_map, length_combine, <- H. apply Nat.min_id.
Qed.

(** The threshold actions on a table whose climatological columns hold
    floats: level [k] of every row is computed from the mean and the
    quantile of that row. *)
Lemma calc_timeseries_threshold (df : DataFrame) (mhw : bool) (k : Z) (action : string)
  (mean quantile : list cell) :
  In (mhw, k, action)
     [(true, 2%Z, "add_2T"); (true, 3%Z, "add_3T"); (true, 4%Z, "add_4T");
      (false, 2%Z, "remove_2T"); (false, 3%Z, "remove_3T"); (false, 4%Z, "remove_4T")] ->
  df_get df "var_mean_mean" = Ok (map VFloat mean) ->
  df_get df "var_mean_quantile" = Ok (map VFloat quantile) ->
  calc_timeseries df action None
  = Ok (ASeries (map VFloat (zip_with (threshold_level mhw k) mean quantile))).
Proof.
  intros Hin Hmean Hquantile.
  assert (forall l1 l2, series_sub (map VFloat l1) (map VFloat l2)
             = Ok (map VFloat (zip_with (cell_binop Qminus) l1 l2))) as Hsub
    by (intros; apply series_binop_floats).
  assert (forall l1 l2, series_add (map VFloat l1) (map VFloat l2)
             = Ok (map VFloat (zip_with (cell_binop Qplus) l1 l2))) as Hadd
    by (intros; apply series_binop_floats).
  cbn [In] in Hin.
  repeat (destruct Hin as [Hin|Hin]; [injection Hin as <- <- <-|]); [..|destruct Hin];
    unfold calc_timeseries;
    match goal with
    | |- context [Py.str_in "g_" ?a] =>
        change (Py.str_in "g_" a) with false;
        try change (Py.str_in "add_" a) with true;
        try change (Py.str_in "add_" a) with false;
        try change (Py.str_in "remove_" a) with true;
        try change (Py.str_in "long" a) with false
    end;
    cbv iota; rewrite Hmean, Hquantile; cbn [rbind];
    rewrite Hsub; cbn [rbind];
    unfold threshold;
    match goal with
    | |- context [Py.str_in "2T" ?a] =>
        let b2 := eval vm_compute in (Py.str_in "2T" a) in
        let b3 := eval vm_compute in (Py.str_in "3T" a) in
        let b4 := eval vm_compute in (Py.str_in "4T" a) in
        change (Py.str_in "2T" a) with b2;
        change (Py.str_in "3T" a) with b3;
        change (Py.str_in "4T" a) with b4
    end;
    cbv iota; rewrite Hmean; cbn [rbind];
    rewrite series_scale_floats; cbn [rbind];
    rewrite ?Hadd, ?Hsub; cbn [rbind];
    first [rewrite zip_with_map_zip_flip | rewrite zip_with_map_zip];
    reflexivity.
Qed.

Lemma rmap_floats {A B : Type} (F : A -> result B) (G : B -> cell) (l : list A)
  (r : list val) :
  rmap (fun k => rbind (F k) (fun cs => Ok (VFloat (G cs)))) l = Ok r ->
  exists cs, r = map VFloat cs.
Proof.
  revert r. induction l as [|x t IH]; intros r H.
  - injection H as <-. now exists [].
  - cbn [rmap] in H.
    apply rbind_ok in H. destruct H as (v & Hv & H).
    apply rbind_ok in H. destruct H as (vs & Hvs & H).
    apply rbind_ok in Hv. destruct Hv as (c & _ & Hv).
    injection H as <-. injection Hv as <-.
    destruct (IH _ Hvs) as (cs & ->).
    now exists (G c :: cs).
Qed.

(** The grouped table holds floats in its [var_mean] column. *)
Lemma grouped_agg_floats (g : list val * list val * list val) (agg : list cell -> cell)
  (ym : DataFrame) :
  grouped_agg g agg = Ok ym -> exists cs, df_get ym "var_mean" = Ok (map VFloat cs).
Proof.
  destruct g as [[keys var_mean] var_std]. unfold grouped_agg. intros H.
  apply rbind_ok in H. destruct H as (means & Hmeans & H).
  apply rbind_ok in H. destruct H as (stds & _ & H).
  injection H as <-.
  apply rmap_floats in Hmeans. destruct Hmeans as (cs & ->).
  now exists cs.
Qed.

Lemma calc_timeseries_grouped_floats (df ym : DataFrame) (action : string)
  (res : action_result) :
  In action ["g_mean"; "g_quantile90"; "g_quantile10"] ->
  calc_timeseries df action None = Ok res ->
  as_frame res = Ok ym ->
  exists cs, df_get ym "var_mean" = Ok (map VFloat cs).
Proof.
  intros Hin Hcalc Hframe. cbn [In] in Hin.
  destruct Hin as [<-|[<-|[<-|[]]]];
    unfold calc_timeseries in Hcalc;
    match type of Hcalc with
    | context [Py.str_in "g_" ?a] =>
        let b1 := eval vm_compute in (Py.str_in "mean" a) in
        let b2 := eval vm_compute in (Py.str_in "quantile90" a) in
        change (Py.str_in "g_" a) with true in Hcalc;
        change (Py.str_in "mean" a) with b1 in Hcalc;
        change (Py.str_in "quantile90" a) with b2 in Hcalc;
        try change (Py.str_in "quantile10" a) with true in Hcalc
    end;
    cbv iota in Hcalc;
    apply rbind_ok in Hcalc; destruct Hcalc as (g & _ & Hcalc);
    apply rbind_ok in Hcalc; destruct Hcalc as (d & Hd & Hcalc);
    injection Hcalc as <-;
    cbn [as_frame] in Hframe; injection Hframe as <-;
    eapply grouped_agg_floats; eassumption.
Qed.

Lemma list_repeat_floats (cs : list cell) (n : Z) :
  list_repeat (map VFloat cs) n = map VFloat (list_repeat cs n).
Proof.
  unfold list_repeat. induction (Z.to_nat n) as [|k IH]; [reflexivity|].
  cbn [repeat List.concat]. now rewrite map_app, IH.
Qed.

(** Tiling the grouped means gives an array of floats. *)
Lemma calc_timeseries_add_long (ym : DataFrame) (n : Z) (cs : list cell)
  (res : action_result) :
  df_get ym "var_mean" = Ok (map VFloat cs) ->
  calc_timeseries ym "add_long" (Some n) = Ok res ->
  res = AArray (map VFloat (list_repeat cs n)).
Proof.
  intros Hget. unfold calc_timeseries.
  change (Py.str_in "g_" "add_long") with false.
  change (Py.str_in "add_" "add_long") with true.
  change (Py.str_in "long" "add_long") with true.
  cbv iota. rewrite Hget. cbn [rbind]. intros H. injection H as <-.
  now rewrite list_repeat_floats.
Qed.

Lemma set_column_nrows (df : DataFrame) (name : string) (col : list val) :
  nrows (set_column df name col) = nrows df.
Proof. reflexivity. Qed.

Lemma entry_get (df : DataFrame) (name : string) (col : list val) (i : nat) :
  df_get df name = Ok col -> entry df name i = nth_error col i.
Proof.
  unfold df_get, entry. destruct (lookup name (columns df)); [|discriminate].
  intros H. now injection H as <-.
Qed.

(** Order of the three levels of one row. *)
Lemma threshold_level_order (mhw : bool) (a b : Q) :
  (if mhw then a <= b else b <= a) ->
  exists t2 t3 t4,
    threshold_level mhw 2 (Num a) (Num b) = Num t2 /\
    threshold_level mhw 3 (Num a) (Num b) = Num t3 /\
    threshold_level mhw 4 (Num a) (Num b) = Num t4 /\
    (if mhw then a <= t2 /\ t2 <= t3 /\ t3 <= t4
     else t4 <= t3 /\ t3 <= t2 /\ t2 <= a).
Proof.
  intros H. unfold threshold_level.
  destruct mhw; cbn [cell_binop];
    (eexists; eexists; eexists; split; [reflexivity|]; split; [reflexivity|];
     split; [reflexivity|]);
    change (inject_Z 2) with 2; change (inject_Z 3) with 3; change (inject_Z 4) with 4;
    repeat split; lra.
Qed.

(** One threshold column: the action is computed on the table and stored
    under [name]. *)
Lemma threshold_column (df df' : DataFrame) (mhw : bool) (k : Z) (action name : string)
  (mean quantile : list cell) (t : action_result) :
  In (mhw, k, action)
     [(true, 2%Z, "add_2T"); (true, 3%Z, "add_3T"); (true, 4%Z, "add_4T");
      (false, 2%Z, "remove_2T"); (false, 3%Z, "remove_3T"); (false, 4%Z, "remove_4T")] ->
  df_get df "var_mean_mean" = Ok (map VFloat mean) ->
  df_get df "var_mean_quantile" = Ok (map VFloat quantile) ->
  List.length mean = nrows df ->
  List.length quantile = nrows df ->
  calc_timeseries df action None = Ok t ->
  assign df name t = Ok df' ->
  df' = set_column df name (map VFloat (zip_with (threshold_level mhw k) mean quantile)).
Proof.
  intros Hin Hmean Hquantile Hlm Hlq Hcalc Hassign.
  rewrite (calc_timeseries_threshold df mhw k action mean quantile Hin Hmean Hquantile)
    in Hcalc.
  injection Hcalc as <-.
  rewrite assign_series in Hassign.
  - now injection Hassign as <-.
  - rewrite length_map, zip_with_length; congruence.
Qed.

(** C2.  In the table returned by [anhalize_timeseries] the columns
    [var_mean_2T], [var_mean_3T] and [var_mean_4T] hold, row by row,
    [mean + k * (quantile - mean)] in heatwave mode and
    [mean - k * (mean - quantile)] in cold-spell mode, for [k] = 2, 3, 4,
    where [mean] and [quantile] are the entries of [var_mean_mean] and
    [var_mean_quantile] on that row.  Hence on every row with
    [mean <= quantile] in heatwave mode
    [mean <= level 2 <= level 3 <= level 4], and on every row with
    [quantile <= mean] in cold-spell mode the order is reversed. *)
Theorem anhalize_timeseries_thresholds (raw out : DataFrame) (mhw : bool) :
  anhalize_timeseries raw mhw = Ok out ->
  exists mean quantile : list cell,
    List.length mean = nrows out /\ List.length quantile = nrows out /\
    df_get out "var_mean_mean" = Ok (map VFloat mean) /\
    df_get out "var_mean_quantile" = Ok (map VFloat quantile) /\
    df_get out "var_mean_2T"
      = Ok (map VFloat (zip_with (threshold_level mhw 2) mean quantile)) /\
    df_get out "var_mean_3T"
      = Ok (map VFloat (zip_with (threshold_level mhw 3) mean quantile)) /\
    df_get out "var_mean_4T"
      = Ok (map VFloat (zip_with (threshold_level mhw 4) mean quantile)) /\
    forall i a b,
      entry out "var_mean_mean" i = Some (VFloat (Num a)) ->
      entry out "var_mean_quantile" i = Some (VFloat (Num b)) ->
      (if mhw then a <= b else b <= a) ->
      exists t2 t3 t4,
        entry out "var_mean_2T" i = Some (VFloat (Num t2)) /\
        entry out "var_mean_3T" i = Some (VFloat (Num t3)) /\
        entry out "var_mean_4T" i = Some (VFloat (Num t4)) /\
        (if mhw then a <= t2 /\ t2 <= t3 /\ t3 <= t4
         else t4 <= t3 /\ t3 <= t2 /\ t2 <= a).
Proof.
  intros H. unfold anhalize_timeseries in H.
  assert (exists action0 action1 action2 action3,
             (if mhw then ("g_quantile90", "add_2T", "add_3T", "add_4T")
              else ("g_quantile10", "remove_2T", "remove_3T", "remove_4T"))
             = (action0, action1, action2, action3)
             /\ In action0 ["g_mean"; "g_quantile90"; "g_quantile10"]
             /\ forall k action, In (k, action) [(2%Z, action1); (3%Z, action2); (4%Z, action3)] ->
                  In (mhw, k, action)
                     [(true, 2%Z, "add_2T"); (true, 3%Z, "add_3T"); (true, 4%Z, "add_4T");
                      (false, 2%Z, "remove_2T"); (false, 3%Z, "remove_3T");
                      (false, 4%Z, "remove_4T")])
    as (action0 & action1 & action2 & action3 & Hactions & Hgroup & Hlevels).
  { destruct mhw; do 4 eexists; (split; [reflexivity|]); (split; [cbn; tauto|]);
      intros k action [E|[E|[E|[]]]]; injection E as <- <-; cbn; tauto. }
  rewrite Hactions in H. cbv beta iota zeta in H.
  apply rbind_ok in H. destruct H as (date & _ & H).
  apply rbind_ok in H. destruct H as (date0 & _ & H).
  apply rbind_ok in H. destruct H as (df & _ & H).
  apply rbind_ok in H. destruct H as (month & _ & H).
  apply rbind_ok in H. destruct H as (day & _ & H).
  apply rbind_ok in H. destruct H as (wrap_day & _ & H).
  apply rbind_ok in H. destruct H as (df0 & _ & H).
  apply rbind_ok in H. destruct H as (tym & Htym & H).
  apply rbind_ok in H. destruct H as (tyq & Htyq & H).
  apply rbind_ok in H. destruct H as (ym & Hym & H).
  apply rbind_ok in H. destruct H as (lm & Hlm & H).
  apply rbind_ok in H. destruct H as (df1 & Hdf1 & H).
  apply rbind_ok in H. destruct H as (yq & Hyq & H).
  apply rbind_ok in H. destruct H as (lq & Hlq & H).
  apply rbind_ok in H. destruct H as (df2 & Hdf2 & H).
  apply rbind_ok in H. destruct H as (t2 & Ht2 & H).
  apply rbind_ok in H. destruct H as (df3 & Hdf3 & H).
  apply rbind_ok in H. destruct H as (t3 & Ht3 & H).
  apply rbind_ok in H. destruct H as (df4 & Hdf4 & H).
  apply rbind_ok in H. destruct H as (t4 & Ht4 & H).
  apply rbind_ok in H. destruct H as (df5 & Hdf5 & H).
  injection H as <-.
  (* the two broadcast columns *)
  destruct (calc_timeseries_grouped_floats df0 ym "g_mean" tym (or_introl eq_refl) Htym Hym)
    as (cm & Hcm).
  destruct (calc_timeseries_grouped_floats df0 yq action0 tyq Hgroup Htyq Hyq)
    as (cq & Hcq).
  apply (calc_timeseries_add_long ym _ cm) in Hlm; [|exact Hcm]. subst lm.
  apply (calc_timeseries_add_long yq _ cq) in Hlq; [|exact Hcq]. subst lq.
  set (mean := list_repeat cm (2009 - 1958 + 1)) in *.
  set (quantile := list_repeat cq (2009 - 1958 + 1)) in *.
  apply assign_array in Hdf1. destruct Hdf1 as (Hlen1 & ->).
  apply assign_array in Hdf2. destruct Hdf2 as (Hlen2 & ->).
  rewrite length_map in Hlen1, Hlen2. rewrite set_column_nrows in Hlen2.
  (* the three threshold columns *)
  set (base := set_column (set_column df0 "var_mean_mean" (map VFloat mean))
                 "var_mean_quantile" (map VFloat quantile)) in *.
  assert (df_get base "var_mean_mean" = Ok (map VFloat mean)) as Gm.
  { unfold base. rewrite df_get_set_other by discriminate. apply df_get_set_same. }
  assert (df_get base "var_mean_quantile" = Ok (map VFloat quantile)) as Gq
    by apply df_get_set_same.
  pose proof (threshold_column base df3 mhw 2 action1 "var_mean_2T" mean quantile t2
                (Hlevels _ _ (or_introl eq_refl)) Gm Gq Hlen1 Hlen2 Ht2 Hdf3) as E3.
  subst df3.
  set (s2 := map VFloat (zip_with (threshold_level mhw 2) mean quantile)) in *.
  assert (df_get (set_column base "var_mean_2T" s2) "var_mean_mean" = Ok (map VFloat mean))
    as Gm3 by (rewrite df_get_set_other by discriminate; exact Gm).
  assert (df_get (set_column base "var_mean_2T" s2) "var_mean_quantile"
          = Ok (map VFloat quantile))
    as Gq3 by (rewrite df_get_set_other by discriminate; exact Gq).
  pose proof (threshold_column _ df4 mhw 3 action2 "var_mean_3T" mean quantile t3
                (Hlevels _ _ (or_intror (or_introl eq_refl))) Gm3 Gq3 Hlen1 Hlen2 Ht3 Hdf4)
    as E4.
  subst df4.
  set (s3 := map VFloat (zip_with (threshold_level mhw 3) mean quantile)) in *.
  assert (df_get (set_column (set_column base "var_mean_2T" s2) "var_mean_3T" s3)
                 "var_mean_mean" = Ok (map VFloat mean))
    as Gm4 by (rewrite df_get_set_other by discriminate; exact Gm3).
  assert (df_get (set_column (set_column base "var_mean_2T" s2) "var_mean_3T" s3)
                 "var_mean_quantile" = Ok (map VFloat quantile))
    as Gq4 by (rewrite df_get_set_other by discriminate; exact Gq3).
  pose proof (threshold_column _ df5 mhw 4 action3 "var_mean_4T" mean quantile t4
                (Hlevels _ _ (or_intror (or_intror (or_introl eq_refl))))
                Gm4 Gq4 Hlen1 Hlen2 Ht4 Hdf5)
    as E5.
  subst df5.
  set (s4 := map VFloat (zip_with (threshold_level mhw 4) mean quantile)) in *.
  assert (df_get (set_column (set_column (set_column base "var_mean_2T" s2)
                                "var_mean_3T" s3) "var_mean_4T" s4) "var_mean_2T" = Ok s2)
    as G2.
  { rewrite !df_get_set_other by discriminate. apply df_get_set_same. }
  assert (df_get (set_column (set_column (set_column base "var_mean_2T" s2)
                                "var_mean_3T" s3) "var_mean_4T" s4) "var_mean_3T" = Ok s3)
    as G3.
  { rewrite df_get_set_other by discriminate. apply df_get_set_same. }
  pose proof (df_get_set_same (set_column (set_column base "var_mean_2T" s2)
                                 "var_mean_3T" s3) "var_mean_4T" s4) as G4.
  assert (df_get (set_column (set_column (set_column base "var_mean_2T" s2)
                                "var_mean_3T" s3) "var_mean_4T" s4) "var_mean_mean"
          = Ok (map VFloat mean)) as Gm5
    by (rewrite df_get_set_other by discriminate; exact Gm4).
  assert (df_get (set_column (set_column (set_column base "var_mean_2T" s2)
                                "var_mean_3T" s3) "var_mean_4T" s4) "var_mean_quantile"
          = Ok (map VFloat quantile)) as Gq5
    by (rewrite df_get_set_other by discriminate; exact Gq4).
  exists mean, quantile.
  repeat (split; [first [exact Hlen1 | exact Hlen2 | assumption]|]).
  intros i a b Ha Hb Hab.
  rewrite (entry_get _ _ _ i Gm5) in Ha. rewrite (entry_get _ _ _ i Gq5) in Hb.
  rewrite (entry_get _ _ _ i G2), (entry_get _ _ _ i G3), (entry_get _ _ _ i G4).
  rewrite nth_error_map in Ha, Hb.
  destruct (nth_error mean i) as [ca|] eqn:Ea; [|discriminate].
  destruct (nth_error quantile i) as [cb|] eqn:Eb; [|discriminate].
  injection Ha as ->. injection Hb as ->.
  destruct (threshold_level_order mhw a b Hab) as (t2' & t3' & t4' & L2 & L3 & L4 & Hord).
  exists t2', t3', t4'. unfold s2, s3, s4.
  rewrite !nth_error_map.
  rewrite (zip_with_nth _ mean quantile i _ _ Ea Eb), L2.
  rewrite (zip_with_nth _ mean quantile i _ _ Ea Eb), L3.
  rewrite (zip_with_nth _ mean quantile i _ _ Ea Eb), L4.
  repeat split; try reflexivity. exact Hord.
Qed.

Lemma anhalize_timeseries_thresholds_witness :
  (exists a t2 t3 t4,
      entry march_heatwave "var_mean_mean" 0 = Some (VFloat (Num a)) /\
      entry march_heatwave "var_mean_2T" 0 = Some (VFloat (Num t2)) /\
      entry march_heatwave "var_mean_3T" 0 = Some (VFloat (Num t3)) /\
      entry march_heatwave "var_mean_4T" 0 = Some (VFloat (Num t4)) /\
      a <= t2 /\ t2 <= t3 /\ t3 <= t4)
  /\
  (exists a t2 t3 t4,
      entry march_coldspell "var_mean_mean" 51 = Some (VFloat (Num a)) /\
      entry march_coldspell "var_mean_2T" 51 = Some (VFloat (Num t2)) /\
      entry march_coldspell "var_mean_3T" 51 = Some (VFloat (Num t3)) /\
      entry march_coldspell "var_mean_4T" 51 = Some (VFloat (Num t4)) /\
      t4 <= t3 /\ t3 <= t2 /\ t2 <= a).
Proof.
  split.
  - destruct (anhalize_timeseries_thresholds march_series march_heatwave true)
      as (mean & quantile & _ & _ & _ & _ & _ & _ & _ & Hrows).
    + vm_compute. reflexivity.
    + destruct (Hrows 0%nat (1326 # 52) (459 # 10)) as (t2 & t3 & t4 & H2 & H3 & H4 & Hord).
      * vm_compute. reflexivity.
      * vm_compute. reflexivity.
      * vm_compute. discriminate.
      * exists (1326 # 52), t2, t3, t4. repeat split; try assumption; apply Hord.
  - destruct (anhalize_timeseries_thresholds march_series march_coldspell false)
      as (mean & quantile & _ & _ & _ & _ & _ & _ & _ & Hrows).
    + vm_compute. reflexivity.
    + destruct (Hrows 51%nat (1326 # 52) (51 # 10)) as (t2 & t3 & t4 & H2 & H3 & H4 & Hord).
      * vm_compute. reflexivity.
      * vm_compute. reflexivity.
      * vm_compute. discriminate.
      * exists (1326 # 52), t2, t3, t4. repeat split; try assumption; apply Hord.
Defined.

(** * Further properties *)

(** ** Path resolver *)

(** X1.  On a deployment host a non-empty run identifier that lacks the
    separator, lacks [ANHA], or is not twelve characters long stops at an
    assertion: [AssertionError], nothing printed, whatever the
    environment holds. *)
Theorem get_paths_malformed_identifier (w : World) (r : string) :
  deployment_host w = true ->
  Py.truthy (Some r) = true ->
  well_formed_identifier r = false ->
  get_paths w (Some r) false = ([], Raise AssertionError).
Proof.
  unfold deployment_host, well_formed_identifier, get_paths.
  intros -> -> H. cbn [negb orb].
  change (String.length "ANHA4-WJM000") with 12%nat.
  destruct (Py.str_in "-" r); [|reflexivity].
  destruct (Py.str_in "ANHA" r); [|reflexivity].
  cbn [andb] in H. rewrite H. reflexivity.
Qed.

Lemma get_paths_malformed_identifier_witness :
  get_paths portal_env (Some "ANHA4WJM0004") false = ([], Raise AssertionError)
  /\ get_paths portal_env (Some "NEMO-WJM0004") false = ([], Raise AssertionError)
  /\ get_paths portal_env (Some "ANHA4-WJM04") false = ([], Raise AssertionError).
Proof.
  split; [|split]; apply get_paths_malformed_identifier; reflexivity.
Defined.

(** Without a run identifier [get_paths] reads the environment on every
    host. *)
Lemma get_paths_none_unset (w : World) (environ_paths : bool) :
  environ w "MASK_PATH" = None \/ environ w "DATA_PATH" = None ->
  get_paths w None environ_paths = ([paths_message], Raise UnboundLocalError).
Proof.
  unfold get_paths. cbn [Py.truthy negb]. rewrite orb_true_r. cbn [orb].
  intros [H|H]; rewrite H; [reflexivity|].
  destruct (environ w "MASK_PATH"); reflexivity.
Qed.

Lemma get_paths_none_set (w : World) (environ_paths : bool) (m d : string) :
  environ w "MASK_PATH" = Some m -> environ w "DATA_PATH" = Some d ->
  get_paths w None environ_paths = ([], Ok (d, m)).
Proof.
  unfold get_paths. cbn [Py.truthy negb]. rewrite orb_true_r. cbn [orb].
  intros -> ->. reflexivity.
Qed.

Lemma lift_bind {A B : Type} (r : result A) (f : A -> M B) :
  bind (lift r) f = match r with
                    | Ok a => f a
                    | Raise e => ([], Raise e)
                    end.
Proof.
  unfold bind, lift. destruct r as [a|e]; [|reflexivity].
  destruct (f a) as [out r']. reflexivity.
Qed.

(** ** Variable extractor *)

(** X2.  The mask is located through [get_paths()] without a run
    identifier, so a masked extraction needs [MASK_PATH] and [DATA_PATH]
    on every host: where the unmasked extraction succeeds and one of the
    two is unset, the masked one prints the remediation message and
    fails with [UnboundLocalError]. *)
Theorem get_var_data_masked_needs_environment (w : World) (data : Dataset)
  (lat_range lon_range : Q * Q) (depth : Z) (var : string) (cardinal : bool)
  (out : list string) (field : matrix cell) :
  get_var_data w data lat_range lon_range depth var false cardinal = (out, Ok field) ->
  environ w "MASK_PATH" = None \/ environ w "DATA_PATH" = None ->
  get_var_data w data lat_range lon_range depth var true cardinal
    = ([paths_message], Raise UnboundLocalError).
Proof.
  unfold get_var_data. rewrite !lift_bind. intros H Henv.
  destruct (nc_var4d data var) as [v4|]; [|discriminate].
  rewrite !lift_bind in *.
  destruct (select_range data lat_range lon_range cardinal) as [[rows cols]|];
    [|discriminate].
  rewrite !lift_bind in *.
  destruct (Py.index v4 0) as [v3|]; [|discriminate].
  rewrite !lift_bind in *.
  destruct (Py.index v3 depth) as [layer|]; [|discriminate].
  unfold get_mask. rewrite (get_paths_none_unset w false Henv). reflexivity.
Qed.

Lemma get_var_data_masked_needs_environment_witness :
  get_var_data (ocean_world (field_dataset sample_votemper) sample_tmask)
               (field_dataset sample_votemper) (5, 35) (5, 35) 0 "votemper" false true
    = ([], Ok [[Num 1; Num 2]; [Num 3; Num 4]])
  /\ get_var_data
       {| hostname := "portal01"; environ := env_of None (Some "/data/");
          listdir := no_files;
          nc_Dataset := nc_Dataset (ocean_world (field_dataset sample_votemper) sample_tmask);
          stdin_line := EmptyString |}
       (field_dataset sample_votemper) (5, 35) (5, 35) 0 "votemper" true true
     = ([paths_message], Raise UnboundLocalError).
Proof.
  split; [reflexivity|].
  apply (get_var_data_masked_needs_environment _ _ _ _ _ _ _ []
           [[Num 1; Num 2]; [Num 3; Num 4]]);
    [reflexivity | left; reflexivity].
Defined.

Lemma matrix_zip_cell {A B C : Type} (f : A -> B -> C) (m1 : matrix A) (m2 : matrix B)
  (i j : nat) (c : C) :
  cell_at (matrix_zip f m1 m2) i j = Some c ->
  exists a b, cell_at m1 i j = Some a /\ cell_at m2 i j = Some b /\ c = f a b.
Proof.
  unfold cell_at, matrix_zip.
  destruct (nth_error (zip_with (zip_with f) m1 m2) i) as [row|] eqn:E; [|discriminate].
  apply zip_with_nth_inv in E. destruct E as (r1 & r2 & -> & -> & ->).
  apply zip_with_nth_inv.
Qed.

Lemma zip_with_same_length {A B C : Type} (f : A -> B -> C) (l1 : list A) (l2 : list B) :
  List.length l1 = List.length l2 -> List.length (zip_with f l1 l2) = List.length l1.
Proof.
  intros H. unfold zip_with. rewrite length_map, length_combine, H. apply Nat.min_id.
Qed.

Lemma matrix_zip_shape {A B C : Type} (f : A -> B -> C) (m1 : matrix A) (m2 : matrix B) :
  shape m1 = shape m2 -> shape (matrix_zip f m1 m2) = shape m1.
Proof.
  unfold shape, matrix_zip, zip_with.
  revert m2. induction m1 as [|r1 t IH]; intros [|r2 u] H; try discriminate; [reflexivity|].
  cbn [map combine fst snd] in *. injection H as Hr Ht.
  f_equal; [|now apply IH].
  rewrite length_map, length_combine, Hr. apply Nat.min_id.
Qed.

(** X3.  Masking keeps the shape of the extracted field and only ever
    blanks cells: when both the unmasked and the masked extraction of the
    same window succeed, the two fields have the same shape and every
    cell of the masked field is the unmasked cell or not-a-number. *)
Theorem get_var_data_masking_only_blanks (w : World) (data : Dataset)
  (lat_range lon_range : Q * Q) (depth : Z) (var : string)
  (out out' : list string) (plain masked : matrix cell) :
  get_var_data w data lat_range lon_range depth var false true = (out, Ok plain) ->
  get_var_data w data lat_range lon_range depth var true true = (out', Ok masked) ->
  shape masked = shape plain /\
  forall i j c, cell_at masked i j = Some c -> c = NaN \/ cell_at plain i j = Some c.
Proof.
  unfold get_var_data. rewrite !lift_bind. intros Hplain Hmasked.
  destruct (nc_var4d data var) as [v4|]; [|discriminate].
  rewrite !lift_bind in *.
  destruct (select_range data lat_range lon_range true) as [[rows cols]|];
    [|discriminate].
  rewrite !lift_bind in *.
  destruct (Py.index v4 0) as [v3|]; [|discriminate].
  rewrite !lift_bind in *.
  destruct (Py.index v3 depth) as [layer|]; [|discriminate].
  unfold ret in Hplain. injection Hplain as _ <-.
  apply bind_ok in Hmasked. destruct Hmasked as (o1 & surf & o2 & _ & Hm & _).
  unfold same_shape in Hm.
  destruct (list_eq_dec Nat.eq_dec (shape (slice2d layer rows cols)) (shape surf))
    as [Hshape|]; [|discriminate].
  unfold ret in Hm. injection Hm as _ <-.
  split; [now apply matrix_zip_shape|].
  intros i j c Hc. apply matrix_zip_cell in Hc.
  destruct Hc as (v & m & Hv & _ & ->).
  destruct (is_one m); [now right | now left].
Qed.

Lemma get_var_data_masking_only_blanks_witness :
  shape [[Num 1; Num 2]; [Num 3; NaN]] = shape [[Num 1; Num 2]; [Num 3; Num 4]] /\
  forall i j c,
    cell_at [[Num 1; Num 2]; [Num 3; NaN]] i j = Some c ->
    c = NaN \/ cell_at [[Num 1; Num 2]; [Num 3; Num 4]] i j = Some c.
Proof.
  apply (get_var_data_masking_only_blanks sample_world (field_dataset sample_votemper)
           (5, 35) (5, 35) 0 "votemper" [] []); reflexivity.
Defined.

(** [l[i]] fails outside [-len, len). *)
Lemma index_out_of_range {A : Type} (l : list A) (i : Z) :
  (i < - Z.of_nat (List.length l) \/ Z.of_nat (List.length l) <= i)%Z ->
  Py.index l i = Raise IndexError.
Proof.
  intros H. unfold Py.index.
  destruct (Z.ltb_spec i 0) as [Hneg|Hpos].
  - destruct (Z.ltb_spec (i + Z.of_nat (List.length l)) 0) as [_|Hge]; [reflexivity|].
    exfalso. lia.
  - destruct (Z.ltb_spec i 0) as [|_]; [lia|].
    destruct (Z.leb_spec (Z.of_nat (List.length l)) i) as [_|]; [reflexivity|lia].
Qed.

Lemma index_in_range {A : Type} (l : list A) (i : Z) :
  (- Z.of_nat (List.length l) <= i < Z.of_nat (List.length l))%Z ->
  exists x, Py.index l i = Ok x /\
            nth_error l (Z.to_nat (if (i <? 0)%Z then i + Z.of_nat (List.length l) else i)%Z)
            = Some x.
Proof.
  intros H. unfold Py.index.
  set (j := (if (i <? 0)%Z then i + Z.of_nat (List.length l) else i)%Z).
  assert (0 <= j < Z.of_nat (List.length l))%Z as Hj.
  { unfold j. destruct (Z.ltb_spec i 0); lia. }
  destruct (Z.ltb_spec j 0) as [|_]; [lia|].
  destruct (Z.leb_spec (Z.of_nat (List.length l)) j) as [|_]; [lia|].
  cbn [orb].
  destruct (nth_error l (Z.to_nat j)) as [x|] eqn:E.
  - now exists x.
  - apply nth_error_None in E. lia.
Qed.

(** X4.  The depth is a Python index into the layers of the first time
    step.  A depth outside [-n, n) for [n] layers raises [IndexError],
    masked or not, before the mask is looked for; in an unmasked
    extraction a negative depth [-k] gives the layer [n - k]. *)
Theorem get_var_data_depth_index (w : World) (data : Dataset)
  (lat_range lon_range : Q * Q) (depth : Z) (var : string) (masked cardinal : bool)
  (times : list (list (matrix cell))) (layers : list (matrix cell))
  (rows cols : Z * Z) :
  var4d data var = Some (layers :: times) ->
  select_range data lat_range lon_range cardinal = Ok (rows, cols) ->
  ((depth < - Z.of_nat (List.length layers) \/ Z.of_nat (List.length layers) <= depth)%Z ->
     get_var_data w data lat_range lon_range depth var masked cardinal
       = ([], Raise IndexError))
  /\ ((- Z.of_nat (List.length layers) <= depth < 0)%Z ->
        get_var_data w data lat_range lon_range depth var false cardinal
        = get_var_data w data lat_range lon_range
            (depth + Z.of_nat (List.length layers)) var false cardinal).
Proof.
  intros Hvar Hrange.
  unfold get_var_data, nc_var4d. rewrite Hvar, !lift_bind, Hrange, !lift_bind, index_0.
  rewrite !lift_bind. split.
  - intros H. now rewrite (index_out_of_range layers depth H).
  - intros H.
    destruct (index_in_range layers depth) as (x & -> & Hx); [lia|].
    destruct (index_in_range layers (depth + Z.of_nat (List.length layers)))
      as (y & -> & Hy); [lia|].
    destruct (Z.ltb_spec depth 0) as [_|]; [|lia].
    destruct (Z.ltb_spec (depth + Z.of_nat (List.length layers)) 0) as [|_]; [lia|].
    rewrite Hx in Hy. now injection Hy as <-.
Qed.

Lemma get_var_data_depth_index_witness :
  (get_var_data sample_world (field_dataset sample_votemper) (5, 35) (5, 35) 1
                "votemper" true true = ([], Raise IndexError))
  /\ (get_var_data sample_world (field_dataset sample_votemper) (5, 35) (5, 35) (-1)
                   "votemper" false true
       = get_var_data sample_world (field_dataset sample_votemper) (5, 35) (5, 35)
           (-1 + 1) "votemper" false true).
Proof.
  destruct (get_var_data_depth_index sample_world (field_dataset sample_votemper)
              (5, 35) (5, 35) 1 "votemper" true true [] [sample_votemper]
              (0, 2)%Z (0, 2)%Z eq_refl eq_refl) as [Hout _].
  destruct (get_var_data_depth_index sample_world (field_dataset sample_votemper)
              (5, 35) (5, 35) (-1) "votemper" true true [] [sample_votemper]
              (0, 2)%Z (0, 2)%Z eq_refl eq_refl) as [_ Hneg].
  split; [apply Hout | apply Hneg]; cbn; lia.
Defined.

(** ** Dates in file names *)

Lemma split_app (sep : ascii) (a b : string) :
  Py.split sep (a ++ String sep b) = (Py.split sep a ++ Py.split sep b)%list.
Proof.
  induction a as [|c t IH]; cbn [String.append Py.split].
  - now rewrite Ascii.eqb_refl.
  - rewrite IH. destruct (Ascii.eqb c sep); [reflexivity|].
    destruct (Py.split sep t) as [|h r] eqn:E; [now apply split_nonempty in E|].
    reflexivity.
Qed.

Lemma split_no_sep (sep : ascii) (s : string) :
  Py.str_in (String sep EmptyString) s = false -> Py.split sep s = [s].
Proof.
  induction s as [|c t IH]; [reflexivity|].
  cbn [Py.str_in prefix]. intros H. apply orb_false_iff in H. destruct H as [Hp Ht].
  destruct (ascii_dec sep c) as [->|Hne].
  - destruct t; discriminate Hp.
  - cbn [Py.split]. destruct (Ascii.eqb_spec c sep) as [->|_]; [congruence|].
    now rewrite (IH Ht).
Qed.

Lemma index_minus_2 {A : Type} (l : list A) (x y : A) :
  Py.index (l ++ [x; y])%list (-2) = Ok x.
Proof.
  unfold Py.index. rewrite length_app. cbn [List.length].
  change (-2 <? 0)%Z with true. cbv iota.
  destruct (Z.ltb_spec (-2 + Z.of_nat (List.length l + 2)) 0) as [|_]; [lia|].
  destruct (Z.leb_spec (Z.of_nat (List.length l + 2)) (-2 + Z.of_nat (List.length l + 2)))
    as [|_]; [lia|].
  cbn [orb].
  replace (Z.to_nat (-2 + Z.of_nat (List.length l + 2))) with (List.length l + 0)%nat by lia.
  now rewrite nth_error_app2, Nat.add_0_r, Nat.sub_diag by lia.
Qed.

(** The second to last part only depends on the end of the list. *)
Lemma index_minus_2_app {A : Type} (l1 l2 : list A) (x y : A) (t : list A) :
  Py.index (l1 ++ x :: y :: t)%list (-2) = Py.index (l2 ++ x :: y :: t)%list (-2).
Proof.
  assert (forall l : list A,
             Py.index (l ++ x :: y :: t)%list (-2)
             = Py.index (x :: y :: t) (-2)) as H.
  { intros l.
    destruct (@exists_last _ (x :: y :: t)) as (init & z & E); [discriminate|].
    destruct (@exists_last _ init) as (init' & z' & E').
    { intros ->. destruct t; discriminate. }
    subst init. rewrite E.
    replace ((init' ++ [z']) ++ [z])%list with (init' ++ [z'; z])%list
      by (now rewrite <- app_assoc).
    now rewrite app_assoc, !index_minus_2. }
  now rewrite (H l1), (H l2).
Qed.

(** X5.  [get_date] reads the second to last part of the name between
    underscores: a name without an underscore raises [IndexError],
    whatever format is asked for. *)
Theorem get_date_no_underscore (filename how : string) :
  Py.str_in "_" filename = false ->
  get_date filename how = Raise IndexError.
Proof.
  intros H. unfold get_date. now rewrite (split_no_sep "_" filename H).
Qed.

Lemma get_date_no_underscore_witness :
  get_date "ANHA4-EPM111-y1998m04d05.nc" "ymd" = Raise IndexError.
Proof. apply get_date_no_underscore. reflexivity. Defined.

(** X6.  The date is read from the end of the name: for a name with at
    least two underscores, whatever path is put in front of it, with or
    without underscores of its own, [get_date] returns what it returns for
    the bare name. *)
Theorem get_date_ignores_directory (path name rest how : string) :
  Py.str_in "_" rest = true ->
  get_date (path ++ name ++ "_" ++ rest) how = get_date (name ++ "_" ++ rest) how.
Proof.
  intros H. unfold get_date.
  destruct (split_two "_" rest H) as (x & y & t & E).
  change (name ++ "_" ++ rest) with (name ++ String "_" rest).
  assert (path ++ name ++ String "_" rest = (path ++ name) ++ String "_" rest) as ->.
  { clear. induction path as [|c p IH]; [reflexivity|]. cbn. now rewrite IH. }
  rewrite !split_app, E.
  now rewrite (index_minus_2_app (Py.split "_" (path ++ name)) (Py.split "_" name)).
Qed.

Lemma get_date_ignores_directory_witness :
  get_date ("/mnt/storage0/my_runs/ANHA4/" ++ "ANHA4-EPM111" ++ "_" ++ "y1998m04d05_gridB.nc")
           "ymd"
  = get_date ("ANHA4-EPM111" ++ "_" ++ "y1998m04d05_gridB.nc") "ymd".
Proof. apply get_date_ignores_directory. reflexivity. Defined.

(** *** Reading back a formatted date *)











(** ** File catalog *)

Lemma ascii_compare_trans_le (a b c : ascii) :
  Ascii.compare a b <> Gt -> Ascii.compare b c <> Gt -> Ascii.compare a c <> Gt.
Proof.
  unfold Ascii.compare. rewrite !N.compare_le_iff. apply N.le_trans.
Qed.

Lemma ascii_compare_eq_l (a b c : ascii) :
  Ascii.compare a b = Eq -> Ascii.compare a c = Ascii.compare b c.
Proof.
  unfold Ascii.compare. intros H. apply N.compare_eq in H. now rewrite H.
Qed.

Lemma ascii_compare_eq_r (a b c : ascii) :
  Ascii.compare b c = Eq -> Ascii.compare a b = Ascii.compare a c.
Proof.
  unfold Ascii.compare. intros H. apply N.compare_eq in H. now rewrite H.
Qed.

Lemma ascii_compare_lt_trans (a b c : ascii) :
  Ascii.compare a b = Lt -> Ascii.compare b c = Lt -> Ascii.compare a c = Lt.
Proof.
  unfold Ascii.compare. rewrite !N.compare_lt_iff. apply N.lt_trans.
Qed.

(** The order used by [sorted] is transitive. *)
Lemma string_leb_trans (a b c : string) :
  String.leb a b = true -> String.leb b c = true -> String.leb a c = true.
Proof.
  unfold String.leb.
  assert (forall a b c, String.compare a b <> Gt -> String.compare b c <> Gt ->
                        String.compare a c <> Gt) as H.
  { clear. induction a as [|x a IH]; intros [|y b] [|z c]; cbn [String.compare];
      try congruence.
    destruct (Ascii.compare x y) eqn:Exy; try congruence.
    - rewrite (ascii_compare_eq_l x y z Exy).
      destruct (Ascii.compare y z); try congruence. apply IH.
    - destruct (Ascii.compare y z) eqn:Eyz; try congruence.
      + rewrite <- (ascii_compare_eq_r x y z Eyz), Exy. congruence.
      + rewrite (ascii_compare_lt_trans x y z Exy Eyz). congruence. }
  intros Hab Hbc. specialize (H a b c).
  destruct (String.compare a b); try discriminate;
    destruct (String.compare b c); try discriminate;
    destruct (String.compare a c); try reflexivity;
    exfalso; apply H; congruence.
Qed.

Lemma string_leb_false (a b : string) : String.leb a b = false -> String.leb b a = true.
Proof.
  intros H. destruct (String.leb_total a b) as [H'|H']; [congruence|exact H'].
Qed.

(** Inserting two names in either order gives the same list. *)
Lemma insert_sorted_comm (x y : string) (l : list string) :
  Py.insert_sorted x (Py.insert_sorted y l) = Py.insert_sorted y (Py.insert_sorted x l).
Proof.
  assert (String.leb x y = true /\ String.leb y x = true -> x = y) as Hanti
    by (intros [H1 H2]; now apply String.leb_antisym).
  induction l as [|h t IH].
  - cbn [Py.insert_sorted].
    destruct (String.leb x y) eqn:Exy, (String.leb y x) eqn:Eyx; try reflexivity.
    + now rewrite Hanti.
    + apply string_leb_false in Exy. congruence.
  - cbn [Py.insert_sorted].
    destruct (String.leb y h) eqn:Eyh, (String.leb x h) eqn:Exh;
      cbn [Py.insert_sorted]; rewrite ?Eyh, ?Exh.
    + destruct (String.leb x y) eqn:Exy, (String.leb y x) eqn:Eyx;
        rewrite ?Eyh, ?Exh; try reflexivity.
      * now rewrite Hanti.
      * apply string_leb_false in Exy. congruence.
    + destruct (String.leb x y) eqn:Exy; [|reflexivity].
      rewrite (string_leb_trans x y h Exy Eyh) in Exh. discriminate.
    + destruct (String.leb y x) eqn:Eyx; [|reflexivity].
      rewrite (string_leb_trans y x h Eyx Exh) in Eyh. discriminate.
    + now rewrite IH.
Qed.

(** [sorted] only depends on the names, not on the order they come in. *)
Lemma sorted_permutation (l l' : list string) :
  Permutation l l' -> Py.sorted l = Py.sorted l'.
Proof.
  induction 1 as [|x l l' _ IH|x y l|l l' l'' _ IH1 _ IH2]; cbn [Py.sorted].
  - reflexivity.
  - now rewrite IH.
  - apply insert_sorted_comm.
  - now rewrite IH1.
Qed.

Lemma filter_permutation {A : Type} (p : A -> bool) (l l' : list A) :
  Permutation l l' -> Permutation (filter p l) (filter p l').
Proof.
  induction 1 as [|x l l' _ IH|x y l|l l' l'' _ IH1 _ IH2]; cbn [filter].
  - constructor.
  - destruct (p x); [now constructor | exact IH].
  - destruct (p x), (p y); try reflexivity. apply perm_swap.
  - now rewrite IH1.
Qed.

Lemma select_year_grid_permutation (years : list string) (grid : string)
  (l l' : list string) :
  Permutation l l' -> select_year_grid years grid l = select_year_grid years grid l'.
Proof.
  intros H. unfold select_year_grid.
  induction years as [|y ys IH]; [reflexivity|].
  cbn [flat_map]. rewrite IH. f_equal.
  apply sorted_permutation. now apply filter_permutation.
Qed.

(** X8.  The catalog does not depend on the order in which the directory
    is listed: on the same machine with the entries of every directory
    rearranged, [get_file_list] prints and returns the same, in every
    mode. *)
Theorem get_file_list_listing_order (w : World) (order : list string -> list string)
  (self : Anhalyze) (months : option (list Py.fmt_arg))
  (one_per_month monthly_mean : bool) :
  (forall l, Permutation l (order l)) ->
  get_file_list (relisted w order) self months one_per_month monthly_mean
  = get_file_list w self months one_per_month monthly_mean.
Proof.
  intros Horder. unfold get_file_list.
  change (get_paths (relisted w order) (run_name self) false)
    with (get_paths w (run_name self) false).
  destruct (get_paths w (run_name self) false) as [out [[data_path mask_path]|e]];
    [|reflexivity].
  cbn [bind].
  change (stdin_line (relisted w order)) with (stdin_line w).
  set (dir := if monthly_mean then _ else _).
  destruct dir as [o [d|e]]; [|reflexivity].
  cbn [bind]. rewrite !lift_bind.
  change (listdir (relisted w order) d)
    with (match listdir w d with Ok l => Ok (order l) | Raise e => Raise e end).
  destruct (listdir w d) as [l|e]; [|reflexivity].
  now rewrite <- (select_year_grid_permutation _ _ l (order l) (Horder l)).
Qed.

Lemma get_file_list_listing_order_witness :
  get_file_list (relisted (catalog_world listing_1998_1999) (@rev string))
                (catalog ["1999"; "1998"]) (Some [Py.FStr "01"]) true false
  = get_file_list (catalog_world listing_1998_1999)
                  (catalog ["1999"; "1998"]) (Some [Py.FStr "01"]) true false.
Proof.
  apply get_file_list_listing_order. intros l. apply Permutation_rev.
Defined.

Lemma rmap_forall2 {A B : Type} (f : A -> result B) (l : list A) (r : list B) :
  rmap f l = Ok r -> Forall2 (fun x y => f x = Ok y) l r.
Proof.
  revert r. induction l as [|x t IH]; intros r H.
  - injection H as <-. constructor.
  - cbn [rmap] in H.
    apply rbind_ok in H. destruct H as (y & Hy & H).
    apply rbind_ok in H. destruct H as (ys & Hys & H).
    injection H as <-. constructor; [exact Hy | now apply IH].
Qed.

Lemma rmap_length {A B : Type} (f : A -> result B) (l : list A) (r : list B) :
  rmap f l = Ok r -> List.length r = List.length l.
Proof.
  intros H. apply rmap_forall2 in H. symmetry. eapply Forall2_length; eassumption.
Qed.

Lemma index_0_in {A : Type} (l : list A) (x : A) : Py.index l 0 = Ok x -> In x l.
Proof.
  rewrite index_0_spec. destruct l; [discriminate|].
  intros H. injection H as <-. now left.
Qed.

(** The steps of [get_file_list] up to the listing of the directory. *)
Lemma get_file_list_listed (w : World) (self : Anhalyze)
  (months : option (list Py.fmt_arg)) (one_per_month monthly_mean : bool)
  (out : list string) (r : list string) :
  get_file_list w self months one_per_month monthly_mean = (out, Ok r) ->
  exists data_path mask_path file_list o,
    get_paths w (run_name self) false = (o, Ok (data_path, mask_path)) /\
    listdir w (listed_directory w monthly_mean data_path) = Ok file_list.
Proof.
  unfold get_file_list. intros H.
  destruct (get_paths w (run_name self) false) as [o [[data_path mask_path]|e]];
    [|discriminate].
  exists data_path, mask_path. cbn [bind] in H.
  unfold listed_directory.
  destruct monthly_mean; cbn [bind print ret app] in H; rewrite !lift_bind in H.
  - destruct (listdir w (stdin_line w)) as [l|]; [now exists l, o|discriminate].
  - destruct (listdir w data_path) as [l|]; [now exists l, o|discriminate].
Qed.

(** The result of [get_file_list] once the paths and the listing are
    known. *)
Lemma get_file_list_selected (w : World) (self : Anhalyze)
  (months : option (list Py.fmt_arg)) (one_per_month monthly_mean : bool)
  (o : list string) (data_path mask_path : string) (file_list : list string) :
  get_paths w (run_name self) false = (o, Ok (data_path, mask_path)) ->
  listdir w (listed_directory w monthly_mean data_path) = Ok file_list ->
  let dir := listed_directory w monthly_mean data_path in
  let selected := select_year_grid (years self) (grid self) file_list in
  let month_list := match months with None => [] | Some l => l end in
  let prompts :=
    if monthly_mean
    then ["---------------------------"; "Insert monthly averaged data path: "]
    else [] in
  let finish (monthly : list string) : M (list string) :=
    ((o ++ prompts)%list,
     Ok (map (fun filename => dir ++ filename)
             (if negb (is_nil monthly) then monthly else selected))) in
  get_file_list w self months one_per_month monthly_mean =
    if one_per_month then
      match (if is_nil month_list then rmap month_of selected else Ok month_list) with
      | Raise e => ((o ++ prompts)%list, Raise e)
      | Ok ms =>
          match rmap (fun year => rmap (fun month => Py.index (month_files selected year month) 0)
                                    ms) (years self) with
          | Raise e => ((o ++ prompts)%list, Raise e)
          | Ok per_year => finish (List.concat per_year)
          end
      end
    else
      finish (if negb (is_nil month_list)
              then flat_map (fun year =>
                     flat_map (fun month => month_files selected year month) month_list)
                     (years self)
              else []).
Proof.
  intros Hpaths Hlist. unfold get_file_list, listed_directory in *.
  rewrite Hpaths. cbn [bind].
  destruct monthly_mean; cbn [bind print ret app]; rewrite !lift_bind, Hlist;
    destruct one_per_month;
    repeat match goal with
           | |- context [is_nil ?l] =>
               lazymatch l with
               | match months with _ => _ end => destruct months as [[|m ms]|]
               end
           end;
    cbn [is_nil negb bind ret lift app];
    repeat match goal with
           | |- context [rmap ?f ?l] => destruct (rmap f l); cbn [bind ret lift app]
           end;
    rewrite ?app_nil_r; try reflexivity.
Qed.

Lemma in_month_files (selected : list string) (year : string) (month : Py.fmt_arg)
  (f : string) :
  In f (month_files selected year month) <->
  In f selected /\ Py.str_in (file_name_stump year month) f = true.
Proof. unfold month_files. apply filter_In. Qed.

Lemma forall2_in_r {A B : Type} (R : A -> B -> Prop) (l : list A) (r : list B) (y : B) :
  Forall2 R l r -> In y r -> exists x, In x l /\ R x y.
Proof.
  induction 1 as [|x y' l r Hxy _ IH]; intros Hy; [destruct Hy|].
  destruct Hy as [<-|Hy].
  - exists x. split; [now left | exact Hxy].
  - destruct (IH Hy) as (x' & Hx' & HR). exists x'. split; [now right | exact HR].
Qed.

Lemma concat_forall2_in {A B : Type} (l : list A) (r : list (list B)) (Q : B -> Prop) :
  Forall2 (fun x ys => Forall (fun y => Q y) ys) l r ->
  forall y, In y (List.concat r) -> Q y.
Proof.
  induction 1 as [|x ys l r Hys _ IH]; intros y Hy; [destruct Hy|].
  cbn [List.concat] in Hy. apply in_app_or in Hy. destruct Hy as [Hy|Hy].
  - rewrite Forall_forall in Hys. now apply Hys.
  - now apply IH.
Qed.

(** Every returned path is the listed directory followed by a selected name. *)
Lemma get_file_list_subset (w : World) (self : Anhalyze)
  (months : option (list Py.fmt_arg)) (one_per_month monthly_mean : bool)
  (out r : list string) (o : list string) (data_path mask_path : string)
  (file_list : list string) :
  get_file_list w self months one_per_month monthly_mean = (out, Ok r) ->
  get_paths w (run_name self) false = (o, Ok (data_path, mask_path)) ->
  listdir w (listed_directory w monthly_mean data_path) = Ok file_list ->
  forall p, In p r ->
    exists f year,
      p = listed_directory w monthly_mean data_path ++ f /\
      In f file_list /\ In year (years self) /\
      Py.str_in ("_y" ++ year) f = true /\ Py.str_in ("_grid" ++ grid self) f = true.
Proof.
  intros Hcall Hpaths Hlist p Hp.
  set (selected := select_year_grid (years self) (grid self) file_list).
  assert (exists f, p = listed_directory w monthly_mean data_path ++ f /\ In f selected)
    as (f & -> & Hf).
  { rewrite (get_file_list_selected w self months one_per_month monthly_mean
               o data_path mask_path file_list Hpaths Hlist) in Hcall.
    cbv zeta in Hcall. fold selected in Hcall.
    assert (forall monthly : list string,
               (forall x, In x monthly -> In x selected) ->
               In p (map (fun filename => listed_directory w monthly_mean data_path ++ filename)
                         (if negb (is_nil monthly) then monthly else selected)) ->
               exists f, p = listed_directory w monthly_mean data_path ++ f /\ In f selected)
      as Hfinish.
    { intros monthly Hsub Hin. apply in_map_iff in Hin. destruct Hin as (f & <- & Hf).
      exists f. split; [reflexivity|].
      destruct (is_nil monthly); cbn [negb] in Hf; auto. }
    destruct one_per_month.
    - destruct (if is_nil _ then _ else _) as [ms|]; [|discriminate].
      destruct (rmap _ (years self)) as [per_year|] eqn:Eper; [|discriminate].
      injection Hcall as _ <-. apply (Hfinish (List.concat per_year)); [|exact Hp].
      apply rmap_forall2 in Eper.
      apply (concat_forall2_in (years self) per_year).
      eapply Forall2_impl; [|exact Eper].
      intros year ys Hys. cbv beta in Hys. apply rmap_forall2 in Hys.
      apply Forall_forall. intros y Hy.
      destruct (forall2_in_r _ _ _ y Hys Hy) as (month & _ & Hidx).
      apply index_0_in in Hidx. now apply in_month_files in Hidx.
    - injection Hcall as _ <-. eapply Hfinish; [|exact Hp].
      intros x. destruct months as [[|m ms]|]; cbn [is_nil negb]; intros Hx;
        try (now destruct Hx).
      apply in_flat_map in Hx. destruct Hx as (year & _ & Hx).
      apply in_flat_map in Hx. destruct Hx as (month & _ & Hx).
      now apply in_month_files in Hx. }
  apply in_select_year_grid in Hf. destruct Hf as (year & Hy & Hin & H1 & H2).
  exists f, year. auto.
Qed.

(** X9.  Whatever the month list and the flags, every path the catalog
    returns is the listed directory (the line read from standard input
    with [monthly_mean], the data directory otherwise) followed by a name
    of that directory's listing that carries both the year token of a
    requested year and the grid token. *)
Theorem get_file_list_within_selection (w : World) (self : Anhalyze)
  (months : option (list Py.fmt_arg)) (one_per_month monthly_mean : bool)
  (out r : list string) (o : list string) (data_path mask_path : string)
  (file_list : list string) :
  get_file_list w self months one_per_month monthly_mean = (out, Ok r) ->
  get_paths w (run_name self) false = (o, Ok (data_path, mask_path)) ->
  listdir w (listed_directory w monthly_mean data_path) = Ok file_list ->
  forall p, In p r ->
    exists f year,
      p = listed_directory w monthly_mean data_path ++ f /\
      In f file_list /\ In year (years self) /\
      Py.str_in ("_y" ++ year) f = true /\ Py.str_in ("_grid" ++ grid self) f = true.
Proof.
  exact (get_file_list_subset w self months one_per_month monthly_mean out r o
           data_path mask_path file_list).
Qed.

Lemma get_file_list_within_selection_witness :
  exists f year,
    "/data/R_y1998m02d01_gridT.nc"
    = listed_directory (catalog_world listing_1998_1999) false "/data/" ++ f /\
    In f listing_1998_1999 /\ In year ["1998"] /\
    Py.str_in ("_y" ++ year) f = true /\ Py.str_in ("_grid" ++ "T") f = true.
Proof.
  apply (get_file_list_within_selection (catalog_world listing_1998_1999) (catalog ["1998"])
           (Some [Py.FStr "02"]) true false [] ["/data/R_y1998m02d01_gridT.nc"] []
           "/data/" "/masks/" listing_1998_1999);
    [reflexivity | reflexivity | reflexivity | now left].
Defined.

Lemma concat_length_uniform {A : Type} (ll : list (list A)) (n : nat) :
  Forall (fun l => List.length l = n) ll ->
  List.length (List.concat ll) = (List.length ll * n)%nat.
Proof.
  induction 1 as [|l t Hl _ IH]; [reflexivity|].
  cbn [List.concat List.length]. rewrite length_app, IH, Hl. lia.
Qed.

Lemma forall2_forall_r {A B : Type} (R : A -> B -> Prop) (Q : B -> Prop)
  (l : list A) (r : list B) :
  (forall x y, R x y -> Q y) -> Forall2 R l r -> Forall Q r.
Proof.
  intros H. induction 1; constructor; eauto.
Qed.

(** X10.  With [one_per_month] and no month list the months are read off
    the selected files, one entry per file and not one per month, and a
    file is looked up for each of them under every year: a call that
    returns gives as many paths as there are requested years times
    selected files. *)
Theorem get_file_list_one_per_month_count (w : World) (self : Anhalyze)
  (monthly_mean : bool) (out r : list string) (o : list string)
  (data_path mask_path : string) (file_list : list string) :
  get_file_list w self None true monthly_mean = (out, Ok r) ->
  get_paths w (run_name self) false = (o, Ok (data_path, mask_path)) ->
  listdir w (listed_directory w monthly_mean data_path) = Ok file_list ->
  List.length r
  = (List.length (years self)
     * List.length (select_year_grid (years self) (grid self) file_list))%nat.
Proof.
  intros Hcall Hpaths Hlist.
  rewrite (get_file_list_selected w self None true monthly_mean
             o data_path mask_path file_list Hpaths Hlist) in Hcall.
  cbv zeta in Hcall. cbn [is_nil] in Hcall.
  set (selected := select_year_grid (years self) (grid self) file_list) in *.
  destruct (rmap month_of selected) as [ms|] eqn:Ems; [|discriminate].
  destruct (rmap _ (years self)) as [per_year|] eqn:Eper; [|discriminate].
  injection Hcall as _ <-. rewrite length_map.
  pose proof (rmap_length _ _ _ Ems) as Hms.
  pose proof (rmap_length _ _ _ Eper) as Hper.
  apply rmap_forall2 in Eper.
  assert (List.length (List.concat per_year)
          = (List.length (years self) * List.length selected)%nat) as Hlen.
  { rewrite (concat_length_uniform per_year (List.length selected)); [now rewrite Hper|].
    eapply forall2_forall_r; [|exact Eper].
    intros year ys Hys. cbv beta in Hys. apply rmap_length in Hys. congruence. }
  destruct (List.concat per_year) as [|x t] eqn:Ec; cbn [is_nil negb].
  - cbn [List.length] in Hlen.
    destruct (years self) as [|y ys] eqn:Ey.
    + unfold selected, select_year_grid. reflexivity.
    + cbn [List.length] in Hlen. destruct selected; [cbn; lia|cbn in Hlen; lia].
  - exact Hlen.
Qed.

Lemma get_file_list_one_per_month_count_witness :
  List.length ["/data/R_y1998m10d03_gridT.nc"; "/data/R_y1998m10d03_gridT.nc";
               "/data/R_y1998m10d03_gridT.nc"]
  = (List.length ["1998"]
     * List.length
         (select_year_grid ["1998"] "T"
            ["R_y1998m10d03_gridT.nc"; "R_y1998m10d08_gridT.nc";
             "R_y1998m10d13_gridT.nc"]))%nat.
Proof.
  apply (get_file_list_one_per_month_count
           (catalog_world ["R_y1998m10d03_gridT.nc"; "R_y1998m10d08_gridT.nc";
                           "R_y1998m10d13_gridT.nc"])
           (catalog ["1998"]) false [] _ [] "/data/" "/masks/"); reflexivity.
Defined.

(** X11.  With [one_per_month] off and a month list of which at least one
    year and month has a file, the catalog returns exactly the selected
    files whose name contains the stump [y<year>m<month>] of a requested
    year and a listed month, each prefixed with the listed directory. *)
Theorem get_file_list_month_filter (w : World) (self : Anhalyze)
  (months : list Py.fmt_arg) (monthly_mean : bool) (o : list string)
  (data_path mask_path : string) (file_list : list string)
  (year0 : string) (month0 : Py.fmt_arg) (f0 : string) :
  get_paths w (run_name self) false = (o, Ok (data_path, mask_path)) ->
  listdir w (listed_directory w monthly_mean data_path) = Ok file_list ->
  In year0 (years self) -> In month0 months ->
  In f0 (select_year_grid (years self) (grid self) file_list) ->
  Py.str_in (file_name_stump year0 month0) f0 = true ->
  exists out r,
    get_file_list w self (Some months) false monthly_mean = (out, Ok r) /\
    forall p, In p r <->
      exists f year month,
        p = listed_directory w monthly_mean data_path ++ f /\
        In year (years self) /\ In month months /\
        In f (select_year_grid (years self) (grid self) file_list) /\
        Py.str_in (file_name_stump year month) f = true.
Proof.
  intros Hpaths Hlist Hy0 Hm0 Hf0 Hs0.
  rewrite (get_file_list_selected w self (Some months) false monthly_mean
             o data_path mask_path file_list Hpaths Hlist).
  cbv zeta.
  set (selected := select_year_grid (years self) (grid self) file_list) in *.
  set (monthly := flat_map (fun year =>
                    flat_map (fun month => month_files selected year month) months)
                    (years self)).
  assert (forall f, In f monthly <->
                    exists year month, In year (years self) /\ In month months /\
                                       In f selected /\
                                       Py.str_in (file_name_stump year month) f = true)
    as Hmonthly.
  { intros f. unfold monthly. rewrite in_flat_map. split.
    - intros (year & Hy & Hf). apply in_flat_map in Hf. destruct Hf as (month & Hm & Hf).
      apply in_month_files in Hf. exists year, month. tauto.
    - intros (year & month & Hy & Hm & Hf & Hs). exists year. split; [exact Hy|].
      apply in_flat_map. exists month. split; [exact Hm|].
      apply in_month_files. now split. }
  assert (In f0 monthly) as Hne by (apply Hmonthly; exists year0, month0; auto).
  destruct months as [|m ms]; [destruct Hm0|].
  cbn [is_nil negb]. fold monthly.
  destruct monthly as [|x t] eqn:Em; [destruct Hne|]. cbn [is_nil negb].
  eexists. eexists. split; [reflexivity|].
  intros p. rewrite in_map_iff. split.
  - intros (f & <- & Hf). apply Hmonthly in Hf.
    destruct Hf as (year & month & Hf). exists f, year, month. tauto.
  - intros (f & year & month & -> & Hf). exists f. split; [reflexivity|].
    apply Hmonthly. exists year, month. exact Hf.
Qed.

Lemma get_file_list_month_filter_witness :
  exists out r,
    get_file_list (catalog_world listing_1998_1999) (catalog ["1998"; "1999"])
                  (Some [Py.FStr "01"; Py.FStr "07"]) false false = (out, Ok r) /\
    forall p, In p r <->
      exists f year month,
        p = listed_directory (catalog_world listing_1998_1999) false "/data/" ++ f /\
        In year ["1998"; "1999"] /\ In month [Py.FStr "01"; Py.FStr "07"] /\
        In f (select_year_grid ["1998"; "1999"] "T" listing_1998_1999) /\
        Py.str_in (file_name_stump year month) f = true.
Proof.
  apply (get_file_list_month_filter (catalog_world listing_1998_1999)
           (catalog ["1998"; "1999"]) [Py.FStr "01"; Py.FStr "07"] false [] "/data/" "/masks/"
           listing_1998_1999 "1998" (Py.FStr "01") "R_y1998m01d01_gridT.nc");
    try reflexivity; cbn; tauto.
Defined.

(** ** The [Anhalyze] constructor *)

Lemma get_paths_environment_unset (w : World) (run_name : option string)
  (environ_paths : bool) :
  environment_mode w run_name environ_paths = true ->
  environ w "MASK_PATH" = None \/ environ w "DATA_PATH" = None ->
  get_paths w run_name environ_paths = ([paths_message], Raise UnboundLocalError).
Proof.
  unfold environment_mode, deployment_host, get_paths. intros Hmode Henv.
  assert (negb (Py.str_in "portal" (hostname w)) || negb (Py.truthy run_name) || environ_paths
          = true) as ->.
  { destruct environ_paths, (Py.str_in "portal" (hostname w)), (Py.truthy run_name);
      simpl in *; congruence. }
  destruct Henv as [H|H]; rewrite H; [reflexivity|].
  destruct (environ w "MASK_PATH"); reflexivity.
Qed.

(** X12.  Constructing [Anhalyze] without [grid] and [years] looks for
    T-grid files of 1998: the data directory has been listed, and every
    path of the stored file list is the data directory followed by a name
    of that listing containing [_y1998] and [_gridT], whatever the month
    list and [one_per_month]. *)
Theorem Anhalyze_init_defaults (w : World) (run : option string)
  (months : option (list Py.fmt_arg)) (one_per_month verbose : bool)
  (out o : list string) (self : Anhalyze) (file_list : list string)
  (data_path mask_path : string) :
  Anhalyze_init w run None None months one_per_month verbose
    = (out, Ok (self, file_list)) ->
  get_paths w run false = (o, Ok (data_path, mask_path)) ->
  grid self = "T" /\ years self = ["1998"] /\
  exists listing,
    listdir w data_path = Ok listing /\
    forall p, In p file_list ->
      exists f, In f listing /\ p = data_path ++ f /\
                Py.str_in "_y1998" f = true /\ Py.str_in "_gridT" f = true.
Proof.
  unfold Anhalyze_init. intros Hinit Hpaths.
  apply bind_ok in Hinit. destruct Hinit as (o1 & fl & o2 & Hlist & Hrest & _).
  apply bind_ok in Hrest. destruct Hrest as (o3 & [] & o4 & _ & Hret & _).
  unfold ret in Hret. injection Hret as _ <- <-.
  cbn [grid years]. split; [reflexivity|]. split; [reflexivity|].
  destruct (get_file_list_listed _ _ _ _ _ _ _ Hlist)
    as (dp & mp & listing & o' & Hp & Hdir).
  cbn [run_name] in Hp. rewrite Hpaths in Hp. injection Hp as _ <- <-.
  exists listing. split; [exact Hdir|].
  intros p Hp.
  destruct (get_file_list_subset _ _ _ _ _ _ _ _ data_path mask_path listing
              Hlist Hpaths Hdir p Hp) as (f & year & -> & Hin & Hy & Hyear & Hgrid).
  cbn [years grid] in Hy, Hgrid. destruct Hy as [<-|[]].
  now exists f.
Qed.

Lemma Anhalyze_init_defaults_witness :
  grid (catalog ["1998"]) = "T" /\ years (catalog ["1998"]) = ["1998"] /\
  exists listing,
    listdir (catalog_world listing_1998_1999) "/data/" = Ok listing /\
    forall p, In p ["/data/R_y1998m01d01_gridT.nc"; "/data/R_y1998m02d01_gridT.nc"] ->
      exists f, In f listing /\ p = "/data/" ++ f /\
                Py.str_in "_y1998" f = true /\ Py.str_in "_gridT" f = true.
Proof.
  exact (Anhalyze_init_defaults (catalog_world listing_1998_1999) None None false false
           [] [] (catalog ["1998"])
           ["/data/R_y1998m01d01_gridT.nc"; "/data/R_y1998m02d01_gridT.nc"]
           "/data/" "/masks/" eq_refl eq_refl).
Defined.

(** X13.  Away from a deployment host, or without a run identifier, the
    constructor cannot go past the path lookup when [MASK_PATH] or
    [DATA_PATH] is unset: it prints the remediation message once and
    fails with [UnboundLocalError], no directory having been listed. *)
Theorem Anhalyze_init_needs_environment (w : World) (run grid : option string)
  (years : option (list string)) (months : option (list Py.fmt_arg))
  (one_per_month verbose : bool) :
  environment_mode w run false = true ->
  environ w "MASK_PATH" = None \/ environ w "DATA_PATH" = None ->
  Anhalyze_init w run grid years months one_per_month verbose
    = ([paths_message], Raise UnboundLocalError).
Proof.
  intros Hmode Henv. unfold Anhalyze_init, get_file_list. cbn [run_name].
  now rewrite (get_paths_environment_unset w run false Hmode Henv).
Qed.

Lemma Anhalyze_init_needs_environment_witness :
  Anhalyze_init (laptop None (Some "/data/")) (Some "ANHA4-WJM004") None None None false true
    = ([paths_message], Raise UnboundLocalError).
Proof.
  apply Anhalyze_init_needs_environment; [reflexivity | left; reflexivity].
Defined.

(** ** Spatial subsetter *)

Lemma np_where_index_inv (b : list bool) (r0 r1 : Z) :
  Py.index (np_where b) 0 = Ok r0 ->
  Py.index (np_where b) (-1) = Ok r1 ->
  exists lo hi,
    r0 = Z.of_nat lo /\ r1 = Z.of_nat hi /\
    (lo <= hi < List.length b)%nat /\
    nth_error b lo = Some true /\ nth_error b hi = Some true /\
    forall i, nth_error b i = Some true -> (lo <= i <= hi)%nat.
Proof.
  intros H0 H1.
  assert (exists i0, nth_error b i0 = Some true) as (i0 & Hi0).
  { rewrite np_where_nat in H0.
    destruct (map fst _) as [|h t] eqn:E;
      [cbn [map] in H0; rewrite index_empty in H0; discriminate|].
    exists h. pose proof (where_from_in 0 b h) as Hin.
    rewrite E, Nat.sub_0_r in Hin. apply Hin. now left. }
  destruct (np_where_first_last b i0 Hi0) as (lo & hi & Hlo & Hhi & Hblo & Hbhi & Hall).
  exists lo, hi. rewrite Hlo in H0. rewrite Hhi in H1.
  injection H0 as <-. injection H1 as <-.
  split; [reflexivity|]. split; [reflexivity|].
  split; [|split; [exact Hblo|split; [exact Hbhi|exact Hall]]].
  split; [apply (Hall lo Hblo)|].
  apply nth_error_Some. congruence.
Qed.

Lemma zip_with_length_le {A B C : Type} (f : A -> B -> C) (l1 : list A) (l2 : list B) :
  (List.length (zip_with f l1 l2) <= List.length l1)%nat.
Proof.
  unfold zip_with. rewrite length_map, length_combine. apply Nat.le_min_l.
Qed.

Lemma matrix_zip_ncols_le {A B C : Type} (f : A -> B -> C) (m1 : matrix A) (m2 : matrix B) :
  (ncols (matrix_zip f m1 m2) <= ncols m1)%nat.
Proof.
  unfold matrix_zip, zip_with.
  destruct m1 as [|r1 t1]; [apply Nat.le_refl|].
  destruct m2 as [|r2 t2]; [apply Nat.le_0_l|].
  cbn [combine map fst snd ncols]. apply zip_with_length_le.
Qed.

(** The resolved ranges are ordered and lie inside the grid. *)
Lemma get_row_col_range_in_grid (data : Dataset) (lat : matrix Q)
  (lat_range lon_range : Q * Q) (r0 r1 c0 c1 : Z) :
  var2d data "nav_lat_grid_T" = Some lat ->
  get_row_col_range data lat_range lon_range "gridT" = Ok ((r0, r1), (c0, c1)) ->
  (0 <= r0 <= r1 /\ r1 < Z.of_nat (List.length lat))%Z /\
  (0 <= c0 <= c1 /\ c1 < Z.of_nat (ncols lat))%Z.
Proof.
  intros Hlat. unfold get_row_col_range, nc_var2d.
  cbn [String.eqb Ascii.eqb Bool.eqb fst snd]. rewrite Hlat. cbn [rbind].
  destruct (var2d data "nav_lon_grid_T") as [lon|]; [|discriminate]. cbn [rbind].
  destruct (window_mask lat lon lat_range lon_range) as [both|]; [|discriminate].
  cbn [rbind]. intros H.
  apply rbind_ok in H. destruct H as (x0 & Hr0 & H).
  apply rbind_ok in H. destruct H as (x1 & Hr1 & H).
  apply rbind_ok in H. destruct H as (y0 & Hc0 & H).
  apply rbind_ok in H. destruct H as (y1 & Hc1 & H).
  injection H as <- <- <- <-.
  destruct (np_where_index_inv _ _ _ Hr0 Hr1) as (lo & hi & -> & -> & Hrange & _).
  destruct (np_where_index_inv _ _ _ Hc0 Hc1) as (lo' & hi' & -> & -> & Hrange' & _).
  unfold sum_axis1 in Hrange. unfold sum_axis0 in Hrange'.
  rewrite !length_map in Hrange. rewrite !length_map, length_seq in Hrange'.
  pose proof (zip_with_length_le
                (zip_with (fun x (b : bool) => if b then x else 0)) lat both) as Hrows.
  pose proof (matrix_zip_ncols_le (fun x (b : bool) => if b then x else 0) lat both)
    as Hcols.
  unfold masked_latitudes, matrix_zip in Hrange.
  unfold masked_latitudes in Hrange'.
  lia.
Qed.

(** X14.  When [get_row_col_range] returns, the ranges are ordered and
    inside the latitude grid: [0 <= first <= last < rows] and
    [0 <= first <= last < columns]. *)
Theorem get_row_col_range_bounds (data : Dataset) (lat : matrix Q)
  (lat_range lon_range : Q * Q) (r0 r1 c0 c1 : Z) :
  var2d data "nav_lat_grid_T" = Some lat ->
  get_row_col_range data lat_range lon_range "gridT" = Ok ((r0, r1), (c0, c1)) ->
  (0 <= r0 <= r1 /\ r1 < Z.of_nat (List.length lat))%Z /\
  (0 <= c0 <= c1 /\ c1 < Z.of_nat (ncols lat))%Z.
Proof. exact (get_row_col_range_in_grid data lat lat_range lon_range r0 r1 c0 c1). Qed.

Lemma get_row_col_range_bounds_witness :
  (0 <= 1 <= 1 /\ 1 < Z.of_nat (List.length equator_lat))%Z /\
  (0 <= 0 <= 1 /\ 1 < Z.of_nat (ncols equator_lat))%Z.
Proof.
  apply (get_row_col_range_bounds (grid_dataset equator_lat equator_lon) equator_lat
           (-10, 10) (-1, 11)); reflexivity.
Defined.

(** *** End-exclusive slices *)









(** ** Statistics aggregator *)

Lemma slice_empty {A : Type} (l : list A) (a : Z) : Py.slice l a a = [].
Proof. unfold Py.slice. now rewrite Nat.sub_diag. Qed.

(** X16.  Because the slices leave the last row out, a window whose
    qualifying cells all lie in one row (or the resolved row range
    [(r, r)] in general) gives a field without any cell: the mean and the
    deviation are not-a-number, and asking for minimum and maximum raises
    [ValueError]. *)
Theorem calc_stats_var_data_single_row (np_sqrt : Q -> Q) (w : World) (data : Dataset)
  (lat_range lon_range : Q * Q) (depth : Z) (var : string)
  (r : Z) (cols : Z * Z) (out : list string) (field : matrix cell) :
  get_row_col_range data lat_range lon_range "gridT" = Ok ((r, r), cols) ->
  get_var_data w data lat_range lon_range depth var true true = (out, Ok field) ->
  field = []
  /\ calc_stats_var_data np_sqrt w data lat_range lon_range depth true var
     = (out, Ok (Stats2 NaN NaN))
  /\ calc_stats_var_data np_sqrt w data lat_range lon_range depth false var
     = (out, Raise ValueError).
Proof.
  intros Hrange Hdata.
  assert (field = []) as ->.
  { revert Hdata. unfold get_var_data, select_range. rewrite Hrange, !lift_bind.
    destruct (nc_var4d data var) as [v4|]; [|discriminate].
    rewrite !lift_bind.
    destruct (Py.index v4 0) as [v3|]; [|discriminate].
    rewrite !lift_bind.
    destruct (Py.index v3 depth) as [layer|]; [|discriminate].
    unfold slice2d at 1 2. cbn [fst snd]. rewrite slice_empty. cbn [map].
    intros H. apply bind_ok in H. destruct H as (o1 & surf & o2 & _ & H & _).
    destruct (same_shape [] surf); [|discriminate].
    unfold ret in H. now injection H as _ <-. }
  split; [reflexivity|].
  unfold calc_stats_var_data. rewrite Hdata. cbn [bind].
  split; cbn; now rewrite app_nil_r.
Qed.

Lemma calc_stats_var_data_single_row_witness :
  (@nil (list cell)) = []
  /\ calc_stats_var_data (fun q => q) sample_world (field_dataset sample_votemper)
       (15, 25) (5, 35) 0 true "votemper" = ([], Ok (Stats2 NaN NaN))
  /\ calc_stats_var_data (fun q => q) sample_world (field_dataset sample_votemper)
       (15, 25) (5, 35) 0 false "votemper" = ([], Raise ValueError).
Proof.
  apply (calc_stats_var_data_single_row (fun q => q) sample_world
           (field_dataset sample_votemper) (15, 25) (5, 35) 0 "votemper" 1 (0, 2)%Z);
    reflexivity.
Defined.

Lemma fold_min_lower (t : list Q) (x : Q) :
  fold_left Qmin t x <= x /\ Forall (fun q => fold_left Qmin t x <= q) t.
Proof.
  revert x. induction t as [|y t IH]; intros x.
  - split; [apply Qle_refl | constructor].
  - cbn [fold_left]. destruct (IH (Qmin x y)) as [Hx Ht].
    pose proof (Q.le_min_l x y). pose proof (Q.le_min_r x y).
    split; [eapply Qle_trans; eassumption|].
    constructor; [eapply Qle_trans; eassumption | exact Ht].
Qed.

Lemma fold_max_upper (t : list Q) (x : Q) :
  x <= fold_left Qmax t x /\ Forall (fun q => q <= fold_left Qmax t x) t.
Proof.
  revert x. induction t as [|y t IH]; intros x.
  - split; [apply Qle_refl | constructor].
  - cbn [fold_left]. destruct (IH (Qmax x y)) as [Hx Ht].
    pose proof (Q.le_max_l x y). pose proof (Q.le_max_r x y).
    split; [eapply Qle_trans; eassumption|].
    constructor; [eapply Qle_trans; eassumption | exact Ht].
Qed.

Lemma fold_min_in (t : list Q) (x : Q) : In (fold_left Qmin t x) (x :: t).
Proof.
  revert x. induction t as [|y t IH]; intros x; [now left|].
  cbn [fold_left]. specialize (IH (Qmin x y)).
  destruct IH as [IH|IH]; [|right; now right].
  rewrite <- IH. unfold Qmin, GenericMinMax.gmin.
  destruct (x ?= y)%Q; [now left | now left | right; now left].
Qed.

Lemma fold_max_in (t : list Q) (x : Q) : In (fold_left Qmax t x) (x :: t).
Proof.
  revert x. induction t as [|y t IH]; intros x; [now left|].
  cbn [fold_left]. specialize (IH (Qmax x y)).
  destruct IH as [IH|IH]; [|right; now right].
  rewrite <- IH. unfold Qmax, GenericMinMax.gmax.
  destruct (x ?= y)%Q; [now left | right; now left | now left].
Qed.

Lemma Qnat_pos (n : nat) : (0 < n)%nat -> 0 < Qnat n.
Proof.
  intros H. unfold Qnat. change 0 with (inject_Z 0). rewrite <- Zlt_Qlt. lia.
Qed.

Lemma squares_nonneg (m : Q) (l : list Q) :
  0 <= np_sum (map (fun q => (q - m) * (q - m)) l).
Proof.
  apply np_sum_nonneg. apply Forall_forall. intros s Hs.
  apply in_map_iff in Hs. destruct Hs as (q & <- & _).
  destruct (Qlt_le_dec (q - m) 0) as [Hneg|Hpos].
  - assert ((q - m) * (q - m) == (- (q - m)) * (- (q - m))) as -> by ring.
    apply Qmult_le_0_compat; lra.
  - now apply Qmult_le_0_compat.
Qed.

(** X17.  For a field with at least one cell that is not missing,
    [calc_stats_var_data] with minimum and maximum returns four numbers:
    the minimum and the maximum are values of the field, the minimum is
    not above and the maximum not below any value of the field, and the
    deviation is the square root of a variance that is not negative. *)
Theorem calc_stats_var_data_ordered (np_sqrt : Q -> Q) (w : World) (data : Dataset)
  (lat_range lon_range : Q * Q) (depth : Z) (var : string)
  (out : list string) (field : matrix cell) :
  get_var_data w data lat_range lon_range depth var true true = (out, Ok field) ->
  valid_values (List.concat field) <> [] ->
  exists mean variance low high,
    calc_stats_var_data np_sqrt w data lat_range lon_range depth false var
      = (out, Ok (Stats4 (Num mean) (Num (np_sqrt variance)) (Num low) (Num high))) /\
    In low (valid_values (List.concat field)) /\
    In high (valid_values (List.concat field)) /\
    (forall q, In q (valid_values (List.concat field)) -> low <= q /\ q <= high) /\
    low <= high /\ 0 <= variance.
Proof.
  intros Hdata Hvalid.
  pose proof (np_stats_of_valid np_sqrt field) as Hstats. unfold stats_of_valid in Hstats.
  destruct (valid_values (List.concat field)) as [|x t] eqn:E; [congruence|].
  destruct Hstats as (m & v & Hmean & Hm & Hstd & Hv).
  exists m, v, (fold_left Qmin t x), (fold_left Qmax t x).
  destruct (fold_min_lower t x) as [Hminx Hmint].
  destruct (fold_max_upper t x) as [Hmaxx Hmaxt].
  assert (forall q, In q (x :: t) -> fold_left Qmin t x <= q /\ q <= fold_left Qmax t x)
    as Hbounds.
  { rewrite Forall_forall in Hmint, Hmaxt.
    intros q [<-|Hq]; split; auto. }
  split.
  { unfold calc_stats_var_data. rewrite Hdata. cbn [bind]. rewrite Hmean, Hstd.
    unfold np_nanmin, np_nanmax, nan_reduce. rewrite E.
    destruct (List.concat field) as [|c cs]; [discriminate E|].
    cbn [is_nil lift bind ret app]. now rewrite !app_nil_r. }
  split; [apply fold_min_in|]. split; [apply fold_max_in|].
  split; [exact Hbounds|].
  assert (0 < Qnat (List.length (x :: t))) as Hn by (apply Qnat_pos; cbn; lia).
  split.
  - eapply Qle_trans; eassumption.
  - rewrite Hv. apply Qle_shift_div_l; [exact Hn|].
    rewrite Qmult_0_l. apply squares_nonneg.
Qed.

Lemma calc_stats_var_data_ordered_witness :
  exists mean variance low high,
    calc_stats_var_data (fun q => q) sample_world (field_dataset sample_votemper)
      (5, 35) (5, 35) 0 false "votemper"
      = ([], Ok (Stats4 (Num mean) (Num variance) (Num low) (Num high))) /\
    In low (valid_values (List.concat [[Num 1; Num 2]; [Num 3; NaN]])) /\
    In high (valid_values (List.concat [[Num 1; Num 2]; [Num 3; NaN]])) /\
    (forall q, In q (valid_values (List.concat [[Num 1; Num 2]; [Num 3; NaN]])) ->
               low <= q /\ q <= high) /\
    low <= high /\ 0 <= variance.
Proof.
  apply (calc_stats_var_data_ordered (fun q => q) sample_world
           (field_dataset sample_votemper) (5, 35) (5, 35) 0 "votemper" []
           [[Num 1; Num 2]; [Num 3; NaN]]); [reflexivity | discriminate].
Defined.

(** ** Climatology engine *)

Lemma nth_error_tiled {A : Type} (l : list A) (k i : nat) :
  (i < k * List.length l)%nat ->
  nth_error (List.concat (repeat l k)) i = nth_error l (i mod List.length l).
Proof.
  revert i. induction k as [|k IH]; intros i Hi; [lia|].
  cbn [repeat List.concat].
  assert (List.length l <> 0)%nat as Hlen by (intros E; rewrite E in Hi; lia).
  destruct (Nat.lt_ge_cases i (List.length l)) as [Hlt|Hge].
  - rewrite nth_error_app1 by exact Hlt. now rewrite Nat.mod_small.
  - rewrite nth_error_app2 by exact Hge.
    rewrite IH by lia.
    replace i with ((i - List.length l) + 1 * List.length l)%nat at 2 by lia.
    now rewrite Nat.Div0.mod_add.
Qed.

Lemma concat_repeat_length {A : Type} (l : list A) (k : nat) :
  List.length (List.concat (repeat l k)) = (k * List.length l)%nat.
Proof.
  induction k as [|k IH]; [reflexivity|].
  cbn [repeat List.concat]. rewrite length_app, IH. lia.
Qed.

(** X18.  The action ['add_long'] lays [n_year] copies of the [var_mean]
    column end to end: the array has [n_year] times as many entries as
    the column, and entry [i] is entry [i mod len] of the column.  A
    table without [var_mean] raises [KeyError], and leaving [n_year] out
    raises [TypeError]. *)
Theorem calc_timeseries_add_long_tiles (df : DataFrame) (n : Z) :
  (lookup "var_mean" (columns df) = None ->
     calc_timeseries df "add_long" (Some n) = Raise KeyError)
  /\ (forall col, df_get df "var_mean" = Ok col ->
        calc_timeseries df "add_long" None = Raise TypeError /\
        exists a,
          calc_timeseries df "add_long" (Some n) = Ok (AArray a) /\
          List.length a = (Z.to_nat n * List.length col)%nat /\
          forall i, (i < List.length a)%nat ->
                    nth_error a i = nth_error col (i mod List.length col)).
Proof.
  unfold calc_timeseries.
  change (Py.str_in "g_" "add_long") with false.
  change (Py.str_in "add_" "add_long") with true.
  change (Py.str_in "long" "add_long") with true.
  cbv iota. split.
  - intros H. unfold df_get. now rewrite H.
  - intros col ->. cbn [rbind]. split; [reflexivity|].
    exists (list_repeat col n). split; [reflexivity|].
    unfold list_repeat. rewrite concat_repeat_length. split; [reflexivity|].
    intros i Hi. now apply nth_error_tiled.
Qed.

Lemma calc_timeseries_add_long_tiles_witness :
  exists a,
    calc_timeseries march_series "add_long" (Some 2%Z) = Ok (AArray a) /\
    List.length a = (Z.to_nat 2 * 52)%nat /\
    forall i, (i < List.length a)%nat ->
              nth_error a i
              = nth_error (map (fun i => VFloat (Num (inject_Z (Z.of_nat i)))) (seq 0 52))
                          (i mod 52).
Proof.
  destruct (calc_timeseries_add_long_tiles march_series 2) as [_ H].
  destruct (H (map (fun i => VFloat (Num (inject_Z (Z.of_nat i)))) (seq 0 52)) eq_refl)
    as [_ (a & Ha & Hlen & Hnth)].
  exists a. split; [exact Ha|]. split; [exact Hlen|]. exact Hnth.
Defined.

Lemma threshold_level_modes (k : Z) (a b : cell) :
  cell_equiv (threshold_level true k a b) (threshold_level false k a b).
Proof.
  unfold threshold_level. destruct a as [|x], b as [|y]; cbn [cell_binop cell_equiv]; auto.
  ring.
Qed.

(** X19.  On one table the heatwave and the cold-spell action of a level
    compute the same numbers: [mean + k (quantile - mean)] and
    [mean - k (mean - quantile)] agree entry by entry, so the two modes
    differ only in the quantile they are given. *)
Theorem calc_timeseries_add_remove_agree (df : DataFrame) (k : Z) (add remove : string)
  (mean quantile : list cell) :
  In (k, add, remove)
     [(2%Z, "add_2T", "remove_2T"); (3%Z, "add_3T", "remove_3T");
      (4%Z, "add_4T", "remove_4T")] ->
  df_get df "var_mean_mean" = Ok (map VFloat mean) ->
  df_get df "var_mean_quantile" = Ok (map VFloat quantile) ->
  exists up down,
    calc_timeseries df add None = Ok (ASeries (map VFloat up)) /\
    calc_timeseries df remove None = Ok (ASeries (map VFloat down)) /\
    Forall2 cell_equiv up down.
Proof.
  intros Hin Hmean Hquantile.
  exists (zip_with (threshold_level true k) mean quantile),
         (zip_with (threshold_level false k) mean quantile).
  split; [|split].
  - apply (calc_timeseries_threshold df true k add mean quantile); [|assumption..].
    cbn [In] in Hin |- *.
    destruct Hin as [E|[E|[E|[]]]]; injection E as <- <- <-; tauto.
  - apply (calc_timeseries_threshold df false k remove mean quantile); [|assumption..].
    cbn [In] in Hin |- *.
    destruct Hin as [E|[E|[E|[]]]]; injection E as <- <- <-; tauto.
  - unfold zip_with. clear. revert quantile.
    induction mean as [|a t IH]; intros [|b u]; cbn [combine map fst snd]; constructor.
    + apply threshold_level_modes.
    + apply IH.
Qed.

Lemma calc_timeseries_add_remove_agree_witness :
  exists up down,
    calc_timeseries march_heatwave "add_3T" None = Ok (ASeries (map VFloat up)) /\
    calc_timeseries march_heatwave "remove_3T" None = Ok (ASeries (map VFloat down)) /\
    Forall2 cell_equiv up down.
Proof.
  apply (calc_timeseries_add_remove_agree march_heatwave 3 "add_3T" "remove_3T"
           (repeat (Num (1326 # 52)) 52) (repeat (Num (459 # 10)) 52)).
  - cbn. tauto.
  - vm_compute. reflexivity.
  - vm_compute. reflexivity.
Defined.

Lemma date_compare_antisym (a b : Z * Z * Z) :
  date_compare b a = CompOpp (date_compare a b).
Proof.
  destruct a as [[y1 m1] d1], b as [[y2 m2] d2]. unfold date_compare.
  rewrite (Z.compare_antisym y1 y2), (Z.compare_antisym m1 m2), (Z.compare_antisym d1 d2).
  destruct (y1 ?= y2)%Z, (m1 ?= m2)%Z; reflexivity.
Qed.

Lemma val_compare_antisym (a b : val) :
  val_compare b a = CompOpp (val_compare a b).
Proof.
  destruct a as [[|x]|x|y1 m1 d1|], b as [[|y]|y|y2 m2 d2|];
    try reflexivity; unfold val_compare.
  - now rewrite <- Qcompare_antisym.
  - now rewrite <- Qcompare_antisym.
  - now rewrite <- Qcompare_antisym.
  - apply Z.compare_antisym.
  - apply date_compare_antisym.
Qed.

Lemma insert_key_in (k y : val) (l : list val) :
  In y (insert_key k l) -> y = k \/ In y l.
Proof.
  induction l as [|x t IH]; cbn [insert_key].
  - intros [<-|[]]. now left.
  - destruct (val_compare k x).
    + now right.
    + intros [<-|H]; [now left | now right].
    + intros [<-|H]; [right; now left|].
      destruct (IH H) as [->|Hin]; [now left | right; now right].
Qed.

Lemma insert_key_keeps (k y : val) (l : list val) :
  In y l -> In y (insert_key k l).
Proof.
  induction l as [|x t IH]; [intros []|]. cbn [insert_key].
  destruct (val_compare k x).
  - trivial.
  - intros H. now right.
  - intros [<-|H]; [now left | right; now apply IH].
Qed.

Lemma insert_key_covers (k : val) (l : list val) :
  exists k', In k' (insert_key k l) /\ val_eqb k k' = true.
Proof.
  induction l as [|x t IH]; cbn [insert_key].
  - exists k. split; [now left|].
    unfold val_eqb. pose proof (val_compare_antisym k k) as E.
    destruct (val_compare k k); [reflexivity | discriminate..].
  - destruct (val_compare k x) eqn:E.
    + exists x. split; [now left|]. unfold val_eqb. now rewrite E.
    + exists k. split; [now left|].
      unfold val_eqb. pose proof (val_compare_antisym k k) as E'.
      destruct (val_compare k k); [reflexivity | discriminate..].
    + destruct IH as (k' & Hin & Heq). exists k'. split; [now right | exact Heq].
Qed.

Lemma insert_key_hd (k : val) (l : list val) (x : val) :
  key_lt x k -> HdRel key_lt x l -> HdRel key_lt x (insert_key k l).
Proof.
  intros Hk Hl. destruct l as [|y t]; cbn [insert_key].
  - now constructor.
  - inversion Hl; subst. destruct (val_compare k y); now constructor.
Qed.

Lemma insert_key_sorted (k : val) (l : list val) :
  Sorted key_lt l -> Sorted key_lt (insert_key k l).
Proof.
  induction l as [|x t IH]; intros Hs; cbn [insert_key].
  - repeat constructor.
  - destruct (val_compare k x) eqn:E.
    + exact Hs.
    + constructor; [exact Hs | now constructor].
    + inversion Hs; subst. constructor; [now apply IH|].
      apply insert_key_hd; [|assumption].
      unfold key_lt. rewrite val_compare_antisym, E. reflexivity.
Qed.

Lemma group_keys_sorted (keys : list val) : Sorted key_lt (group_keys keys).
Proof.
  unfold group_keys.
  induction (filter (fun k => negb (val_missing k)) keys) as [|k t IH]; cbn [fold_right].
  - constructor.
  - now apply insert_key_sorted.
Qed.

Lemma group_keys_in (keys : list val) (k : val) :
  In k (group_keys keys) -> In k keys /\ val_missing k = false.
Proof.
  unfold group_keys. intros H.
  assert (In k (filter (fun k => negb (val_missing k)) keys)) as Hin.
  { induction (filter (fun k => negb (val_missing k)) keys) as [|x t IH];
      cbn [fold_right] in H; [destruct H|].
    apply insert_key_in in H. destruct H as [->|H]; [now left | right; now apply IH]. }
  apply filter_In in Hin. destruct Hin as [Hin Hm].
  split; [exact Hin|]. now destruct (val_missing k).
Qed.

Lemma group_keys_covers (keys : list val) (k : val) :
  In k keys -> val_missing k = false ->
  exists k', In k' (group_keys keys) /\ val_eqb k k' = true.
Proof.
  intros Hin Hm. unfold group_keys.
  assert (In k (filter (fun k => negb (val_missing k)) keys)) as Hf
    by (apply filter_In; split; [exact Hin | now rewrite Hm]).
  induction (filter (fun k => negb (val_missing k)) keys) as [|x t IH];
    [destruct Hf|].
  cbn [fold_right]. destruct Hf as [->|Hf].
  - apply insert_key_covers.
  - destruct (IH Hf) as (k' & Hk' & Heq). exists k'.
    split; [now apply insert_key_keeps | exact Heq].
Qed.

Lemma grouped_agg_columns (keys var_mean var_std : list val) (agg : list cell -> cell)
  (g : DataFrame) :
  grouped_agg (keys, var_mean, var_std) agg = Ok g ->
  exists means stds,
    columns g = [("wrap_day", group_keys keys); ("var_mean", means); ("var_std", stds)] /\
    nrows g = List.length (group_keys keys) /\
    List.length means = List.length (group_keys keys) /\
    List.length stds = List.length (group_keys keys).
Proof.
  unfold grouped_agg. intros H.
  apply rbind_ok in H. destruct H as (means & Hmeans & H).
  apply rbind_ok in H. destruct H as (stds & Hstds & H).
  injection H as <-. exists means, stds. cbn [columns nrows].
  apply rmap_length in Hmeans. apply rmap_length in Hstds. now repeat split.
Qed.

Lemma threshold_no_frame (df g : DataFrame) (action : string) (delta_t : list val)
  (op : list val -> list val -> result (list val)) :
  threshold df action delta_t op <> Ok (AFrame g).
Proof.
  unfold threshold. intros H.
  destruct (Py.str_in "2T" action); [|destruct (Py.str_in "3T" action);
                                       [|destruct (Py.str_in "4T" action)]];
    try discriminate;
    (apply rbind_ok in H; destruct H as (? & _ & H);
     apply rbind_ok in H; destruct H as (? & _ & H);
     apply rbind_ok in H; destruct H as (? & _ & H); discriminate).
Qed.

Lemma calc_timeseries_frame (df g : DataFrame) (action : string) (n_year : option Z) :
  calc_timeseries df action n_year = Ok (AFrame g) ->
  Py.str_in "g_" action = true /\
  exists keys var_mean var_std agg,
    df_get df "wrap_day" = Ok keys /\
    df_get df "var_mean" = Ok var_mean /\
    df_get df "var_std" = Ok var_std /\
    grouped_agg (keys, var_mean, var_std) agg = Ok g.
Proof.
  unfold calc_timeseries. intros H.
  destruct (Py.str_in "g_" action).
  - split; [reflexivity|].
    apply rbind_ok in H. destruct H as (grouped & Hgrouped & H).
    unfold groupby_wrap_day in Hgrouped.
    apply rbind_ok in Hgrouped. destruct Hgrouped as (keys & Hkeys & Hgrouped).
    apply rbind_ok in Hgrouped. destruct Hgrouped as (vm & Hvm & Hgrouped).
    apply rbind_ok in Hgrouped. destruct Hgrouped as (vs & Hvs & Hgrouped).
    injection Hgrouped as <-.
    exists keys, vm, vs.
    destruct (Py.str_in "mean" action);
      [|destruct (Py.str_in "quantile90" action);
        [|destruct (Py.str_in "quantile10" action);
          [|destruct (Py.str_in "median" action);
            [|destruct (Py.str_in "max" action); [|discriminate]]]]];
      (apply rbind_ok in H; destruct H as (g' & Hg & H); injection H as <-;
       eexists; repeat split; eassumption).
  - exfalso.
    destruct (Py.str_in "add_" action).
    + destruct (Py.str_in "long" action).
      * apply rbind_ok in H. destruct H as (? & _ & H).
        destruct n_year; discriminate.
      * apply rbind_ok in H. destruct H as (? & _ & H).
        apply rbind_ok in H. destruct H as (? & _ & H).
        apply rbind_ok in H. destruct H as (? & _ & H).
        now apply threshold_no_frame in H.
    + destruct (Py.str_in "remove_" action); [|discriminate].
      apply rbind_ok in H. destruct H as (? & _ & H).
      apply rbind_ok in H. destruct H as (? & _ & H).
      apply rbind_ok in H. destruct H as (? & _ & H).
      now apply threshold_no_frame in H.
Qed.

(** X20.  Whenever [calc_timeseries] returns a table, the action holds
    ['g_'] and the table has exactly the columns [wrap_day], [var_mean]
    and [var_std], one row per group.  Its [wrap_day] column is strictly
    ascending, holds only keys of the input that are not missing, and
    every key of the input that is not missing has its group in it. *)
Theorem calc_timeseries_grouped_table (df g : DataFrame) (action : string)
  (n_year : option Z) (keys : list val) :
  calc_timeseries df action n_year = Ok (AFrame g) ->
  df_get df "wrap_day" = Ok keys ->
  Py.str_in "g_" action = true /\
  exists ks means stds,
    columns g = [("wrap_day", ks); ("var_mean", means); ("var_std", stds)] /\
    nrows g = List.length ks /\
    List.length means = List.length ks /\
    List.length stds = List.length ks /\
    Sorted key_lt ks /\
    (forall k, In k ks -> In k keys /\ val_missing k = false) /\
    (forall k, In k keys -> val_missing k = false ->
               exists k', In k' ks /\ val_eqb k k' = true).
Proof.
  intros H Hkeys.
  apply calc_timeseries_frame in H.
  destruct H as (Hg & keys' & vm & vs & agg & Hkeys' & _ & _ & Hagg).
  split; [exact Hg|].
  rewrite Hkeys in Hkeys'. injection Hkeys' as <-.
  apply grouped_agg_columns in Hagg.
  destruct Hagg as (means & stds & Hcols & Hrows & Hlm & Hls).
  exists (group_keys keys), means, stds.
  repeat split; try assumption.
  - apply group_keys_sorted.
  - now apply group_keys_in in H.
  - now apply group_keys_in in H.
  - apply group_keys_covers.
Qed.

Lemma lookup_filter_other {A : Type} (name other : string) (cols : list (string * A)) :
  name <> other ->
  lookup name (filter (fun p => negb (fst p =? other)%string) cols) = lookup name cols.
Proof.
  intros Hne. induction cols as [|[k c] t IH]; [reflexivity|].
  cbn [filter fst lookup]. destruct (k =? other)%string eqn:E; cbn [negb].
  - apply String.eqb_eq in E. subst k.
    apply String.eqb_neq in Hne. now rewrite Hne.
  - cbn [lookup]. now rewrite IH.
Qed.

Lemma lookup_filter_same {A : Type} (name : string) (cols : list (string * A)) :
  lookup name (filter (fun p => negb (fst p =? name)%string) cols) = None.
Proof.
  induction cols as [|[k c] t IH]; [reflexivity|].
  cbn [filter fst]. destruct (k =? name)%string eqn:E; cbn [negb]; [exact IH|].
  cbn [lookup]. rewrite String.eqb_sym, E. exact IH.
Qed.

Lemma lookup_rename_other {A : Type} (name old new : string) (cols : list (string * A)) :
  name <> old -> name <> new ->
  lookup name (map (fun p => if (fst p =? old)%string then (new, snd p) else p) cols)
  = lookup name cols.
Proof.
  intros Hold Hnew. induction cols as [|[k c] t IH]; [reflexivity|].
  cbn [map fst snd lookup]. destruct (k =? old)%string eqn:E.
  - apply String.eqb_eq in E. subst k.
    apply String.eqb_neq in Hold, Hnew. cbn [lookup]. now rewrite Hold, Hnew.
  - cbn [lookup]. now rewrite IH.
Qed.

Lemma lookup_rename_new {A : Type} (old new : string) (cols : list (string * A)) :
  lookup new cols = None ->
  lookup new (map (fun p => if (fst p =? old)%string then (new, snd p) else p) cols)
  = lookup old cols.
Proof.
  induction cols as [|[k c] t IH]; [reflexivity|].
  cbn [map fst snd lookup]. intros H.
  destruct (new =? k)%string eqn:Enew; [discriminate|].
  destruct (k =? old)%string eqn:E.
  - cbn [lookup]. rewrite String.eqb_refl, (String.eqb_sym old k), E. reflexivity.
  - cbn [lookup]. rewrite Enew, (String.eqb_sym old k), E. now apply IH.
Qed.

Lemma rmap_to_datetime (l r : list val) :
  rmap to_datetime l = Ok r -> r = l.
Proof.
  intros H. apply rmap_forall2 in H.
  induction H as [|x y l r Hxy _ IH]; [reflexivity|]. f_equal; [|exact IH].
  unfold to_datetime in Hxy. destruct x as [c|z|y0 m d|]; try discriminate.
  destruct (date_compare (1677, 9, 22)%Z (y0, m, d)),
    (date_compare (y0, m, d) (2262, 4, 11)%Z); try discriminate;
    now injection Hxy as <-.
Qed.

Lemma wrap_days_of_dates (date wrap_day : list val) :
  rmap (fun p => wrap_day_of 2000 (fst p) (snd p))
       (combine (map (date_part (fun t => snd (fst t))) date)
                (map (date_part (fun t => snd t)) date)) = Ok wrap_day ->
  Forall2 (fun v w => exists y m d, v = VDate y m d /\ w = VDate 2000 m d) date wrap_day.
Proof.
  revert wrap_day. induction date as [|v t IH]; intros wrap_day H.
  - injection H as <-. constructor.
  - cbn [map combine rmap fst snd] in H.
    apply rbind_ok in H. destruct H as (w & Hw & H).
    apply rbind_ok in H. destruct H as (ws & Hws & H).
    injection H as <-. constructor; [|now apply IH].
    destruct v as [c|z|y m d|]; try discriminate.
    cbn [date_part wrap_day_of fst snd] in Hw. unfold datetime_date in Hw.
    match type of Hw with (if ?b then _ else _) = _ => destruct b end;
      [|discriminate].
    injection Hw as <-. now exists y, m, d.
Qed.

Lemma as_frame_ok (r : action_result) (df : DataFrame) :
  as_frame r = Ok df -> r = AFrame df.
Proof. destruct r; try discriminate. intros H. now injection H as <-. Qed.

(** The steps of a successful call of [anhalize_timeseries]: the table
    [df0] after the calendar columns, the two grouped tables and the five
    columns stored on top of [df0]. *)
Lemma anhalize_timeseries_steps (raw out : DataFrame) (mhw : bool) :
  anhalize_timeseries raw mhw = Ok out ->
  exists (date wrap_day : list val) (df0 ym yq : DataFrame) (cm cq : list cell),
    df_get raw "date" = Ok date /\
    Forall2 (fun v w => exists y m d, v = VDate y m d /\ w = VDate 2000 m d)
            date wrap_day /\
    nrows raw <> 0%nat /\
    nrows df0 = nrows raw /\
    (forall name,
        ~ In name ["date"; "year"; "month"; "day"; "date2"; "wrap_day"] ->
        lookup name (columns df0) = lookup name (columns raw)) /\
    df_get df0 "date" = Ok date /\
    df_get df0 "year" = Ok (map (date_part (fun t => fst (fst t))) date) /\
    df_get df0 "month" = Ok (map (date_part (fun t => snd (fst t))) date) /\
    df_get df0 "day" = Ok (map (date_part (fun t => snd t)) date) /\
    df_get df0 "wrap_day" = Ok wrap_day /\
    calc_timeseries df0 "g_mean" None = Ok (AFrame ym) /\
    calc_timeseries df0 (if mhw then "g_quantile90" else "g_quantile10") None
    = Ok (AFrame yq) /\
    df_get ym "var_mean" = Ok (map VFloat cm) /\
    df_get yq "var_mean" = Ok (map VFloat cq) /\
    List.length (list_repeat cm 52) = nrows raw /\
    List.length (list_repeat cq 52) = nrows raw /\
    out = set_column
            (set_column
               (set_column
                  (set_column
                     (set_column df0 "var_mean_mean" (map VFloat (list_repeat cm 52)))
                     "var_mean_quantile" (map VFloat (list_repeat cq 52)))
                  "var_mean_2T"
                  (map VFloat (zip_with (threshold_level mhw 2)
                                 (list_repeat cm 52) (list_repeat cq 52))))
               "var_mean_3T"
               (map VFloat (zip_with (threshold_level mhw 3)
                              (list_repeat cm 52) (list_repeat cq 52))))
            "var_mean_4T"
            (map VFloat (zip_with (threshold_level mhw 4)
                           (list_repeat cm 52) (list_repeat cq 52))).
Proof.
  intros H. unfold anhalize_timeseries in H.
  assert (exists action0 action1 action2 action3,
             (if mhw then ("g_quantile90", "add_2T", "add_3T", "add_4T")
              else ("g_quantile10", "remove_2T", "remove_3T", "remove_4T"))
             = (action0, action1, action2, action3)
             /\ action0 = (if mhw then "g_quantile90" else "g_quantile10")
             /\ In action0 ["g_mean"; "g_quantile90"; "g_quantile10"]
             /\ forall k action, In (k, action) [(2%Z, action1); (3%Z, action2); (4%Z, action3)] ->
                  In (mhw, k, action)
                     [(true, 2%Z, "add_2T"); (true, 3%Z, "add_3T"); (true, 4%Z, "add_4T");
                      (false, 2%Z, "remove_2T"); (false, 3%Z, "remove_3T");
                      (false, 4%Z, "remove_4T")])
    as (action0 & action1 & action2 & action3 & Hactions & Haction0 & Hgroup & Hlevels).
  { destruct mhw; do 4 eexists; (split; [reflexivity|]); (split; [reflexivity|]);
      (split; [cbn; tauto|]);
      intros k action [E|[E|[E|[]]]]; injection E as <- <-; cbn; tauto. }
  rewrite Hactions in H. cbv beta iota zeta in H.
  apply rbind_ok in H. destruct H as (date & Hdate & H).
  apply rbind_ok in H. destruct H as (date0 & Hdate0 & H).
  apply rmap_to_datetime in Hdate0. subst date0.
  apply rbind_ok in H. destruct H as (df & Hdf & H).
  apply rbind_ok in H. destruct H as (month & Hmonth & H).
  apply rbind_ok in H. destruct H as (day & Hday & H).
  apply rbind_ok in H. destruct H as (wrap_day & Hwrap & H).
  apply rbind_ok in H. destruct H as (df0 & Hdf0 & H).
  apply rbind_ok in H. destruct H as (tym & Htym & H).
  apply rbind_ok in H. destruct H as (tyq & Htyq & H).
  apply rbind_ok in H. destruct H as (ym & Hym & H).
  apply rbind_ok in H. destruct H as (lm & Hlm & H).
  apply rbind_ok in H. destruct H as (df1 & Hdf1 & H).
  apply rbind_ok in H. destruct H as (yq & Hyq & H).
  apply rbind_ok in H. destruct H as (lq & Hlq & H).
  apply rbind_ok in H. destruct H as (df2 & Hdf2 & H).
  apply rbind_ok in H. destruct H as (t2 & Ht2 & H).
  apply rbind_ok in H. destruct H as (df3 & Hdf3 & H).
  apply rbind_ok in H. destruct H as (t3 & Ht3 & H).
  apply rbind_ok in H. destruct H as (df4 & Hdf4 & H).
  apply rbind_ok in H. destruct H as (t4 & Ht4 & H).
  apply rbind_ok in H. destruct H as (df5 & Hdf5 & H).
  injection H as <-.
  (* the calendar columns *)
  set (years := map (date_part (fun t => fst (fst t))) date) in *.
  set (months := map (date_part (fun t => snd (fst t))) date) in *.
  set (days := map (date_part (fun t => snd t)) date) in *.
  set (base0 := set_column (set_column (set_column (set_column
                  (set_column raw "date" date) "year" years) "month" months)
                  "day" days) "date2" date) in *.
  unfold drop_column in Hdf.
  destruct (lookup "date" (columns base0)) as [c0|]; [|discriminate].
  injection Hdf as <-.
  set (dropped := {| nrows := nrows base0;
                     columns := filter (fun p => negb (fst p =? "date")%string)
                                       (columns base0) |}) in *.
  assert (forall name, name <> "date" -> name <> "date2" ->
            df_get (rename_column dropped "date2" "date") name = df_get base0 name)
    as Hother.
  { intros name H1 H2. unfold df_get, rename_column, dropped. cbn [columns].
    rewrite lookup_rename_other by assumption.
    now rewrite lookup_filter_other by assumption. }
  assert (df_get (rename_column dropped "date2" "date") "date" = Ok date) as Hnewdate.
  { unfold df_get, rename_column, dropped. cbn [columns].
    rewrite lookup_rename_new by apply lookup_filter_same.
    rewrite lookup_filter_other by discriminate.
    pose proof (df_get_set_same (set_column (set_column (set_column
                  (set_column raw "date" date) "year" years) "month" months)
                  "day" days) "date2" date) as G.
    unfold df_get in G. fold base0 in G.
    destruct (lookup "date2" (columns base0)); [exact G | discriminate]. }
  assert (df_get base0 "year" = Ok years) as Gy.
  { unfold base0. rewrite !df_get_set_other by discriminate. apply df_get_set_same. }
  assert (df_get base0 "month" = Ok months) as Gm.
  { unfold base0. rewrite !df_get_set_other by discriminate. apply df_get_set_same. }
  assert (df_get base0 "day" = Ok days) as Gd.
  { unfold base0. rewrite !df_get_set_other by discriminate. apply df_get_set_same. }
  rewrite Hother in Hmonth by discriminate. rewrite Gm in Hmonth. injection Hmonth as <-.
  rewrite Hother in Hday by discriminate. rewrite Gd in Hday. injection Hday as <-.
  apply wrap_days_of_dates in Hwrap.
  assert ((if (nrows raw =? 0)%nat then Raise ValueError
           else Ok (set_column (rename_column dropped "date2" "date") "wrap_day" wrap_day))
          = Ok df0) as Hdf0' by exact Hdf0.
  clear Hdf0.
  destruct (nrows raw =? 0)%nat eqn:Hrows; [discriminate|].
  apply Nat.eqb_neq in Hrows. injection Hdf0' as <-.
  set (df0 := set_column (rename_column dropped "date2" "date") "wrap_day" wrap_day) in *.
  (* the two broadcast columns *)
  pose proof (as_frame_ok _ _ Hym) as ->.
  pose proof (as_frame_ok _ _ Hyq) as ->.
  destruct (calc_timeseries_grouped_floats df0 ym "g_mean" _ (or_introl eq_refl) Htym Hym)
    as (cm & Hcm).
  destruct (calc_timeseries_grouped_floats df0 yq action0 _ Hgroup Htyq Hyq)
    as (cq & Hcq).
  apply (calc_timeseries_add_long ym _ cm) in Hlm; [|exact Hcm]. subst lm.
  apply (calc_timeseries_add_long yq _ cq) in Hlq; [|exact Hcq]. subst lq.
  change (2009 - 1958 + 1)%Z with 52%Z in *.
  set (mean := list_repeat cm 52) in *.
  set (quantile := list_repeat cq 52) in *.
  apply assign_array in Hdf1. destruct Hdf1 as (Hlen1 & ->).
  apply assign_array in Hdf2. destruct Hdf2 as (Hlen2 & ->).
  rewrite length_map in Hlen1, Hlen2. rewrite set_column_nrows in Hlen2.
  (* the three threshold columns *)
  set (base := set_column (set_column df0 "var_mean_mean" (map VFloat mean))
                 "var_mean_quantile" (map VFloat quantile)) in *.
  assert (df_get base "var_mean_mean" = Ok (map VFloat mean)) as Gmean.
  { unfold base. rewrite df_get_set_other by discriminate. apply df_get_set_same. }
  assert (df_get base "var_mean_quantile" = Ok (map VFloat quantile)) as Gq
    by apply df_get_set_same.
  pose proof (threshold_column base df3 mhw 2 action1 "var_mean_2T" mean quantile t2
                (Hlevels _ _ (or_introl eq_refl)) Gmean Gq Hlen1 Hlen2 Ht2 Hdf3) as E3.
  subst df3.
  set (s2 := map VFloat (zip_with (threshold_level mhw 2) mean quantile)) in *.
  assert (df_get (set_column base "var_mean_2T" s2) "var_mean_mean" = Ok (map VFloat mean))
    as Gm3 by (rewrite df_get_set_other by discriminate; exact Gmean).
  assert (df_get (set_column base "var_mean_2T" s2) "var_mean_quantile"
          = Ok (map VFloat quantile))
    as Gq3 by (rewrite df_get_set_other by discriminate; exact Gq).
  pose proof (threshold_column _ df4 mhw 3 action2 "var_mean_3T" mean quantile t3
                (Hlevels _ _ (or_intror (or_introl eq_refl))) Gm3 Gq3 Hlen1 Hlen2 Ht3 Hdf4)
    as E4.
  subst df4.
  set (s3 := map VFloat (zip_with (threshold_level mhw 3) mean quantile)) in *.
  assert (df_get (set_column (set_column base "var_mean_2T" s2) "var_mean_3T" s3)
                 "var_mean_mean" = Ok (map VFloat mean))
    as Gm4 by (rewrite df_get_set_other by discriminate; exact Gm3).
  assert (df_get (set_column (set_column base "var_mean_2T" s2) "var_mean_3T" s3)
                 "var_mean_quantile" = Ok (map VFloat quantile))
    as Gq4 by (rewrite df_get_set_other by discriminate; exact Gq3).
  pose proof (threshold_column _ df5 mhw 4 action3 "var_mean_4T" mean quantile t4
                (Hlevels _ _ (or_intror (or_intror (or_introl eq_refl))))
                Gm4 Gq4 Hlen1 Hlen2 Ht4 Hdf5)
    as E5.
  subst df5.
  exists date, wrap_day, df0, ym, yq, cm, cq.
  split; [exact Hdate|]. split; [exact Hwrap|]. split; [exact Hrows|].
  split; [reflexivity|].
  split.
  { intros name Hname.
    assert (name <> "date" /\ name <> "year" /\ name <> "month" /\ name <> "day"
            /\ name <> "date2" /\ name <> "wrap_day") as (N1 & N2 & N3 & N4 & N5 & N6)
      by (repeat split; intros ->; apply Hname; cbn; auto 10).
    assert (df_get df0 name = df_get raw name) as G.
    { unfold df0. rewrite df_get_set_other by assumption.
      rewrite Hother by assumption. unfold base0.
      rewrite !df_get_set_other by assumption. reflexivity. }
    unfold df_get in G.
    destruct (lookup name (columns df0)), (lookup name (columns raw));
      try discriminate; [now injection G as <- | reflexivity]. }
  split; [unfold df0; rewrite df_get_set_other by discriminate; exact Hnewdate|].
  split; [unfold df0; rewrite df_get_set_other by discriminate;
          rewrite Hother by discriminate; exact Gy|].
  split; [unfold df0; rewrite df_get_set_other by discriminate;
          rewrite Hother by discriminate; exact Gm|].
  split; [unfold df0; rewrite df_get_set_other by discriminate;
          rewrite Hother by discriminate; exact Gd|].
  split; [apply df_get_set_same|].
  split; [exact Htym|].
  split; [rewrite <- Haction0; exact Htyq|].
  split; [exact Hcm|]. split; [exact Hcq|].
  split; [exact Hlen1|]. split; [exact Hlen2|].
  reflexivity.
Qed.

(** X21.  [anhalize_timeseries] only succeeds on a table that has the
    columns [date], [var_mean] and [var_std] and whose number of rows is
    exactly 52 times the number of distinct wrap days: the year span
    1958-2009 is fixed in the code.  The result has as many rows as the
    input. *)
Theorem anhalize_timeseries_row_count (raw out : DataFrame) (mhw : bool) :
  anhalize_timeseries raw mhw = Ok out ->
  (exists date var_mean var_std,
      df_get raw "date" = Ok date /\
      df_get raw "var_mean" = Ok var_mean /\
      df_get raw "var_std" = Ok var_std) /\
  nrows out = nrows raw /\
  exists wrap_day,
    df_get out "wrap_day" = Ok wrap_day /\
    nrows raw = (52 * List.length (group_keys wrap_day))%nat.
Proof.
  intros H. apply anhalize_timeseries_steps in H.
  destruct H as (date & wrap_day & df0 & ym & yq & cm & cq & Hdate & _ & Hrows & Hn0
                 & Hframe & _ & _ & _ & _ & Hwrap & Hym & _ & Hcm & _ & Hlen & _ & ->).
  apply calc_timeseries_frame in Hym.
  destruct Hym as (_ & keys & vm & vs & agg & Hkeys & Hvm & Hvs & Hagg).
  rewrite Hwrap in Hkeys. injection Hkeys as <-.
  assert (forall name, ~ In name ["date"; "year"; "month"; "day"; "date2"; "wrap_day"] ->
            df_get df0 name = df_get raw name) as Hget
    by (intros name Hname; unfold df_get; now rewrite Hframe).
  split; [|split; [exact Hn0|]].
  - exists date, vm, vs. split; [exact Hdate|]. split.
    + rewrite <- Hget; [exact Hvm|]. cbn. intuition discriminate.
    + rewrite <- Hget; [exact Hvs|]. cbn. intuition discriminate.
  - exists wrap_day. split.
    + rewrite !df_get_set_other by discriminate. exact Hwrap.
    + apply grouped_agg_columns in Hagg.
      destruct Hagg as (means & stds & Hcols & _ & Hlm & _).
      unfold df_get in Hcm. rewrite Hcols in Hcm. cbn in Hcm. injection Hcm as Hcm.
      rewrite <- Hlen. unfold list_repeat. rewrite concat_repeat_length.
      rewrite <- Hlm, Hcm, length_map. reflexivity.
Qed.

Lemma anhalize_timeseries_row_count_witness :
  nrows march_heatwave = nrows march_series /\
  exists wrap_day,
    df_get march_heatwave "wrap_day" = Ok wrap_day /\
    nrows march_series = (52 * List.length (group_keys wrap_day))%nat.
Proof.
  destruct (anhalize_timeseries_row_count march_series march_heatwave true)
    as (_ & Hrows & Hwrap).
  - vm_compute. reflexivity.
  - split; [exact Hrows | exact Hwrap].
Defined.

(** X22.  [anhalize_timeseries] only adds to the table: apart from the
    calendar columns ([date] among them) and the five climatology
    columns, every column of the result is the column of the input,
    missing where it was missing; in particular [var_mean] and [var_std]
    are returned as they came. *)
Theorem anhalize_timeseries_keeps_columns (raw out : DataFrame) (mhw : bool) :
  anhalize_timeseries raw mhw = Ok out ->
  (forall name,
      ~ In name ["date"; "date2"; "year"; "month"; "day"; "wrap_day";
                 "var_mean_mean"; "var_mean_quantile";
                 "var_mean_2T"; "var_mean_3T"; "var_mean_4T"] ->
      lookup name (columns out) = lookup name (columns raw)) /\
  df_get out "var_mean" = df_get raw "var_mean" /\
  df_get out "var_std" = df_get raw "var_std".
Proof.
  intros H. apply anhalize_timeseries_steps in H.
  destruct H as (date & wrap_day & df0 & ym & yq & cm & cq & _ & _ & _ & _
                 & Hframe & _ & _ & _ & _ & _ & _ & _ & _ & _ & _ & _ & ->).
  assert (forall name,
      ~ In name ["date"; "date2"; "year"; "month"; "day"; "wrap_day";
                 "var_mean_mean"; "var_mean_quantile";
                 "var_mean_2T"; "var_mean_3T"; "var_mean_4T"] ->
      lookup name (columns (set_column (set_column (set_column (set_column
         (set_column df0 "var_mean_mean" (map VFloat (list_repeat cm 52)))
         "var_mean_quantile" (map VFloat (list_repeat cq 52)))
         "var_mean_2T" (map VFloat (zip_with (threshold_level mhw 2)
                                      (list_repeat cm 52) (list_repeat cq 52))))
         "var_mean_3T" (map VFloat (zip_with (threshold_level mhw 3)
                                      (list_repeat cm 52) (list_repeat cq 52))))
         "var_mean_4T" (map VFloat (zip_with (threshold_level mhw 4)
                                      (list_repeat cm 52) (list_repeat cq 52)))))
      = lookup name (columns raw)) as Hkeep.
  { intros name Hname.
    assert (name <> "var_mean_mean" /\ name <> "var_mean_quantile" /\
            name <> "var_mean_2T" /\ name <> "var_mean_3T" /\ name <> "var_mean_4T")
      as (N1 & N2 & N3 & N4 & N5)
      by (repeat split; intros ->; apply Hname; cbn; auto 20).
    rewrite <- Hframe by (cbn in Hname |- *; tauto).
    match goal with
    | |- lookup name (columns ?a) = lookup name (columns ?b) =>
        assert (df_get a name = df_get b name) as G
          by (rewrite !df_get_set_other by assumption; reflexivity)
    end.
    unfold df_get in G.
    match type of G with
    | match ?x with _ => _ end = match ?y with _ => _ end =>
        destruct x, y; try discriminate; [now injection G as <- | reflexivity]
    end. }
  split; [exact Hkeep|].
  split; unfold df_get; rewrite Hkeep; [reflexivity | | reflexivity | ];
    cbn; intuition discriminate.
Qed.

Lemma anhalize_timeseries_keeps_columns_witness :
  df_get march_heatwave "var_mean" = df_get march_series "var_mean" /\
  df_get march_heatwave "var_std" = df_get march_series "var_std".
Proof.
  destruct (anhalize_timeseries_keeps_columns march_series march_heatwave true)
    as (_ & H).
  - vm_compute. reflexivity.
  - exact H.
Defined.

Lemma forall2_nth_error {A B : Type} (R : A -> B -> Prop) (l : list A) (r : list B)
  (j : nat) :
  Forall2 R l r -> (j < List.length l)%nat ->
  exists x y, nth_error l j = Some x /\ nth_error r j = Some y /\ R x y.
Proof.
  intros H. revert j. induction H as [|x y l r Hxy _ IH]; intros j Hj.
  - cbn in Hj. lia.
  - destruct j as [|j]; [now exists x, y|].
    cbn [List.length] in Hj. apply IH. lia.
Qed.

(** X23.  On every row of the result the calendar columns are read off
    the date of that row: the entry of [date] is a date, [year], [month]
    and [day] are its three parts and [wrap_day] is the same month and
    day in the year 2000. *)
Theorem anhalize_timeseries_calendar_columns (raw out : DataFrame) (mhw : bool)
  (i : nat) (v : val) :
  anhalize_timeseries raw mhw = Ok out ->
  entry out "date" i = Some v ->
  exists y m d,
    v = VDate y m d /\
    entry out "year" i = Some (VInt y) /\
    entry out "month" i = Some (VInt m) /\
    entry out "day" i = Some (VInt d) /\
    entry out "wrap_day" i = Some (VDate 2000 m d).
Proof.
  intros H Hv. apply anhalize_timeseries_steps in H.
  destruct H as (date & wrap_day & df0 & ym & yq & cm & cq & Hdate & Hwrap & _ & Hn0
                 & _ & Hdate0 & Hyear & Hmonth & Hday & Hwrap0
                 & _ & _ & _ & _ & _ & _ & ->).
  erewrite entry_get in Hv
    by (rewrite !df_get_set_other by discriminate; exact Hdate0).
  assert (i < List.length date)%nat as Hi
    by (apply nth_error_Some; rewrite Hv; discriminate).
  destruct (forall2_nth_error _ date wrap_day i Hwrap Hi)
    as (v' & w & Hv' & Hw & y & m & d & -> & ->).
  rewrite Hv' in Hv. injection Hv as <-.
  exists y, m, d.
  repeat split.
  - erewrite entry_get by (rewrite !df_get_set_other by discriminate; exact Hyear).
    rewrite nth_error_map, Hv'. reflexivity.
  - erewrite entry_get by (rewrite !df_get_set_other by discriminate; exact Hmonth).
    rewrite nth_error_map, Hv'. reflexivity.
  - erewrite entry_get by (rewrite !df_get_set_other by discriminate; exact Hday).
    rewrite nth_error_map, Hv'. reflexivity.
  - erewrite entry_get by (rewrite !df_get_set_other by discriminate; exact Hwrap0).
    exact Hw.
Qed.

Lemma anhalize_timeseries_calendar_columns_witness :
  exists y m d,
    VDate 1965 3 5 = VDate y m d /\
    entry march_heatwave "year" 7 = Some (VInt y) /\
    entry march_heatwave "month" 7 = Some (VInt m) /\
    entry march_heatwave "day" 7 = Some (VInt d) /\
    entry march_heatwave "wrap_day" 7 = Some (VDate 2000 m d).
Proof.
  apply (anhalize_timeseries_calendar_columns march_series march_heatwave true 7).
  - vm_compute. reflexivity.
  - vm_compute. reflexivity.
Defined.

Lemma calc_timeseries_grouped_table_witness :
  Py.str_in "g_" "g_max" = true /\
  exists ks means stds,
    columns two_day_maxima = [("wrap_day", ks); ("var_mean", means); ("var_std", stds)] /\
    nrows two_day_maxima = List.length ks /\
    List.length means = List.length ks /\
    List.length stds = List.length ks /\
    Sorted key_lt ks /\
    (forall k, In k ks ->
               In k [VDate 2000 3 5; VDate 2000 1 2; VDate 2000 3 5; VDate 2000 1 2]
               /\ val_missing k = false) /\
    (forall k, In k [VDate 2000 3 5; VDate 2000 1 2; VDate 2000 3 5; VDate 2000 1 2] ->
               val_missing k = false ->
               exists k', In k' ks /\ val_eqb k k' = true).
Proof.
  apply (calc_timeseries_grouped_table two_day_series two_day_maxima "g_max" None).
  - vm_compute. reflexivity.
  - vm_compute. reflexivity.
Defined.

Lemma grouped_agg_groups (keys var_mean var_std : list val) (agg : list cell -> cell)
  (g : DataFrame) :
  grouped_agg (keys, var_mean, var_std) agg = Ok g ->
  exists means,
    df_get g "var_mean" = Ok means /\
    Forall2 (fun k v => exists cs,
                 rmap to_cell (group_values keys var_mean k) = Ok cs /\
                 v = VFloat (agg cs))
            (group_keys keys) means.
Proof.
  unfold grouped_agg. intros H.
  apply rbind_ok in H. destruct H as (means & Hmeans & H).
  apply rbind_ok in H. destruct H as (stds & _ & H).
  injection H as <-. exists means. split; [reflexivity|].
  apply rmap_forall2 in Hmeans.
  induction Hmeans as [|k v ks vs Hkv _ IH]; constructor; [|exact IH].
  apply rbind_ok in Hkv. destruct Hkv as (cs & Hcs & Hv).
  injection Hv as <-. now exists cs.
Qed.

Lemma calc_timeseries_grouped_by (df g : DataFrame) (action : string)
  (agg : list cell -> cell) :
  In (action, agg)
     [("g_mean", agg_mean); ("g_quantile90", agg_quantile (9 # 10));
      ("g_quantile10", agg_quantile (1 # 10))] ->
  calc_timeseries df action None = Ok (AFrame g) ->
  exists keys var_mean var_std,
    df_get df "wrap_day" = Ok keys /\
    df_get df "var_mean" = Ok var_mean /\
    df_get df "var_std" = Ok var_std /\
    grouped_agg (keys, var_mean, var_std) agg = Ok g.
Proof.
  intros Hin H. cbn [In] in Hin.
  destruct Hin as [E|[E|[E|[]]]]; injection E as <- <-;
    unfold calc_timeseries in H;
    repeat match type of H with
           | context [Py.str_in ?a ?b] =>
               let v := eval vm_compute in (Py.str_in a b) in
               change (Py.str_in a b) with v in H
           end;
    cbv iota in H;
    (apply rbind_ok in H; destruct H as (grouped & Hgrouped & H);
     unfold groupby_wrap_day in Hgrouped;
     apply rbind_ok in Hgrouped; destruct Hgrouped as (keys & Hkeys & Hgrouped);
     apply rbind_ok in Hgrouped; destruct Hgrouped as (vm & Hvm & Hgrouped);
     apply rbind_ok in Hgrouped; destruct Hgrouped as (vs & Hvs & Hgrouped);
     injection Hgrouped as <-;
     apply rbind_ok in H; destruct H as (g' & Hg & H); injection H as <-;
     exists keys, vm, vs; repeat split; assumption).
Qed.

(** One broadcast column: row [i] holds the reduction of the group of
    the wrap day at position [i mod k] of the ascending wrap days. *)
Lemma broadcast_entry (df g : DataFrame) (action : string) (agg : list cell -> cell)
  (keys var_mean : list val) (cs : list cell) (i : nat) :
  In (action, agg)
     [("g_mean", agg_mean); ("g_quantile90", agg_quantile (9 # 10));
      ("g_quantile10", agg_quantile (1 # 10))] ->
  calc_timeseries df action None = Ok (AFrame g) ->
  df_get df "wrap_day" = Ok keys ->
  df_get df "var_mean" = Ok var_mean ->
  df_get g "var_mean" = Ok (map VFloat cs) ->
  (i < List.length (list_repeat cs 52))%nat ->
  exists key group,
    nth_error (group_keys keys) (i mod List.length (group_keys keys)) = Some key /\
    rmap to_cell (group_values keys var_mean key) = Ok group /\
    nth_error (map VFloat (list_repeat cs 52)) i = Some (VFloat (agg group)).
Proof.
  intros Hin Hcalc Hkeys Hvm Hcs Hi.
  destruct (calc_timeseries_grouped_by df g action agg Hin Hcalc)
    as (keys' & vm' & vs & Hkeys' & Hvm' & _ & Hagg).
  rewrite Hkeys in Hkeys'. injection Hkeys' as <-.
  rewrite Hvm in Hvm'. injection Hvm' as <-.
  apply grouped_agg_groups in Hagg. destruct Hagg as (means & Hmeans & Hall).
  rewrite Hcs in Hmeans. injection Hmeans as <-.
  pose proof (Forall2_length Hall) as Hlen. rewrite length_map in Hlen.
  unfold list_repeat in Hi. rewrite concat_repeat_length in Hi.
  change (Z.to_nat 52) with 52%nat in Hi.
  assert (List.length cs <> 0)%nat as Hpos by lia.
  destruct (forall2_nth_error _ _ _ (i mod List.length (group_keys keys)) Hall)
    as (key & v & Hkey & Hv & group & Hgroup & ->).
  { apply Nat.mod_upper_bound. lia. }
  exists key, group. split; [exact Hkey|]. split; [exact Hgroup|].
  rewrite <- list_repeat_floats. unfold list_repeat.
  rewrite nth_error_tiled
    by (rewrite length_map; change (Z.to_nat 52) with 52%nat; lia).
  rewrite length_map, <- Hlen. exact Hv.
Qed.

(** X24.  The grouped means and quantiles are written back by position,
    not by day: with [k] distinct wrap days in ascending order, row [i]
    of [var_mean_mean] holds the mean of the [var_mean] entries of the
    wrap day at position [i mod k], and row [i] of [var_mean_quantile]
    holds their 0.9 quantile (0.1 in cold-spell mode), whatever the date
    of row [i] is. *)
Theorem anhalize_timeseries_broadcast (raw out : DataFrame) (mhw : bool)
  (wrap_day var_mean : list val) (i : nat) :
  anhalize_timeseries raw mhw = Ok out ->
  df_get out "wrap_day" = Ok wrap_day ->
  df_get raw "var_mean" = Ok var_mean ->
  (i < nrows out)%nat ->
  exists key group,
    nth_error (group_keys wrap_day) (i mod List.length (group_keys wrap_day)) = Some key /\
    rmap to_cell (group_values wrap_day var_mean key) = Ok group /\
    entry out "var_mean_mean" i = Some (VFloat (agg_mean group)) /\
    entry out "var_mean_quantile" i
    = Some (VFloat (agg_quantile (if mhw then 9 # 10 else 1 # 10) group)).
Proof.
  intros H Hwd Hvm Hi. apply anhalize_timeseries_steps in H.
  destruct H as (date & wrap_day' & df0 & ym & yq & cm & cq & _ & _ & _ & Hn0
                 & Hframe & _ & _ & _ & _ & Hwrap0
                 & Hym & Hyq & Hcm & Hcq & Hlm & Hlq & ->).
  rewrite !df_get_set_other in Hwd by discriminate.
  rewrite Hwrap0 in Hwd. injection Hwd as ->.
  rewrite !set_column_nrows in Hi.
  assert (df_get df0 "var_mean" = Ok var_mean) as Hvm0.
  { unfold df_get. rewrite Hframe by (cbn; intuition discriminate). exact Hvm. }
  destruct (broadcast_entry df0 ym "g_mean" agg_mean wrap_day var_mean cm i)
    as (key & group & Hkey & Hgroup & Hmean); try assumption; [cbn; tauto | lia |].
  destruct (broadcast_entry df0 yq (if mhw then "g_quantile90" else "g_quantile10")
              (agg_quantile (if mhw then 9 # 10 else 1 # 10)) wrap_day var_mean cq i)
    as (key' & group' & Hkey' & Hgroup' & Hquantile); try assumption;
    [destruct mhw; cbn; tauto | lia |].
  rewrite Hkey in Hkey'. injection Hkey' as <-.
  rewrite Hgroup in Hgroup'. injection Hgroup' as <-.
  exists key, group. split; [exact Hkey|]. split; [exact Hgroup|]. split.
  - erewrite entry_get
      by (rewrite !df_get_set_other by discriminate; apply df_get_set_same).
    exact Hmean.
  - erewrite entry_get
      by (rewrite !df_get_set_other by discriminate; apply df_get_set_same).
    exact Hquantile.
Qed.

Lemma anhalize_timeseries_broadcast_witness :
  entry split_heatwave "wrap_day" 1 = Some (VDate 2000 1 2) /\
  nth_error (group_keys (repeat (VDate 2000 1 2) 52 ++ repeat (VDate 2000 3 5) 52)%list)
            (1 mod List.length
                     (group_keys (repeat (VDate 2000 1 2) 52
                                  ++ repeat (VDate 2000 3 5) 52)%list))
  = Some (VDate 2000 3 5) /\
  (exists q, entry split_heatwave "var_mean_mean" 1 = Some (VFloat (Num q)) /\ q == 5) /\
  exists key group,
    nth_error (group_keys (repeat (VDate 2000 1 2) 52 ++ repeat (VDate 2000 3 5) 52)%list)
              (1 mod List.length
                       (group_keys (repeat (VDate 2000 1 2) 52
                                    ++ repeat (VDate 2000 3 5) 52)%list))
    = Some key /\
    rmap to_cell
         (group_values (repeat (VDate 2000 1 2) 52 ++ repeat (VDate 2000 3 5) 52)%list
            (repeat (VFloat (Num 1)) 52 ++ repeat (VFloat (Num 5)) 52)%list key)
    = Ok group /\
    entry split_heatwave "var_mean_mean" 1 = Some (VFloat (agg_mean group)) /\
    entry split_heatwave "var_mean_quantile" 1
    = Some (VFloat (agg_quantile (9 # 10) group)).
Proof.
  split; [vm_compute; reflexivity|]. split; [vm_compute; reflexivity|].
  split; [eexists; split; [vm_compute; reflexivity | reflexivity]|].
  apply (anhalize_timeseries_broadcast split_series split_heatwave true
           (repeat (VDate 2000 1 2) 52 ++ repeat (VDate 2000 3 5) 52)%list
           (repeat (VFloat (Num 1)) 52 ++ repeat (VFloat (Num 5)) 52)%list 1).
  - vm_compute. reflexivity.
  - vm_compute. reflexivity.
  - vm_compute. reflexivity.
  - cbv [split_heatwave nrows]. lia.
Defined.

(** ** Windows north of the equator *)

(** X25.  For either grid ([gridT] reads [nav_lat_grid_T] and
    [nav_lon_grid_T], any other grid reads [nav_lat] and [nav_lon]), on a
    rectangular grid and a window whose lower latitude bound is not
    negative, [get_row_col_range] returns the first and last row and the
    first and last column holding a cell strictly inside the window;
    every such row and column lies between them. *)
Theorem get_row_col_range_hull (data : Dataset) (grid : string) (lat lon : matrix Q)
  (lat_range lon_range : Q * Q) (i0 j0 : nat) :
  var2d data (latitude_variable grid) = Some lat ->
  var2d data (longitude_variable grid) = Some lon ->
  same_shape lat lon = true ->
  rectangular lat ->
  0 <= fst lat_range ->
  qualifies lat lon lat_range lon_range i0 j0 ->
  exists r0 r1 c0 c1 : nat,
    get_row_col_range data lat_range lon_range grid
      = Ok ((Z.of_nat r0, Z.of_nat r1), (Z.of_nat c0, Z.of_nat c1)) /\
    row_qualifies lat lon lat_range lon_range r0 /\
    row_qualifies lat lon lat_range lon_range r1 /\
    (forall i, row_qualifies lat lon lat_range lon_range i -> (r0 <= i <= r1)%nat) /\
    col_qualifies lat lon lat_range lon_range c0 /\
    col_qualifies lat lon lat_range lon_range c1 /\
    (forall j, col_qualifies lat lon lat_range lon_range j -> (c0 <= j <= c1)%nat).
Proof.
  intros Hlat Hlon Hshape Hrect Hnorth Hq.
  pose proof (row_counts lat lon lat_range lon_range Hnorth) as Hrows.
  pose proof (col_counts lat lon lat_range lon_range Hnorth Hshape Hrect) as Hcols.
  destruct (np_where_first_last _ i0 (proj2 (Hrows i0) (ex_intro _ j0 Hq)))
    as (r0 & r1 & Hr0 & Hr1 & Hin0 & Hin1 & Hrange).
  destruct (np_where_first_last _ j0 (proj2 (Hcols j0) (ex_intro _ i0 Hq)))
    as (c0 & c1 & Hc0 & Hc1 & Hcin0 & Hcin1 & Hcrange).
  exists r0, r1, c0, c1.
  split.
  - unfold get_row_col_range, nc_var2d, window_mask.
    unfold latitude_variable, longitude_variable in Hlat, Hlon.
    destruct (grid =? "gridT")%string; cbn [fst snd];
      rewrite Hlat, Hlon; cbn [rbind];
      rewrite same_shape_map, Hshape; cbn [rbind];
      fold (masked_grid lat lon lat_range lon_range);
      rewrite Hr0, Hr1, Hc0, Hc1; reflexivity.
  - repeat split; try (now apply Hrows); try (now apply Hcols).
    + apply Hrange. now apply Hrows.
    + apply Hrange. now apply Hrows.
    + apply Hcrange. now apply Hcols.
    + apply Hcrange. now apply Hcols.
Qed.

Lemma get_row_col_range_hull_witness :
  exists r0 r1 c0 c1 : nat,
    get_row_col_range (velocity_dataset separable_lat separable_lon) (15, 45) (5, 35) "gridU"
      = Ok ((Z.of_nat r0, Z.of_nat r1), (Z.of_nat c0, Z.of_nat c1)) /\
    (forall i, row_qualifies separable_lat separable_lon (15, 45) (5, 35) i ->
               (r0 <= i <= r1)%nat) /\
    (forall j, col_qualifies separable_lat separable_lon (15, 45) (5, 35) j ->
               (c0 <= j <= c1)%nat).
Proof.
  destruct (get_row_col_range_hull (velocity_dataset separable_lat separable_lon) "gridU"
              separable_lat separable_lon (15, 45) (5, 35) 2 1)
    as (r0 & r1 & c0 & c1 & H & _ & _ & Hrows & _ & _ & Hcols);
    try reflexivity.
  - intros r1 r2 H1 H2. cbn in H1, H2.
    repeat (destruct H1 as [<-|H1]); try destruct H1;
      repeat (destruct H2 as [<-|H2]); try destruct H2; reflexivity.
  - discriminate.
  - eexists. eexists. repeat split; reflexivity.
  - now exists r0, r1, c0, c1.
Defined.

Lemma in_range_within (inner outer : Q * Q) (x : Q) :
  fst outer <= fst inner -> snd inner <= snd outer ->
  in_range inner x = true -> in_range outer x = true.
Proof.
  unfold in_range. intros Hlo Hhi H.
  apply andb_true_iff in H. destruct H as [H1 H2].
  apply Qltb_lt in H1, H2. apply andb_true_iff.
  split; apply Qltb_true; lra.
Qed.

(** X26.  Both preset regions of [init_location] are proper windows
    north of the equator, with the central longitude and the standard
    parallels inside them, and the James Bay window lies inside the
    Hudson Bay window.  Hence on a rectangular T-grid
    [get_row_col_range] resolves either preset to the first and last row
    and column holding a cell of the region: the four bounds hold such a
    cell, and every row and column that does lies between them. *)
Theorem init_location_windows (hudson_bay : bool) (data : Dataset) (lat lon : matrix Q)
  (i0 j0 : nat) :
  var2d data "nav_lat_grid_T" = Some lat ->
  var2d data "nav_lon_grid_T" = Some lon ->
  same_shape lat lon = true ->
  rectangular lat ->
  qualifies lat lon (lat_range (init_location hudson_bay))
            (lon_range (init_location hudson_bay)) i0 j0 ->
  let info := init_location hudson_bay in
  (0 < fst (lat_range info) /\ fst (lat_range info) < snd (lat_range info) /\
   fst (lon_range info) < snd (lon_range info)) /\
  in_range (lon_range info) (central_longitude info) = true /\
  in_range (lat_range info) (fst (standard_parallels info)) = true /\
  in_range (lat_range info) (snd (standard_parallels info)) = true /\
  (forall x, in_range (lat_range (init_location false)) x = true ->
             in_range (lat_range (init_location true)) x = true) /\
  (forall y, in_range (lon_range (init_location false)) y = true ->
             in_range (lon_range (init_location true)) y = true) /\
  exists r0 r1 c0 c1 : nat,
    get_row_col_range data (lat_range info) (lon_range info) "gridT"
      = Ok ((Z.of_nat r0, Z.of_nat r1), (Z.of_nat c0, Z.of_nat c1)) /\
    row_qualifies lat lon (lat_range info) (lon_range info) r0 /\
    row_qualifies lat lon (lat_range info) (lon_range info) r1 /\
    (forall i, row_qualifies lat lon (lat_range info) (lon_range info) i ->
               (r0 <= i <= r1)%nat) /\
    col_qualifies lat lon (lat_range info) (lon_range info) c0 /\
    col_qualifies lat lon (lat_range info) (lon_range info) c1 /\
    (forall j, col_qualifies lat lon (lat_range info) (lon_range info) j ->
               (c0 <= j <= c1)%nat).
Proof.
  intros Hlat Hlon Hshape Hrect Hq info.
  split; [destruct hudson_bay; cbn; repeat split; reflexivity|].
  split; [destruct hudson_bay; reflexivity|].
  split; [destruct hudson_bay; reflexivity|].
  split; [destruct hudson_bay; reflexivity|].
  split; [intros x; apply in_range_within; cbn; discriminate|].
  split; [intros y; apply in_range_within; cbn; discriminate|].
  apply (get_row_col_range_northern data lat lon (lat_range info) (lon_range info) i0 j0);
    try assumption.
  unfold info. destruct hudson_bay; cbn; discriminate.
Qed.

Lemma init_location_windows_witness :
  exists r0 r1 c0 c1 : nat,
    get_row_col_range (grid_dataset bay_lat bay_lon)
      (lat_range (init_location false)) (lon_range (init_location false)) "gridT"
      = Ok ((Z.of_nat r0, Z.of_nat r1), (Z.of_nat c0, Z.of_nat c1)) /\
    row_qualifies bay_lat bay_lon (lat_range (init_location false))
      (lon_range (init_location false)) r0 /\
    row_qualifies bay_lat bay_lon (lat_range (init_location false))
      (lon_range (init_location false)) r1 /\
    (forall i, row_qualifies bay_lat bay_lon (lat_range (init_location false))
                 (lon_range (init_location false)) i -> (r0 <= i <= r1)%nat) /\
    col_qualifies bay_lat bay_lon (lat_range (init_location false))
      (lon_range (init_location false)) c0 /\
    col_qualifies bay_lat bay_lon (lat_range (init_location false))
      (lon_range (init_location false)) c1 /\
    (forall j, col_qualifies bay_lat bay_lon (lat_range (init_location false))
                 (lon_range (init_location false)) j -> (c0 <= j <= c1)%nat).
Proof.
  destruct (init_location_windows false (grid_dataset bay_lat bay_lon) bay_lat bay_lon 1 1)
    as (_ & _ & _ & _ & _ & _ & H); try reflexivity.
  - intros r1 r2 H1 H2. cbn in H1, H2.
    repeat (destruct H1 as [<-|H1]); try destruct H1;
      repeat (destruct H2 as [<-|H2]); try destruct H2; reflexivity.
  - eexists. eexists. repeat split; reflexivity.
  - exact H.
Defined.
